(** * Sleep tracker / stress and mood logger: the analytics core

    A shallow embedding of the TypeScript services of the application
    (sleep-duration derivation, Pearson correlation and trend analysis,
    gamification statistics, streaks, badges and achievements, rule-based
    insights) together with the properties stated about them.

    Conventions of the embedding:
    - a JavaScript [number] is an IEEE 754 binary64 value, modelled by Rocq's
      primitive [float] (same format, same round-to-nearest-even arithmetic,
      one NaN), so that a function evaluates to what the program computes;
    - quantities that are array lengths, counters, timestamps or day numbers
      are written on [Z]: the double arithmetic performed on them is exact in
      their range;
    - a string is an ASCII [string]; a [date] field, a well-formed
      [YYYY-MM-DD] text, is represented by the day it denotes;
    - the current date, the current time and the time zone of the device
      are parameters of the functions that read them;
    - [async] functions are written as the functions they compute;
    - a mutable array handed to a function is threaded explicitly: a function
      that writes to its argument returns the array as it is after the call. *)

From Stdlib Require Import ZArith Ascii String Floats Bool Lia List.
From Stdlib Require Import Sorting.Permutation Sorting.Sorted.
Import ListNotations.

Set Warnings "-inexact-float".
Open Scope string_scope.
Open Scope list_scope.
Open Scope Z_scope.

(* ================================================================== *)
(** ** The JavaScript runtime operations the services rely on *)

Module JS.

(** The double nearest to the rational [p / q], for [0 <= p] and [0 < q]
    (round to nearest, ties to even; overflow gives [infinity]).  The
    quotient is taken with at least 62 significant bits and a sticky bit,
    then rounded once by the reference rounding of [SpecFloat]. *)
Definition Q2F (p q : Z) : float :=
  if p =? 0 then 0%float
  else
    let s := 64 + Z.log2 q - Z.log2 p in
    let num := if 0 <=? s then p * 2 ^ s else p in
    let den := if 0 <=? s then q else q * 2 ^ (- s) in
    let sticky := if num mod den =? 0 then 0 else 1 in
    SF2Prim (binary_normalize prec emax (2 * (num / den) + sticky) (- s - 1) false).

(** An integer as a double (exact below 2^53 in absolute value); the
    primitive conversion serves below 2^62. *)
Definition ofZ (z : Z) : float :=
  if (0 <=? z) && (z <? 4611686018427387904) then of_uint63 (Uint63.of_Z z)
  else if z <? 0 then (- Q2F (- z) 1)%float
  else Q2F z 1.

(** [Math.floor]. *)
Definition floor (x : float) : float :=
  match Prim2SF x with
  | S754_finite s m e =>
      if 0 <=? e then x
      else ofZ (cond_Zopp s (Zpos m) / 2 ^ (- e))
  | _ => x
  end.

(** [Math.round]: the nearest integer, ties towards +infinity; a result
    of zero keeps the sign of the argument. *)
Definition round (x : float) : float :=
  match Prim2SF x with
  | S754_finite s m e =>
      if 0 <=? e then x
      else
        let z := (2 * cond_Zopp s (Zpos m) + 2 ^ (- e)) / 2 ^ (- e + 1) in
        if z =? 0 then (if s then neg_zero else zero) else ofZ z
  | _ => x
  end.

(** [x || 0] on numbers: the falsy numbers are the zeros and NaN. *)
Definition orZero (x : float) : float :=
  if is_nan x || is_zero x then 0%float else x.

(** Truthiness of a number, as [filter] and [&&] read it. *)
Definition truthy (x : float) : bool := negb (is_nan x || is_zero x).

(** *** Strings *)

(** [s.split(sep)] for a one-character separator. *)
Fixpoint split (sep : ascii) (s : string) : list string :=
  match s with
  | EmptyString => [EmptyString]
  | String c s' =>
      if Ascii.eqb c sep then EmptyString :: split sep s'
      else match split sep s' with
           | w :: ws => String c w :: ws
           | [] => [String c EmptyString]
           end
  end.

Definition code (c : ascii) : Z := Z.of_N (N_of_ascii c).

Definition isWhite (c : ascii) : bool :=
  let n := code c in ((9 <=? n) && (n <=? 13)) || (n =? 32).

Fixpoint dropWhite (l : list ascii) : list ascii :=
  match l with
  | c :: l' => if isWhite c then dropWhite l' else l
  | [] => []
  end.

Definition trim (l : list ascii) : list ascii :=
  rev (dropWhite (rev (dropWhite l))).

(** The value of [c] as a digit of the given base, if it is one. *)
Definition digitOf (base : Z) (c : ascii) : option Z :=
  let n := code c in
  let v := if (48 <=? n) && (n <=? 57) then n - 48
           else if (97 <=? n) && (n <=? 122) then n - 87
           else if (65 <=? n) && (n <=? 90) then n - 55
           else base in
  if v <? base then Some v else None.

(** Reads the longest prefix of digits: the value accumulated on [acc],
    the number of digits read, and what follows them. *)
Fixpoint digits (base acc count : Z) (l : list ascii) : Z * Z * list ascii :=
  match l with
  | c :: l' =>
      match digitOf base c with
      | Some v => digits base (acc * base + v) (count + 1) l'
      | None => (acc, count, l)
      end
  | [] => (acc, count, [])
  end.

Definition isChar (c : ascii) (a b : string) : bool :=
  (String c EmptyString =? a)%string || (String c EmptyString =? b)%string.

(** An optional exponent part that must use up the input. *)
Definition exponentPart (l : list ascii) : option Z :=
  match l with
  | [] => Some 0
  | c :: l1 =>
      if isChar c "e" "E" then
        let '(neg, l2) :=
          match l1 with
          | s :: r => if isChar s "+" "+" then (false, r)
                      else if isChar s "-" "-" then (true, r)
                      else (false, l1)
          | [] => (false, l1)
          end in
        match digits 10 0 0 l2 with
        | (v, n, []) => if 0 <? n then Some (if neg then - v else v) else None
        | _ => None
        end
      else None
  end.

(** [StrUnsignedDecimalLiteral]. *)
Definition unsignedDecimal (l : list ascii) : option float :=
  if (string_of_list_ascii l =? "Infinity")%string then Some infinity
  else
    let '(i, ni, l1) := digits 10 0 0 l in
    let '(d, nf, l2) :=
      match l1 with
      | c :: r => if isChar c "." "." then digits 10 i 0 r else (i, 0, l1)
      | [] => (i, 0, l1)
      end in
    if ni + nf =? 0 then None
    else match exponentPart l2 with
         | Some e =>
             let e10 := e - nf in
             Some (if 0 <=? e10 then Q2F (d * 10 ^ e10) 1 else Q2F d (10 ^ (- e10)))
         | None => None
         end.

(** A non-decimal integer literal ([0x], [0o], [0b]). *)
Definition radixLiteral (l : list ascii) : option float :=
  match l with
  | z :: p :: r =>
      let base := if isChar p "x" "X" then 16
                  else if isChar p "o" "O" then 8
                  else if isChar p "b" "B" then 2 else 0 in
      if isChar z "0" "0" && (0 <? base) then
        match digits base 0 0 r with
        | (v, n, []) => if 0 <? n then Some (Q2F v 1) else None
        | _ => None
        end
      else None
  | _ => None
  end.

(** [Number(s)] on a string (the StringToNumber conversion): blanks are
    trimmed, the empty string is 0, a string that is no numeric literal
    is NaN. *)
Definition Number (s : string) : float :=
  match trim (list_ascii_of_string s) with
  | [] => 0%float
  | c :: r =>
      let signed :=
        if isChar c "-" "-" then option_map PrimFloat.opp (unsignedDecimal r)
        else if isChar c "+" "+" then unsignedDecimal r
        else unsignedDecimal (c :: r) in
      match signed, radixLiteral (c :: r) with
      | Some v, _ => v
      | None, Some v => v
      | None, None => nan
      end
  end.

(** The [i]-th variable of an array destructuring pattern: a missing
    element is [undefined], which the arithmetic operators read as NaN. *)
Definition element (i : nat) (l : list float) : float := nth i l nan.

End JS.

(* ================================================================== *)
(** ** HealthService: derivation of the sleep duration *)

Module HealthService.
Import JS.
Local Open Scope float_scope.

(** [calculateSleepDuration(startTime, endTime)], in hours. *)
Definition calculateSleepDuration (startTime endTime : string) : float :=
  let startParts := map Number (split ":" startTime) in
  let endParts := map Number (split ":" endTime) in
  let startHour := element 0 startParts in
  let startMin := element 1 startParts in
  let endHour := element 0 endParts in
  let endMin := element 1 endParts in
  let startMinutes := startHour * 60 + startMin in
  let endMinutes := endHour * 60 + endMin in
  let endMinutes :=
    if endMinutes <? startMinutes then endMinutes + 24 * 60 else endMinutes in
  let durationMinutes := endMinutes - startMinutes in
  durationMinutes / 60.

(** The rounding [logEntry] applies to the duration before storing it. *)
Definition storedDuration (startTime endTime : string) : float :=
  round (calculateSleepDuration startTime endTime * 100) / 100.

End HealthService.

(** ** SleepTrackingScreen: the screen's own copy of the derivation *)

Module SleepTrackingScreen.
Import JS.
Local Open Scope float_scope.

Definition calculateSleepDuration (start end_ : string) : float :=
  let startParts := map Number (split ":" start) in
  let endParts := map Number (split ":" end_) in
  let startHour := element 0 startParts in
  let startMin := element 1 startParts in
  let endHour := element 0 endParts in
  let endMin := element 1 endParts in
  let startMinutes := startHour * 60 + startMin in
  let endMinutes := endHour * 60 + endMin in
  let endMinutes :=
    if endMinutes <? startMinutes then endMinutes + 24 * 60 else endMinutes in
  let durationMinutes := endMinutes - startMinutes in
  round ((durationMinutes / 60) * 100) / 100.

End SleepTrackingScreen.

(** ** The HH:MM format of the time fields (the data model's reading) *)

Module TimeFormat.
Import JS.

Definition isDigit (c : ascii) : bool := (48 <=? code c) && (code c <=? 57).

Definition digitValue (c : ascii) : Z := code c - 48.

(** Two digits, a colon, two digits; hours 00..23, minutes 00..59. *)
Definition wellFormed (s : string) : bool :=
  match list_ascii_of_string s with
  | [h1; h2; c; m1; m2] =>
      isDigit h1 && isDigit h2 && Ascii.eqb c ":" && isDigit m1 && isDigit m2
      && (10 * digitValue h1 + digitValue h2 <? 24)
      && (10 * digitValue m1 + digitValue m2 <? 60)
  | _ => false
  end.

(** Minutes since midnight denoted by a well-formed time. *)
Definition minuteOfDay (s : string) : Z :=
  match list_ascii_of_string s with
  | [h1; h2; _; m1; m2] =>
      60 * (10 * digitValue h1 + digitValue h2) + (10 * digitValue m1 + digitValue m2)
  | _ => 0
  end.

Definition digitChar (d : Z) : ascii := ascii_of_N (Z.to_N (48 + d)).

(** The HH:MM text of hour [h] and minute [m]. *)
Definition format (h m : Z) : string :=
  string_of_list_ascii
    [digitChar (h / 10); digitChar (h mod 10); ":"%char;
     digitChar (m / 10); digitChar (m mod 10)].

(** The hour or minute field of a time string, as the derivation reads it. *)
Definition field (i : nat) (s : string) : float :=
  element i (map Number (split ":" s)).

(** The minute count the derivation computes from a time string. *)
Definition minutes (s : string) : float :=
  (field 0 s * 60 + field 1 s)%float.

(** The arithmetic the derivation runs on the two minute counts. *)
Definition hours (startMinutes endMinutes : float) : float :=
  (((if endMinutes <? startMinutes then endMinutes + 24 * 60 else endMinutes)
    - startMinutes) / 60)%float.

(** A time string with a missing or non-numeric hour or minute field. *)
Definition unreadable (s : string) : Prop := field 0 s = nan \/ field 1 s = nan.

End TimeFormat.

(** Bounded universal checks by evaluation: [P] on [z], [z + 1], ... *)
Fixpoint forallFrom (n : nat) (z : Z) (P : Z -> bool) : bool :=
  match n with
  | O => true
  | S k => P z && forallFrom k (z + 1) P
  end.

(* ================================================================== *)
(** ** Dates: the operations of [Date] the services use *)

Module Dates.

(** A calendar date.  The [date] field holds a well-formed [YYYY-MM-DD]
    text; it is represented by the day it denotes, counted from
    1970-01-01.  Two such texts are equal exactly when their days are, and
    [new Date(date).getTime()] is the day times 86 400 000 ms. *)
Definition CalendarDate := Z.

Definition getTime (d : CalendarDate) : Z := d * 86400000.

(** [t.toISOString().split('T')[0]]: the UTC date of the instant [t] (in
    ms since the epoch). *)
Definition toISODate (t : Z) : CalendarDate := t / 86400000.

(** The time zone of the device: the offset of local time from UTC, in
    ms, at a UTC instant and at a local time (the two readings of the
    language's LocalTZA). *)
Record zone := {
  offsetAtUTC : Z -> Z;
  offsetAtLocal : Z -> Z
}.

(** A zone whose clock is never changed. *)
Definition fixedOffset (z : zone) : Prop :=
  exists c, (forall t, offsetAtUTC z t = c) /\ (forall t, offsetAtLocal z t = c).

Definition utc : zone := {| offsetAtUTC := fun _ => 0; offsetAtLocal := fun _ => 0 |}.

(** [d.setDate(d.getDate() - 1)] on the instant [t]: the same local time
    of day on the previous local day, converted back to UTC. *)
Definition setDatePrevious (z : zone) (t : Z) : Z :=
  let localTime := t + offsetAtUTC z t in
  let newLocal := localTime - 86400000 in
  newLocal - offsetAtLocal z newLocal.

End Dates.

(* ================================================================== *)
(** ** The data model *)

Module Types.
Import Dates.


Record SleepData := {
  start_time : string;
  end_time : string;
  duration_hours : float;
  quality_score : float
}.

Record MoodData := {
  mood_score : float;
  stress_score : float;
  journal_entry : string;
  voice_note_path : option string
}.

Record SymptomData := {
  gi_flare : float;
  skin_flare : float;
  migraine : float
}.

(** [HealthEntrySchema], the shape of the stored daily entries (the
    gamification and insights services read the same objects under the
    name [HealthEntry]). *)
Record HealthEntrySchema := {
  date : CalendarDate;
  sleep : SleepData;
  mood : MoodData;
  symptoms : SymptomData
}.

(** A template literal: its fixed parts and the values interpolated in
    it, kept unformatted. *)
Inductive piece :=
| Lit (s : string)
| Int (z : Z)
| Fixed (x : float) (fractionDigits : Z).

Definition text := list piece.

End Types.

(** ** Array operations *)

Module Arr.
Import JS.

(** [a.slice(start)]. *)
Definition sliceFrom {A} (start : Z) (a : list A) : list A :=
  let len := Z.of_nat (length a) in
  let k := if start <? 0 then Z.max (len + start) 0 else Z.min start len in
  skipn (Z.to_nat k) a.

(** [a.slice(start, stop)]. *)
Definition slice {A} (start stop : Z) (a : list A) : list A :=
  let len := Z.of_nat (length a) in
  let k := if start <? 0 then Z.max (len + start) 0 else Z.min start len in
  let f := if stop <? 0 then Z.max (len + stop) 0 else Z.min stop len in
  firstn (Z.to_nat (Z.max (f - k) 0)) (skipn (Z.to_nat k) a).

(** [a.reduce((acc, v, i) => f(acc, v, i), init)]. *)
Fixpoint reduceFrom {A B} (f : B -> A -> nat -> B) (i : nat) (a : list A) (acc : B) : B :=
  match a with
  | [] => acc
  | v :: r => reduceFrom f (S i) r (f acc v i)
  end.

Definition reduce {A B} (f : B -> A -> nat -> B) (a : list A) (init : B) : B :=
  reduceFrom f 0 a init.

(** [a.reduce((s, v) => s + v, 0)]. *)
Definition sum (a : list float) : float :=
  reduce (fun s v _ => (s + v)%float) a 0%float.

(** Insertion of [x] after the elements that may stay before it. *)
Fixpoint insert {A} (before : A -> A -> bool) (x : A) (l : list A) : list A :=
  match l with
  | [] => [x]
  | y :: r => if before y x then y :: insert before x r else x :: y :: r
  end.

(** [a.sort(compare)] for a consistent comparator, as the stable sort the
    language prescribes: [before y x] says that [compare(y, x) <= 0], that
    is, [y] is not to be moved behind [x]. *)
Definition sort {A} (before : A -> A -> bool) (a : list A) : list A :=
  fold_left (fun sorted x => insert before x sorted) a [].

(** The comparators of the services: a difference of two numbers. *)
Definition ascending {A} (key : A -> Z) (y x : A) : bool := key y - key x <=? 0.
Definition descending {A} (key : A -> Z) (y x : A) : bool := key x - key y <=? 0.
Definition descendingF {A} (key : A -> float) (y x : A) : bool :=
  negb (0 <? key x - key y)%float.

End Arr.

(* ================================================================== *)
(** ** CorrelationsService *)

Module SleepCorrelation.
Record t := mk {
  sleepMetric : string;
  symptomMetric : string;
  correlation : float;
  strength : string;
  description : string;
  actionableInsight : string
}.
End SleepCorrelation.

Module TrendAnalysis.
Inductive direction := increasing | decreasing | stable.

Definition name (d : direction) : string :=
  match d with
  | increasing => "increasing"
  | decreasing => "decreasing"
  | stable => "stable"
  end.

Record t := mk {
  metric : string;
  trend : direction;
  changeRate : float;
  period : Types.text;
  significance : float
}.
End TrendAnalysis.

Module HealthInsight.
Inductive kind := correlation | trend | pattern | anomaly.

(** The [data] payloads the service attaches. *)
Inductive payload :=
| EntriesCount (entriesCount : Z)
| OfCorrelation (c : SleepCorrelation.t)
| OfTrend (t : TrendAnalysis.t)
| Schedule (avgDuration stdDev : float)
| SleepDebt (sleepDebtRatio : float) (shortSleepDays : Z)
| Mismatch (correlation : float).

Record t := mk {
  type : kind;
  title : string;
  description : Types.text;
  confidence : float;
  actionable : bool;
  recommendation : option string;
  data : payload
}.
End HealthInsight.

Module CorrelationsService.
Import JS Types Arr.
Local Open Scope float_scope.

(** Pearson correlation coefficient between two arrays. *)
Definition calculateCorrelation (x y : list float) : float :=
  if negb (length x =? length y)%nat || (length x =? 0)%nat then 0
  else
    let n := ofZ (Z.of_nat (length x)) in
    let sumX := reduce (fun a b _ => a + b) x 0 in
    let sumY := reduce (fun a b _ => a + b) y 0 in
    let sumXY := reduce (fun acc xi i => acc + xi * element i y) x 0 in
    let sumX2 := reduce (fun acc xi _ => acc + xi * xi) x 0 in
    let sumY2 := reduce (fun acc yi _ => acc + yi * yi) y 0 in
    let numerator := n * sumXY - sumX * sumY in
    let denominator := sqrt ((n * sumX2 - sumX * sumX) * (n * sumY2 - sumY * sumY)) in
    if denominator =? 0 then 0 else numerator / denominator.

(** Simplified t-test. *)
Definition calculateSignificance (correlation : float) (sampleSize : Z) : float :=
  if (sampleSize <? 3)%Z then 1
  else
    let t := abs correlation
             * sqrt ((ofZ sampleSize - 2) / (1 - correlation * correlation)) in
    if 2.576 <? t then 0.01
    else if 1.96 <? t then 0.05
    else if 1.645 <? t then 0.10
    else 0.20.

Definition getCorrelationStrength (correlation : float) : string * string :=
  let absCorr := abs correlation in
  if 0.7 <=? absCorr then ("strong", "Very strong relationship")
  else if 0.5 <=? absCorr then ("moderate", "Moderate relationship")
  else if 0.3 <=? absCorr then ("weak", "Weak relationship")
  else ("weak", "Very weak or no relationship").

(** One of the eight blocks of [analyzeSleepCorrelations]: the pair is
    reported when its coefficient exceeds 0.2 in absolute value. *)
Definition report (sleepMetric symptomMetric : string) (corr : float)
    (description actionableInsight : string) : list SleepCorrelation.t :=
  if 0.2 <? abs corr then
    [SleepCorrelation.mk sleepMetric symptomMetric corr
       (fst (getCorrelationStrength corr)) description actionableInsight]
  else [].

Definition sign (corr : float) : string :=
  if corr <? 0 then "negatively" else "positively".

Definition analyzeSleepCorrelations (entries : list HealthEntrySchema)
  : list SleepCorrelation.t :=
  if (Z.of_nat (length entries) <? 3)%Z then []
  else
    let sleepDuration := map (fun e => duration_hours (sleep e)) entries in
    let sleepQuality := map (fun e => quality_score (sleep e)) entries in
    let giFlare := map (fun e => gi_flare (symptoms e)) entries in
    let skinFlare := map (fun e => skin_flare (symptoms e)) entries in
    let migraine := map (fun e => Types.migraine (symptoms e)) entries in
    let mood := map (fun e => mood_score (Types.mood e)) entries in
    let stress := map (fun e => stress_score (Types.mood e)) entries in
    let durationGiCorr := calculateCorrelation sleepDuration giFlare in
    let durationSkinCorr := calculateCorrelation sleepDuration skinFlare in
    let durationMigraineCorr := calculateCorrelation sleepDuration migraine in
    let qualityGiCorr := calculateCorrelation sleepQuality giFlare in
    let qualitySkinCorr := calculateCorrelation sleepQuality skinFlare in
    let qualityMigraineCorr := calculateCorrelation sleepQuality migraine in
    let moodGiCorr := calculateCorrelation mood giFlare in
    let stressGiCorr := calculateCorrelation stress giFlare in
    let correlations :=
      report "Sleep Duration" "GI Flare" durationGiCorr
        ("Sleep duration " ++ sign durationGiCorr ++ " correlates with GI flare severity")%string
        (if durationGiCorr <? 0
         then "Shorter sleep may increase GI symptoms. Aim for 7-9 hours of sleep."
         else "Longer sleep may help reduce GI symptoms.")
      ++ report "Sleep Duration" "Skin Flare" durationSkinCorr
        ("Sleep duration " ++ sign durationSkinCorr ++ " correlates with skin flare severity")%string
        (if durationSkinCorr <? 0
         then "Insufficient sleep may trigger skin flares. Maintain consistent sleep schedule."
         else "Adequate sleep may help prevent skin flares.")
      ++ report "Sleep Duration" "Migraine" durationMigraineCorr
        ("Sleep duration " ++ sign durationMigraineCorr ++ " correlates with migraine severity")%string
        (if durationMigraineCorr <? 0
         then "Poor sleep may trigger migraines. Focus on sleep hygiene."
         else "Good sleep may help prevent migraines.")
      ++ report "Sleep Quality" "GI Flare" qualityGiCorr
        ("Sleep quality " ++ sign qualityGiCorr ++ " correlates with GI flare severity")%string
        (if qualityGiCorr <? 0
         then "Poor sleep quality may worsen GI symptoms. Improve sleep environment."
         else "Better sleep quality may reduce GI symptoms.")
      ++ report "Sleep Quality" "Skin Flare" qualitySkinCorr
        ("Sleep quality " ++ sign qualitySkinCorr ++ " correlates with skin flare severity")%string
        (if qualitySkinCorr <? 0
         then "Poor sleep quality may trigger skin flares. Consider sleep aids or environment changes."
         else "Good sleep quality may help prevent skin flares.")
      ++ report "Sleep Quality" "Migraine" qualityMigraineCorr
        ("Sleep quality " ++ sign qualityMigraineCorr ++ " correlates with migraine severity")%string
        (if qualityMigraineCorr <? 0
         then "Poor sleep quality may trigger migraines. Focus on deep sleep."
         else "Good sleep quality may help prevent migraines.")
      ++ report "Mood" "GI Flare" moodGiCorr
        ("Mood " ++ sign moodGiCorr ++ " correlates with GI flare severity")%string
        (if moodGiCorr <? 0
         then "Low mood may worsen GI symptoms. Consider stress management techniques."
         else "Positive mood may help reduce GI symptoms.")
      ++ report "Stress" "GI Flare" stressGiCorr
        ("Stress " ++ sign stressGiCorr ++ " correlates with GI flare severity")%string
        (if 0 <? stressGiCorr
         then "High stress may increase GI symptoms. Practice relaxation techniques."
         else "Low stress may help reduce GI symptoms.") in
    sort (descendingF (fun c => abs (SleepCorrelation.correlation c))) correlations.

(** The value of a metric in an entry; an unknown metric reads 0. *)
Definition metricValue (metric : string) (entry : HealthEntrySchema) : float :=
  if (metric =? "sleep_duration")%string then duration_hours (sleep entry)
  else if (metric =? "sleep_quality")%string then quality_score (sleep entry)
  else if (metric =? "mood")%string then mood_score (Types.mood entry)
  else if (metric =? "stress")%string then stress_score (Types.mood entry)
  else if (metric =? "gi_flare")%string then gi_flare (symptoms entry)
  else if (metric =? "skin_flare")%string then skin_flare (symptoms entry)
  else if (metric =? "migraine")%string then Types.migraine (symptoms entry)
  else 0.

(** [Array.from({ length: n }, (_, i) => i)]. *)
Definition indices (n : nat) : list float := map (fun i => ofZ (Z.of_nat i)) (seq 0 n).

(** [analyzeTrends(entries, metric, days)]; [days] defaults to 30. *)
Definition analyzeTrends (entries : list HealthEntrySchema) (metric : string)
    (days : Z) : option TrendAnalysis.t :=
  if (Z.of_nat (length entries) <? 3)%Z then None
  else
    let recentEntries := sliceFrom (- days) entries in
    let values := map (metricValue metric) recentEntries in
    if (Z.of_nat (length values) <? 2)%Z then None
    else
      let n := ofZ (Z.of_nat (length values)) in
      let x := indices (length values) in
      let sumX := reduce (fun a b _ => a + b) x 0 in
      let sumY := reduce (fun a b _ => a + b) values 0 in
      let sumXY := reduce (fun acc xi i => acc + xi * element i values) x 0 in
      let sumX2 := reduce (fun acc xi _ => acc + xi * xi) x 0 in
      let slope := (n * sumXY - sumX * sumY) / (n * sumX2 - sumX * sumX) in
      let changeRate := (slope / (sumY / n)) * 100 in
      let trend :=
        if abs changeRate <? 5 then TrendAnalysis.stable
        else if 0 <? changeRate then TrendAnalysis.increasing
        else TrendAnalysis.decreasing in
      Some (TrendAnalysis.mk metric trend (abs changeRate)
              [Int days; Lit " days"]
              (calculateSignificance (abs slope) (Z.of_nat (length values)))).

Definition defaultDays : Z := 30.

(** [s.replace('_', ' ')]: the first underscore only. *)
Fixpoint replaceUnderscore (s : string) : string :=
  match s with
  | EmptyString => EmptyString
  | String c r => if Ascii.eqb c "_" then String " " r else String c (replaceUnderscore r)
  end.

Definition upper (c : ascii) : ascii :=
  let n := code c in
  if ((97 <=? n) && (n <=? 122))%Z then ascii_of_N (Z.to_N (n - 32)) else c.

Fixpoint toUpperCase (s : string) : string :=
  match s with
  | EmptyString => EmptyString
  | String c r => String (upper c) (toUpperCase r)
  end.

(** The recommendation table, keyed by metric and direction. *)
Definition getTrendRecommendation (metric : string) (trend : TrendAnalysis.direction)
  : string :=
  let row (inc dec sta : string) :=
    match trend with
    | TrendAnalysis.increasing => inc
    | TrendAnalysis.decreasing => dec
    | TrendAnalysis.stable => sta
    end in
  if (metric =? "sleep_duration")%string then
    row "Great! You're getting more sleep. Continue this positive trend."
        "Your sleep duration is declining. Consider earlier bedtimes or better sleep hygiene."
        "Your sleep duration is consistent. Maintain this healthy pattern."
  else if (metric =? "sleep_quality")%string then
    row "Excellent! Your sleep quality is improving. Keep up the good habits."
        "Your sleep quality is declining. Check your sleep environment and routine."
        "Your sleep quality is stable. Consider ways to optimize further."
  else if (metric =? "mood")%string then
    row "Your mood is improving! Continue activities that boost your wellbeing."
        "Your mood is declining. Consider stress management and self-care activities."
        "Your mood is stable. Look for opportunities to enhance your daily happiness."
  else if (metric =? "stress")%string then
    row "Your stress levels are rising. Consider relaxation techniques and time management."
        "Great job managing stress! Continue your stress-reduction strategies."
        "Your stress levels are stable. Consider proactive stress management."
  else if (metric =? "gi_flare")%string then
    row "GI symptoms are worsening. Review your diet and stress management."
        "Your GI symptoms are improving! Continue your current approach."
        "GI symptoms are stable. Consider dietary or lifestyle optimizations."
  else if (metric =? "skin_flare")%string then
    row "Skin flares are increasing. Check triggers like stress, diet, or environment."
        "Your skin is improving! Continue your current skincare routine."
        "Skin condition is stable. Consider preventive measures."
  else if (metric =? "migraine")%string then
    row "Migraines are becoming more frequent. Track triggers and consider prevention."
        "Migraines are decreasing! Continue your current management approach."
        "Migraine frequency is stable. Focus on trigger identification and prevention."
  else "Continue monitoring this metric for better insights.".

(** [analyzeSleepPatterns]; [Math.pow(v, 2)] is taken as [v * v]. *)
Definition analyzeSleepPatterns (entries : list HealthEntrySchema)
  : list HealthInsight.t :=
  if (Z.of_nat (length entries) <? 7)%Z then []
  else
    let sleepDurations := map (fun e => duration_hours (sleep e)) entries in
    let sleepQualities := map (fun e => quality_score (sleep e)) entries in
    let count := ofZ (Z.of_nat (length sleepDurations)) in
    let avgDuration := reduce (fun a b _ => a + b) sleepDurations 0 / count in
    let durationVariance :=
      reduce (fun acc d _ => acc + (d - avgDuration) * (d - avgDuration)) sleepDurations 0
      / count in
    let durationStdDev := sqrt durationVariance in
    let shortSleepDays := Z.of_nat (length (filter (fun d => d <? 6) sleepDurations)) in
    let sleepDebtRatio := ofZ shortSleepDays / count in
    let qualityDurationCorr := calculateCorrelation sleepDurations sleepQualities in
    (if 1.5 <? durationStdDev then
       [HealthInsight.mk HealthInsight.pattern "Irregular Sleep Schedule"
          [Lit "Your sleep duration varies significantly ("; Fixed durationStdDev 1;
           Lit " hours standard deviation)."]
          0.8 true
          (Some "Try to maintain a consistent bedtime and wake time, even on weekends.")
          (HealthInsight.Schedule avgDuration durationStdDev)]
     else [])
    ++ (if 0.3 <? sleepDebtRatio then
          [HealthInsight.mk HealthInsight.pattern "Frequent Sleep Deprivation"
             [Lit "You're getting less than 6 hours of sleep ";
              Fixed (sleepDebtRatio * 100) 0; Lit "% of the time."]
             0.9 true
             (Some "Prioritize getting 7-9 hours of sleep nightly. Consider adjusting your schedule.")
             (HealthInsight.SleepDebt sleepDebtRatio shortSleepDays)]
        else [])
    ++ (if qualityDurationCorr <? 0.3 then
          [HealthInsight.mk HealthInsight.pattern "Sleep Quality vs Duration Mismatch"
             [Lit "Your sleep quality doesn't strongly correlate with sleep duration."]
             0.7 true
             (Some "Focus on sleep quality factors like environment, routine, and stress management.")
             (HealthInsight.Mismatch qualityDurationCorr)]
        else []).

(** The insight pushed when fewer than seven entries are given. *)
Definition needMoreData (entriesCount : Z) : HealthInsight.t :=
  HealthInsight.mk HealthInsight.pattern "Need More Data"
    [Lit "Track your health data for at least a week to see meaningful patterns and correlations."]
    1.0 true
    (Some "Continue logging daily to unlock personalized insights.")
    (HealthInsight.EntriesCount entriesCount).

Definition metrics : list string :=
  ["sleep_duration"; "sleep_quality"; "mood"; "stress"; "gi_flare"; "skin_flare"; "migraine"].

(** [generateInsights(entries)]. *)
Definition generateInsights (entries : list HealthEntrySchema) : list HealthInsight.t :=
  if (Z.of_nat (length entries) <? 7)%Z then
    [needMoreData (Z.of_nat (length entries))]
  else
    let correlations := analyzeSleepCorrelations entries in
    let fromCorrelations :=
      flat_map (fun corr =>
        if 0.3 <? abs (SleepCorrelation.correlation corr) then
          [HealthInsight.mk HealthInsight.correlation
             (SleepCorrelation.sleepMetric corr ++ " & " ++ SleepCorrelation.symptomMetric corr)%string
             [Lit (SleepCorrelation.description corr)]
             (abs (SleepCorrelation.correlation corr)) true
             (Some (SleepCorrelation.actionableInsight corr))
             (HealthInsight.OfCorrelation corr)]
        else []) correlations in
    let fromTrends :=
      flat_map (fun metric =>
        match analyzeTrends entries metric defaultDays with
        | Some trend =>
            if 10 <? TrendAnalysis.changeRate trend then
              [HealthInsight.mk HealthInsight.trend
                 (toUpperCase (replaceUnderscore metric) ++ " Trend")%string
                 ([Lit "Your "; Lit (replaceUnderscore metric); Lit " is ";
                   Lit (TrendAnalysis.name (TrendAnalysis.trend trend)); Lit " by ";
                   Fixed (TrendAnalysis.changeRate trend) 1; Lit "% over the last "]
                  ++ TrendAnalysis.period trend)
                 (1 - TrendAnalysis.significance trend) true
                 (Some (getTrendRecommendation metric (TrendAnalysis.trend trend)))
                 (HealthInsight.OfTrend trend)]
            else []
        | None => []
        end) metrics in
    let fromPatterns := analyzeSleepPatterns entries in
    sort (descendingF HealthInsight.confidence)
         (fromCorrelations ++ fromTrends ++ fromPatterns).

End CorrelationsService.

(** ** The trend formula in the specification's words *)

Module TrendSpec.
Import JS Arr.
Local Open Scope float_scope.

(** [mean(values)]. *)
Definition mean (values : list float) : float :=
  sum values / ofZ (Z.of_nat (length values)).

(** The positions 0..n-1 paired with the values. *)
Definition positions (values : list float) : list (float * float) :=
  combine (map (fun i => ofZ (Z.of_nat i)) (seq 0 (length values))) values.

(** The least-squares linear-regression slope over the index positions
    0..n-1, in the standard closed form
    (n Sxy - Sx Sy) / (n Sxx - Sx Sx). *)
Definition slope (values : list float) : float :=
  let n := ofZ (Z.of_nat (length values)) in
  let pts := positions values in
  let Sx := sum (map fst pts) in
  let Sy := sum (map snd pts) in
  let Sxy := sum (map (fun p => fst p * snd p) pts) in
  let Sxx := sum (map (fun p => fst p * fst p) pts) in
  (n * Sxy - Sx * Sy) / (n * Sxx - Sx * Sx).

(** The values a trend is computed from: the metric over the trailing
    window. *)
Definition window (entries : list Types.HealthEntrySchema) (metric : string)
    (days : Z) : list float :=
  map (CorrelationsService.metricValue metric) (sliceFrom (- days) entries).

End TrendSpec.

(* ================================================================== *)
(** ** GamificationService *)

Module Badge.
Inductive category := streak | consistency | improvement | milestone | special.

Record t := mk {
  id : string;
  name : string;
  description : string;
  icon : string;
  color : string;
  category_ : category;
  unlockedAt : option Z;
  progress : Z;
  maxProgress : Z;
  isUnlocked : bool
}.

Definition withProgress (b : t) (p : Z) : t :=
  mk (id b) (name b) (description b) (icon b) (color b) (category_ b)
     (unlockedAt b) p (maxProgress b) (isUnlocked b).

(** [badge.isUnlocked = true; badge.unlockedAt = new Date()]. *)
Definition unlock (b : t) (now : Z) : t :=
  mk (id b) (name b) (description b) (icon b) (color b) (category_ b)
     (Some now) (progress b) (maxProgress b) true.
End Badge.

Module Achievement.
Record t := mk {
  id : string;
  title : string;
  description : string;
  points : Z;
  unlockedAt : option Z;
  isUnlocked : bool
}.

Definition unlock (a : t) (now : Z) : t :=
  mk (id a) (title a) (description a) (points a) (Some now) true.
End Achievement.

Module StreakData.
Record t := mk {
  currentStreak : Z;
  longestStreak : Z;
  lastLogDate : option Dates.CalendarDate;  (* [None] is the empty text *)
  streakType : string
}.
End StreakData.

Module UserStats.
Inductive trend := up | down | stable.

Record t := mk {
  totalLogs : Z;
  totalDays : Z;
  averageMood : float;
  averageSleep : float;
  averageStress : float;
  improvementTrend : trend;
  badges : list Badge.t;
  achievements : list Achievement.t;
  streaks : StreakData.t;
  level : Z;
  experience : Z;
  nextLevelExp : Z
}.

Definition withCatalog (s : t) (b : list Badge.t) (a : list Achievement.t) : t :=
  mk (totalLogs s) (totalDays s) (averageMood s) (averageSleep s) (averageStress s)
     (improvementTrend s) b a (streaks s) (level s) (experience s) (nextLevelExp s).
End UserStats.

Module GamificationService.
Import JS Dates Types Arr.

Definition badge (id name description icon color : string) (c : Badge.category)
    (maxProgress : Z) : Badge.t :=
  Badge.mk id name description icon color c None 0 maxProgress false.

Definition initializeBadges : list Badge.t :=
  [ badge "streak_3" "Getting Started" "Log 3 days in a row" "flame" "#FF6B6B" Badge.streak 3;
    badge "streak_7" "Week Warrior" "Log 7 days in a row" "trophy" "#4ECDC4" Badge.streak 7;
    badge "streak_30" "Monthly Master" "Log 30 days in a row" "medal" "#45B7D1" Badge.streak 30;
    badge "streak_100" "Century Champion" "Log 100 days in a row" "star" "#96CEB4" Badge.streak 100;
    badge "consistency_week" "Weekly Warrior" "Log every day for a week" "calendar" "#FECA57"
      Badge.consistency 7;
    badge "consistency_month" "Monthly Master" "Log every day for a month" "calendar-outline"
      "#FF9FF3" Badge.consistency 30;
    badge "mood_improvement" "Mood Booster" "Improve mood score by 2+ points over 7 days"
      "happy" "#54A0FF" Badge.improvement 1;
    badge "sleep_improvement" "Sleep Optimizer" "Improve sleep quality by 2+ points over 7 days"
      "moon" "#5F27CD" Badge.improvement 1;
    badge "stress_reduction" "Stress Buster" "Reduce stress by 2+ points over 7 days"
      "leaf" "#00D2D3" Badge.improvement 1;
    badge "milestone_50" "Half Century" "Complete 50 health logs" "checkmark-circle" "#FF6348"
      Badge.milestone 50;
    badge "milestone_100" "Century Club" "Complete 100 health logs" "ribbon" "#2ED573"
      Badge.milestone 100;
    badge "milestone_365" "Year Warrior" "Complete 365 health logs" "trophy-outline" "#FFA502"
      Badge.milestone 365;
    badge "early_bird" "Early Bird" "Log before 8 AM for 7 days" "sunny" "#FFD700" Badge.special 7;
    badge "night_owl" "Night Owl" "Log after 10 PM for 7 days" "moon" "#8B5CF6" Badge.special 7;
    badge "perfectionist" "Perfectionist" "Rate sleep quality 10/10 for 5 days" "star" "#F59E0B"
      Badge.special 5 ].

Definition achievement (id title description : string) (points : Z) : Achievement.t :=
  Achievement.mk id title description points None false.

Definition initializeAchievements : list Achievement.t :=
  [ achievement "first_log" "First Steps" "Complete your first health log" 10;
    achievement "week_complete" "Week Complete" "Log every day for a full week" 50;
    achievement "month_complete" "Month Complete" "Log every day for a full month" 200;
    achievement "mood_master" "Mood Master" "Maintain average mood above 8 for a week" 100;
    achievement "sleep_master" "Sleep Master"
      "Maintain average sleep quality above 8 for a week" 100;
    achievement "stress_master" "Stress Master" "Keep stress levels below 3 for a week" 100;
    achievement "data_analyst" "Data Analyst" "View your insights 10 times" 50;
    achievement "voice_logger" "Voice Logger" "Use voice journaling 10 times" 75 ].

(** The service object and what it has written to the device storage. *)
Record state := mkState {
  badges : list Badge.t;
  achievements : list Achievement.t;
  userStats : option UserStats.t;
  savedBadges : option (list Badge.t);
  savedAchievements : option (list Achievement.t);
  savedStats : option UserStats.t
}.

Definition initial : state :=
  mkState initializeBadges initializeAchievements None None None None.

(** [new Date(e.date).getTime()]. *)
Definition time (e : HealthEntrySchema) : Z := getTime (date e).

(** The mean of the scores that are above 0, or 0 when there is none. *)
Definition averageOf (scores : list float) : float :=
  let positive := filter (fun score => (0 <? score)%float) scores in
  if (0 <? Z.of_nat (length positive))%Z
  then (reduce (fun sum score _ => sum + score) positive 0
        / ofZ (Z.of_nat (length positive)))%float
  else 0%float.

Definition calculateAverageScore (data : list HealthEntrySchema) : float :=
  averageOf
    (map (fun entry =>
            let mood := orZero (mood_score (Types.mood entry)) in
            let sleep := orZero (quality_score (Types.sleep entry)) in
            let stress := orZero (stress_score (Types.mood entry)) in
            ((mood + sleep + (10 - stress)) / 3)%float) data).

(** [calculateImprovementTrend(healthData)]: the trend, and the caller's
    array as the call leaves it ([sort] works in place). *)
Definition calculateImprovementTrend (healthData : list HealthEntrySchema)
  : UserStats.trend * list HealthEntrySchema :=
  if (Z.of_nat (length healthData) <? 14)%Z then (UserStats.stable, healthData)
  else
    let sortedData := sort (ascending time) healthData in
    let half := Z.of_nat (length sortedData) / 2 in
    let firstHalf := slice 0 half sortedData in
    let secondHalf := sliceFrom half sortedData in
    let firstAvg := calculateAverageScore firstHalf in
    let secondAvg := calculateAverageScore secondHalf in
    let change := ((secondAvg - firstAvg) / firstAvg * 100)%float in
    (if (5 <? change)%float then UserStats.up
     else if (change <? -5)%float then UserStats.down
     else UserStats.stable,
     sortedData).

(** The loop over at most 365 days walking back from today: [checkDate]
    is the instant examined. *)
Fixpoint currentStreakLoop (z : zone) (iterations : nat) (checkDate : Z)
    (currentStreak : Z) (sortedData : list HealthEntrySchema) : Z :=
  match iterations with
  | O => currentStreak
  | S rest =>
      let dateStr := toISODate checkDate in
      let hasLog := existsb (fun entry => date entry =? dateStr) sortedData in
      if hasLog
      then currentStreakLoop z rest (setDatePrevious z checkDate) (currentStreak + 1) sortedData
      else currentStreak
  end.

(** [Array.from(new Set(a))]: the first occurrence of every date. *)
Fixpoint distinct (seen : list CalendarDate) (a : list CalendarDate) : list CalendarDate :=
  match a with
  | [] => []
  | d :: r =>
      if existsb (Z.eqb d) seen then distinct seen r else d :: distinct (d :: seen) r
  end.

(** The loop over [sortedDates] from position [i] on. *)
Fixpoint longestStreakLoop (sortedDates : list CalendarDate)
    (longestStreak tempStreak : Z) : Z :=
  match sortedDates with
  | [] => longestStreak
  | currentDate :: rest =>
      match rest with
      | nextDate :: _ =>
          let daysDiff := (getTime currentDate - getTime nextDate) / (1000 * 60 * 60 * 24) in
          if daysDiff =? 1 then longestStreakLoop rest longestStreak (tempStreak + 1)
          else longestStreakLoop rest (Z.max longestStreak (tempStreak + 1)) 0
      | [] => longestStreakLoop rest (Z.max longestStreak (tempStreak + 1)) tempStreak
      end
  end.

(** [calculateStreaks(healthData)] on a device of time zone [z], [today]
    being the current UTC date. *)
Definition calculateStreaks (z : zone) (today : CalendarDate)
    (healthData : list HealthEntrySchema)
  : StreakData.t * list HealthEntrySchema :=
  let sortedData := sort (descending time) healthData in
  match sortedData with
  | [] => (StreakData.mk 0 0 None "daily", sortedData)
  | first :: _ =>
      let lastLogDate := date first in
      let currentStreak := currentStreakLoop z 365 (getTime today) 0 sortedData in
      let allDates := distinct [] (map date sortedData) in
      let sortedDates := sort (descending getTime) allDates in
      let longestStreak := longestStreakLoop sortedDates 0 0 in
      (StreakData.mk currentStreak longestStreak (Some lastLogDate) "daily", sortedData)
  end.

(** [calculateStats(healthData)] for a service holding [s]. *)
Definition calculateStats (s : state) (z : zone) (today : CalendarDate)
    (healthData : list HealthEntrySchema) : UserStats.t * list HealthEntrySchema :=
  let totalLogs := Z.of_nat (length healthData) in
  let totalDays := Z.of_nat (length (distinct [] (map date healthData))) in
  let averageMood :=
    averageOf (map (fun entry => orZero (mood_score (Types.mood entry))) healthData) in
  let averageSleep :=
    averageOf (map (fun entry => orZero (quality_score (Types.sleep entry))) healthData) in
  let averageStress :=
    averageOf (map (fun entry => orZero (stress_score (Types.mood entry))) healthData) in
  let '(improvementTrend, healthData1) := calculateImprovementTrend healthData in
  let '(streaks, healthData2) := calculateStreaks z today healthData1 in
  let experience := totalLogs * 10 in
  let level := experience / 100 + 1 in
  let nextLevelExp := level * 100 in
  (UserStats.mk totalLogs totalDays averageMood averageSleep averageStress
     improvementTrend (badges s) (achievements s) streaks level experience nextLevelExp,
   healthData2).

(** The score [checkImprovement] reads for a badge. *)
Definition improvementScore (type : string) (entry : HealthEntrySchema) : float :=
  if (type =? "mood_improvement")%string then orZero (mood_score (Types.mood entry))
  else if (type =? "sleep_improvement")%string then orZero (quality_score (Types.sleep entry))
  else if (type =? "stress_reduction")%string then orZero (stress_score (Types.mood entry))
  else 0%float.

Definition getAverageScore (data : list HealthEntrySchema) (type : string) : float :=
  averageOf (map (improvementScore type) data).

(** [checkImprovement(healthData, badgeId)]: the verdict, and the caller's
    array as the call leaves it. *)
Definition checkImprovement (healthData : list HealthEntrySchema) (badgeId : string)
  : bool * list HealthEntrySchema :=
  if (Z.of_nat (length healthData) <? 14)%Z then (false, healthData)
  else
    let sortedData := sort (ascending time) healthData in
    let last7Days := sliceFrom (-7) sortedData in
    let previous7Days := slice (-14) (-7) sortedData in
    if (Z.of_nat (length last7Days) <? 7)%Z || (Z.of_nat (length previous7Days) <? 7)%Z
    then (false, sortedData)
    else
      let lastAvg := getAverageScore last7Days badgeId in
      let prevAvg := getAverageScore previous7Days badgeId in
      if (badgeId =? "stress_reduction")%string
      then ((lastAvg <? prevAvg - 2)%float, sortedData)
      else ((prevAvg + 2 <? lastAvg)%float, sortedData).

Definition oneOf (id : string) (ids : list string) : bool :=
  existsb (String.eqb id) ids.

(** The body of the loop of [checkBadges] for one badge: the badge as the
    iteration leaves it, whether it is newly unlocked, and the entry array
    afterwards. *)
Definition checkBadge (now : Z) (stats : UserStats.t)
    (healthData : list HealthEntrySchema) (badge : Badge.t)
  : Badge.t * bool * list HealthEntrySchema :=
  if Badge.isUnlocked badge then (badge, false, healthData)
  else
    let currentStreak := StreakData.currentStreak (UserStats.streaks stats) in
    let '(progress, shouldUnlock, healthData') :=
      if oneOf (Badge.id badge) ["streak_3"; "streak_7"; "streak_30"; "streak_100"] then
        (Z.min currentStreak (Badge.maxProgress badge),
         Badge.maxProgress badge <=? currentStreak, healthData)
      else if oneOf (Badge.id badge) ["consistency_week"] then
        (Z.min currentStreak 7, 7 <=? currentStreak, healthData)
      else if oneOf (Badge.id badge) ["consistency_month"] then
        (Z.min currentStreak 30, 30 <=? currentStreak, healthData)
      else if oneOf (Badge.id badge) ["milestone_50"; "milestone_100"; "milestone_365"] then
        (Z.min (UserStats.totalLogs stats) (Badge.maxProgress badge),
         Badge.maxProgress badge <=? UserStats.totalLogs stats, healthData)
      else if oneOf (Badge.id badge)
                ["mood_improvement"; "sleep_improvement"; "stress_reduction"] then
        let '(improvement, sorted) := checkImprovement healthData (Badge.id badge) in
        (if improvement then 1 else 0, improvement, sorted)
      else (0, false, healthData) in
    let badge1 := Badge.withProgress badge progress in
    if shouldUnlock && negb (Badge.isUnlocked badge1)
    then (Badge.unlock badge1 now, true, healthData')
    else (badge1, false, healthData').

(** The loop of [checkBadges]: the badges after the loop, the newly
    unlocked ones, and the entry array afterwards. *)
Fixpoint checkBadgesLoop (now : Z) (stats : UserStats.t)
    (healthData : list HealthEntrySchema) (badges : list Badge.t)
  : list Badge.t * list Badge.t * list HealthEntrySchema :=
  match badges with
  | [] => ([], [], healthData)
  | badge :: rest =>
      let '(badge', isNew, healthData1) := checkBadge now stats healthData badge in
      let '(rest', newBadges, healthData2) := checkBadgesLoop now stats healthData1 rest in
      (badge' :: rest', (if isNew then [badge'] else []) ++ newBadges, healthData2)
  end.

(** [checkBadges(healthData, stats)]; the badges are saved when one was
    unlocked. *)
Definition checkBadges (now : Z) (s : state) (healthData : list HealthEntrySchema)
    (stats : UserStats.t) : state * list Badge.t * list HealthEntrySchema :=
  let '(badges', newBadges, healthData') :=
    checkBadgesLoop now stats healthData (badges s) in
  (mkState badges' (achievements s) (userStats s)
     (if (0 <? Z.of_nat (length newBadges))%Z then Some badges' else savedBadges s)
     (savedAchievements s) (savedStats s),
   newBadges, healthData').

(** The body of the loop of [checkAchievements] for one achievement. *)
Definition checkAchievement (now : Z) (stats : UserStats.t) (achievement : Achievement.t)
  : Achievement.t * bool :=
  if Achievement.isUnlocked achievement then (achievement, false)
  else
    let id := Achievement.id achievement in
    let currentStreak := StreakData.currentStreak (UserStats.streaks stats) in
    let shouldUnlock :=
      if (id =? "first_log")%string then 1 <=? UserStats.totalLogs stats
      else if (id =? "week_complete")%string then 7 <=? currentStreak
      else if (id =? "month_complete")%string then 30 <=? currentStreak
      else if (id =? "mood_master")%string then (8 <=? UserStats.averageMood stats)%float
      else if (id =? "sleep_master")%string then (8 <=? UserStats.averageSleep stats)%float
      else if (id =? "stress_master")%string then (UserStats.averageStress stats <=? 3)%float
      else false in
    if shouldUnlock && negb (Achievement.isUnlocked achievement)
    then (Achievement.unlock achievement now, true)
    else (achievement, false).

Definition checkAchievements (now : Z) (s : state) (stats : UserStats.t)
  : state * list Achievement.t :=
  let checked := map (checkAchievement now stats) (achievements s) in
  let achievements' := map fst checked in
  let newAchievements := map fst (filter snd checked) in
  (mkState (badges s) achievements' (userStats s) (savedBadges s)
     (if (0 <? Z.of_nat (length newAchievements))%Z
      then Some achievements' else savedAchievements s)
     (savedStats s),
   newAchievements).

(** [updateStats(healthData)] at time [now] of day [today] in zone [z]: the statistics
    returned, the service afterwards, and the caller's array afterwards.
    The statistics object holds the service's own badge and achievement
    arrays, so it shows them as the checks leave them. *)
Definition updateStats (now : Z) (z : zone) (today : CalendarDate) (s : state)
    (healthData : list HealthEntrySchema)
  : UserStats.t * state * list HealthEntrySchema :=
  let '(stats, healthData1) := calculateStats s z today healthData in
  let '(s1, _, healthData2) := checkBadges now s healthData1 stats in
  let '(s2, _) := checkAchievements now s1 stats in
  let stats' := UserStats.withCatalog stats (badges s2) (achievements s2) in
  (stats',
   mkState (badges s2) (achievements s2) (Some stats') (savedBadges s2)
     (savedAchievements s2) (Some stats'),
   healthData2).

End GamificationService.

(* ================================================================== *)
(** ** InsightsService *)

Module Insight.
Inductive kind := sleep | mood | stress | symptoms | correlation.
Inductive priority_ := low | medium | high.
Inductive category_ := tip | warning | achievement | correlation_.

Record t := mk {
  id : string;
  type : kind;
  title : string;
  description : Types.text;
  actionable : bool;
  priority : priority_;
  confidence : float;
  recommendations : list string;
  category : category_
}.
End Insight.

Module InsightsService.
Import JS Types Arr.
Local Open Scope float_scope.

Definition analyzeSleepPatterns (data : list HealthEntrySchema) : list Insight.t :=
  let sleepData :=
    filter (fun entry => truthy (duration_hours (sleep entry))
                         && truthy (quality_score (sleep entry))) data in
  if (Z.of_nat (length sleepData) <? 7)%Z then []
  else
    let durations := map (fun entry => duration_hours (sleep entry)) sleepData in
    let avgDuration :=
      reduce (fun sum d _ => sum + d) durations 0 / ofZ (Z.of_nat (length durations)) in
    if avgDuration <? 6.5 then
      [Insight.mk "sleep_duration_low" Insight.sleep "Sleep Duration Alert"
         [Lit "Your average sleep duration is "; Fixed avgDuration 1;
          Lit " hours, which is below the recommended 7-9 hours."]
         true Insight.high 0.9
         ["Try going to bed 30 minutes earlier";
          "Create a consistent bedtime routine";
          "Avoid screens 1 hour before bed";
          "Keep your bedroom cool and dark"]
         Insight.warning]
    else [].

Definition analyzeMoodTrends (data : list HealthEntrySchema) : list Insight.t :=
  let moodData := filter (fun entry => truthy (mood_score (mood entry))) data in
  if (Z.of_nat (length moodData) <? 7)%Z then []
  else
    let moods := map (fun entry => mood_score (mood entry)) moodData in
    let avgMood := reduce (fun sum m _ => sum + m) moods 0 / ofZ (Z.of_nat (length moods)) in
    let recentMood := reduce (fun sum m _ => sum + m) (sliceFrom (-7) moods) 0 / 7 in
    if recentMood <? avgMood - 1.5 then
      [Insight.mk "mood_declining" Insight.mood "Mood Trend Alert"
         [Lit "Your mood has declined from "; Fixed avgMood 1; Lit " to ";
          Fixed recentMood 1; Lit " over the past week."]
         true Insight.high 0.8
         ["Consider talking to a mental health professional";
          "Try daily gratitude journaling";
          "Increase physical activity";
          "Connect with friends and family"]
         Insight.warning]
    else [].

Definition analyzeStressPatterns (data : list HealthEntrySchema) : list Insight.t :=
  let stressData := filter (fun entry => truthy (stress_score (mood entry))) data in
  if (Z.of_nat (length stressData) <? 7)%Z then []
  else
    let stressLevels := map (fun entry => stress_score (mood entry)) stressData in
    let avgStress :=
      reduce (fun sum s _ => sum + s) stressLevels 0 / ofZ (Z.of_nat (length stressLevels)) in
    if 7 <? avgStress then
      [Insight.mk "high_stress" Insight.stress "High Stress Levels"
         [Lit "Your average stress level is "; Fixed avgStress 1;
          Lit "/10, which is quite high."]
         true Insight.high 0.9
         ["Practice deep breathing exercises";
          "Try progressive muscle relaxation";
          "Consider stress management therapy";
          "Identify and address stress sources"]
         Insight.warning]
    else [].

Definition priorityOrder (p : Insight.priority_) : Z :=
  match p with
  | Insight.high => 3
  | Insight.medium => 2
  | Insight.low => 1
  end.

(** The comparator of the final sort: by priority, then by confidence,
    both descending; [a] may stay before [b] unless the result is
    positive. *)
Definition inOrder (a b : Insight.t) : bool :=
  let priorityDiff := (priorityOrder (Insight.priority b) - priorityOrder (Insight.priority a))%Z in
  if negb (priorityDiff =? 0)%Z then (priorityDiff <=? 0)%Z
  else negb (0 <? Insight.confidence b - Insight.confidence a).

(** [generateInsights(healthData)]: the insights, and the caller's array
    as the call leaves it. *)
Definition generateInsights (healthData : list HealthEntrySchema)
  : list Insight.t * list HealthEntrySchema :=
  if (Z.of_nat (length healthData) <? 7)%Z then ([], healthData)
  else
    let sortedData := sort (ascending GamificationService.time) healthData in
    let insights :=
      analyzeSleepPatterns sortedData ++ analyzeMoodTrends sortedData
      ++ analyzeStressPatterns sortedData in
    (sort inOrder insights, sortedData).

End InsightsService.

(** ** Runs of consecutive days *)

(** The days [d], [d - 1], ..., [d - (k - 1)] all occur in [l]. *)
Definition run (d : Z) (k : nat) (l : list Z) : Prop :=
  forall j : nat, (j < k)%nat -> In (d - Z.of_nat j) l.

(* ================================================================== *)
(** ** Sample entries *)

Module Sample.
Import Dates Types.

(** An entry of the given day with the given scores, eight hours of sleep
    and no symptoms. *)
Definition entry (day : Z) (moodScore sleepQuality stressScore : float)
  : HealthEntrySchema :=
  {| date := day;
     sleep := {| start_time := "23:00"; end_time := "07:00";
                 duration_hours := 8; quality_score := sleepQuality |};
     mood := {| mood_score := moodScore; stress_score := stressScore;
                journal_entry := ""; voice_note_path := None |};
     symptoms := {| gi_flare := 0; skin_flare := 0; migraine := 0 |} |}.

(** A service in which the first badge was unlocked at time 111 and the
    first achievement at time 222. *)
Definition someUnlocked : GamificationService.state :=
  GamificationService.mkState
    (map (fun b => if (Badge.id b =? "streak_3")%string then Badge.unlock b 111 else b)
       GamificationService.initializeBadges)
    (map (fun a => if (Achievement.id a =? "first_log")%string
                   then Achievement.unlock a 222 else a)
       GamificationService.initializeAchievements)
    None None None None.

(** The time zone of New York around the end of daylight saving time on
    2024-11-03 (day 20030): four hours behind UTC until 06:00 UTC of that
    day (02:00 local time), five hours behind from then on. *)
Definition newYork : zone :=
  {| offsetAtUTC := fun t =>
       if t <? 20030 * 86400000 + 6 * 3600000 then -4 * 3600000 else -5 * 3600000;
     offsetAtLocal := fun t =>
       if t <? 20030 * 86400000 + 2 * 3600000 then -4 * 3600000 else -5 * 3600000 |}.

(** Fourteen days, numbered 1 to 14, newest first as the storage keeps
    them: the first week with mood 5 and stress 7, the second week with
    mood 7 and stress 5; sleep quality 6 then 8. *)
Definition twoWeeks : list HealthEntrySchema :=
  map (fun d => if d <=? 7 then entry d 5 6 7 else entry d 7 8 5)
      [14; 13; 12; 11; 10; 9; 8; 7; 6; 5; 4; 3; 2; 1].

(** The same days with a second week better by three points. *)
Definition twoWeeksBetter : list HealthEntrySchema :=
  map (fun d => if d <=? 7 then entry d 5 6 7 else entry d 8 9 4)
      [14; 13; 12; 11; 10; 9; 8; 7; 6; 5; 4; 3; 2; 1].

End Sample.

(* ================================================================== *)
(** ** HealthService: the local store of entries *)

Module HealthStore.
Import JS Dates Types Arr.

(** What a number is after [JSON.stringify] and [JSON.parse]: a finite
    number comes back as it is (a negative zero as zero); NaN and the
    infinities are written [null], which the arithmetic and the comparisons
    of the services read as 0. *)
Definition jsonNumber (x : float) : float :=
  if is_nan x || is_infinity x || is_zero x then 0%float else x.

(** An entry after the same round trip. *)
Definition toJSON (e : HealthEntrySchema) : HealthEntrySchema :=
  {| date := date e;
     sleep := {| start_time := start_time (sleep e);
                 end_time := end_time (sleep e);
                 duration_hours := jsonNumber (duration_hours (sleep e));
                 quality_score := jsonNumber (quality_score (sleep e)) |};
     mood := {| mood_score := jsonNumber (mood_score (mood e));
                stress_score := jsonNumber (stress_score (mood e));
                journal_entry := journal_entry (mood e);
                voice_note_path := voice_note_path (mood e) |};
     symptoms := {| gi_flare := jsonNumber (gi_flare (symptoms e));
                    skin_flare := jsonNumber (skin_flare (symptoms e));
                    migraine := jsonNumber (migraine (symptoms e)) |} |}.

(** The value kept under the key ['health_entries'], as the array it
    parses to; an absent key is read as the empty array. *)
Definition store := list HealthEntrySchema.

Definition getLocalEntries (stored : store) : list HealthEntrySchema := stored.

(** [a.findIndex(p)]. *)
Fixpoint findIndexFrom {A} (p : A -> bool) (i : Z) (a : list A) : Z :=
  match a with
  | [] => -1
  | x :: r => if p x then i else findIndexFrom p (i + 1) r
  end.

Definition findIndex {A} (p : A -> bool) (a : list A) : Z := findIndexFrom p 0 a.

(** [a[i] = v] for an index within the array. *)
Fixpoint assign {A} (i : nat) (v : A) (a : list A) : list A :=
  match a, i with
  | [], _ => []
  | _ :: r, O => v :: r
  | x :: r, S j => x :: assign j v r
  end.

Definition time (e : HealthEntrySchema) : Z := getTime (date e).

(** [saveEntryLocally(entry)]: the store afterwards. *)
Definition saveEntryLocally (stored : store) (entry : HealthEntrySchema) : store :=
  let existingEntries := getLocalEntries stored in
  let entryIndex := findIndex (fun e => date e =? date entry) existingEntries in
  let updated :=
    if 0 <=? entryIndex then assign (Z.to_nat entryIndex) entry existingEntries
    else existingEntries ++ [entry] in
  map toJSON (sort (descending time) updated).

(** [getEntryForDate(date)]; [None] is [null]. *)
Definition getEntryForDate (stored : store) (d : CalendarDate) : option HealthEntrySchema :=
  find (fun entry => date entry =? d) (getLocalEntries stored).

(** [getEntriesForDateRange(startDate, endDate)]. *)
Definition getEntriesForDateRange (stored : store) (startDate endDate : CalendarDate)
  : list HealthEntrySchema :=
  filter (fun entry =>
            let entryDate := getTime (date entry) in
            let start := getTime startDate in
            let end_ := getTime endDate in
            (start <=? entryDate) && (entryDate <=? end_))
         (getLocalEntries stored).

(** [deleteHealthEntry(date)]: the store afterwards. *)
Definition deleteHealthEntry (stored : store) (d : CalendarDate) : store :=
  let entries := getLocalEntries stored in
  let filteredEntries := filter (fun entry => negb (date entry =? d)) entries in
  map toJSON filteredEntries.

(** [importDataFromJSON(jsonData)] for a text that parses to [entries]. *)
Definition importData (stored : store) (entries : list HealthEntrySchema) : store :=
  fold_left saveEntryLocally entries stored.

(** [logEntry(date, sleepStart, sleepEnd, quality, moodScore, stressScore,
    journal, voiceNotePath, giFlare, skinFlare, migraine)]: the entry
    returned and the store afterwards (the entry is saved before the
    server is tried, and a failure of the server is caught). *)
Definition logEntry (stored : store) (d : CalendarDate) (sleepStart sleepEnd : string)
    (quality moodScore stressScore : float) (journal : string)
    (voiceNotePath : option string) (giFlare skinFlare migraine : float)
  : HealthEntrySchema * store :=
  let durationHours := HealthService.calculateSleepDuration sleepStart sleepEnd in
  let entry :=
    {| date := d;
       sleep := {| start_time := sleepStart; end_time := sleepEnd;
                   duration_hours := (round (durationHours * 100) / 100)%float;
                   quality_score := quality |};
       mood := {| mood_score := moodScore; stress_score := stressScore;
                  journal_entry := journal; voice_note_path := voiceNotePath |};
       symptoms := {| gi_flare := giFlare; skin_flare := skinFlare;
                      migraine := migraine |} |} in
  (entry, saveEntryLocally stored entry).

(** [addHealthEntry(entry)]. *)
Definition addHealthEntry (stored : store) (entry : HealthEntrySchema)
  : HealthEntrySchema * store :=
  logEntry stored (date entry) (start_time (sleep entry)) (end_time (sleep entry))
    (quality_score (sleep entry)) (mood_score (mood entry)) (stress_score (mood entry))
    (journal_entry (mood entry)) (voice_note_path (mood entry))
    (gi_flare (symptoms entry)) (skin_flare (symptoms entry)) (Types.migraine (symptoms entry)).

End HealthStore.

(* ================================================================== *)
(** ** The life of the gamification service *)

Module Lifecycle.
Import GamificationService.

(** [loadBadges()]: what was saved, if anything, replaces the service's
    badges; the badges are returned.  (The instants in the saved text are
    read back as text; the model keeps them as they were.) *)
Definition loadBadges (s : state) : list Badge.t * state :=
  match savedBadges s with
  | Some saved =>
      (saved, mkState saved (achievements s) (userStats s) (savedBadges s)
                (savedAchievements s) (savedStats s))
  | None => (badges s, s)
  end.

(** [loadAchievements()]. *)
Definition loadAchievements (s : state) : list Achievement.t * state :=
  match savedAchievements s with
  | Some saved =>
      (saved, mkState (badges s) saved (userStats s) (savedBadges s)
                (savedAchievements s) (savedStats s))
  | None => (achievements s, s)
  end.

(** The states of the service in one run that starts with nothing saved:
    as constructed, and after any sequence of [updateStats], [loadBadges]
    and [loadAchievements]. *)
Inductive reachable : state -> Prop :=
| reach_initial : reachable initial
| reach_updateStats (now : Z) (z : Dates.zone) (today : Dates.CalendarDate)
    (s : state) (healthData : list Types.HealthEntrySchema) :
    reachable s -> reachable (snd (fst (updateStats now z today s healthData)))
| reach_loadBadges (s : state) : reachable s -> reachable (snd (loadBadges s))
| reach_loadAchievements (s : state) :
    reachable s -> reachable (snd (loadAchievements s)).

Definition isSome {A : Type} (o : option A) : bool :=
  match o with Some _ => true | None => false end.

(** Badge [b] is the catalogue badge [b0] up to its progress and unlocking. *)
Definition sameBadge (b0 b : Badge.t) : Prop :=
  Badge.id b = Badge.id b0 /\ Badge.name b = Badge.name b0 /\
  Badge.description b = Badge.description b0 /\ Badge.icon b = Badge.icon b0 /\
  Badge.color b = Badge.color b0 /\ Badge.category_ b = Badge.category_ b0 /\
  Badge.maxProgress b = Badge.maxProgress b0.

(** The progress is within its bounds, full exactly when the badge is
    unlocked, and the instant of unlocking is there exactly then. *)
Definition consistent (b : Badge.t) : Prop :=
  0 <= Badge.progress b <= Badge.maxProgress b /\
  Badge.isUnlocked b = (Badge.progress b =? Badge.maxProgress b) /\
  Badge.isUnlocked b = isSome (Badge.unlockedAt b).

Definition sameAchievement (a0 a : Achievement.t) : Prop :=
  Achievement.id a = Achievement.id a0 /\ Achievement.title a = Achievement.title a0 /\
  Achievement.description a = Achievement.description a0 /\
  Achievement.points a = Achievement.points a0.

(** The achievements no code path unlocks. *)
Definition usageAchievement (a : Achievement.t) : bool :=
  oneOf (Achievement.id a) ["data_analyst"; "voice_logger"].

Definition isSpecial (b : Badge.t) : bool :=
  match Badge.category_ b with Badge.special => true | _ => false end.

(** A badge without its progress. *)
Definition erase (b : Badge.t) : Badge.t := Badge.withProgress b 0.

Definition badgeInvariant (b0 b : Badge.t) : Prop :=
  sameBadge b0 b /\ consistent b /\ (isSpecial b0 = true -> b = b0).

Definition achievementInvariant (a0 a : Achievement.t) : Prop :=
  sameAchievement a0 a /\
  Achievement.isUnlocked a = isSome (Achievement.unlockedAt a) /\
  (usageAchievement a0 = true -> a = a0).

(** What every state of the service satisfies: the arrays are the
    catalogue with progress and unlockings filled in, and what was saved
    agrees with them on every unlocking. *)
Definition invariant (s : state) : Prop :=
  Forall2 badgeInvariant initializeBadges (badges s) /\
  Forall2 achievementInvariant initializeAchievements (achievements s) /\
  match savedBadges s with
  | Some saved =>
      Forall2 badgeInvariant initializeBadges saved /\
      map erase saved = map erase (badges s)
  | None => Forall (fun b => Badge.isUnlocked b = false) (badges s)
  end /\
  match savedAchievements s with
  | Some saved => saved = achievements s
  | None => Forall (fun a => Achievement.isUnlocked a = false) (achievements s)
  end.

End Lifecycle.

(* ================================================================== *)
(** ** CorrelationsService: the report *)

Module CorrelationReport.
Import JS Types Arr CorrelationsService.
Local Open Scope float_scope.

Record t := mk {
  correlations : list SleepCorrelation.t;
  trends : list TrendAnalysis.t;
  insights : list HealthInsight.t;
  summary : text
}.

(** [n > 1 ? 's' : '']. *)
Definition plural (n : Z) : string := if (1 <? n)%Z then "s" else "".

(** [getCorrelationReport(entries)]. *)
Definition getCorrelationReport (entries : list HealthEntrySchema) : t :=
  let correlations := analyzeSleepCorrelations entries in
  let insights := generateInsights entries in
  let trends :=
    flat_map (fun metric =>
                match analyzeTrends entries metric defaultDays with
                | Some trend => [trend]
                | None => []
                end) metrics in
  let strongCorrelations :=
    filter (fun c => 0.5 <? abs (SleepCorrelation.correlation c)) correlations in
  let significantTrends :=
    filter (fun t => 10 <? TrendAnalysis.changeRate t) trends in
  let strong := Z.of_nat (length strongCorrelations) in
  let significant := Z.of_nat (length significantTrends) in
  let summary :=
    [Lit "Based on "; Int (Z.of_nat (length entries)); Lit " days of data: "]
    ++ (if (0 <? strong)%Z
        then [Lit "Found "; Int strong; Lit " strong correlation"; Lit (plural strong);
              Lit " between sleep and symptoms. "]
        else [])
    ++ (if (0 <? significant)%Z
        then [Lit "Detected "; Int significant; Lit " significant trend";
              Lit (plural significant); Lit " in your health metrics. "]
        else [])
    ++ (if (strong =? 0)%Z && (significant =? 0)%Z
        then [Lit "Continue tracking to identify patterns and correlations."]
        else []) in
  mk correlations trends insights summary.

End CorrelationReport.

(* ================================================================== *)
(** ** SleepTrackingScreen: the time shown *)

Module SleepTrackingDisplay.
Import JS Types.
Local Open Scope float_scope.

(** [parseInt(s)] without a radix: leading blanks are skipped, a sign is
    read, a [0x] prefix selects base 16, and the longest prefix of digits is
    the value (taken exactly, then rounded to a double); no digit at all
    gives NaN. *)
Definition parseInt (s : string) : float :=
  let l := dropWhite (list_ascii_of_string s) in
  let '(negative, l1) :=
    match l with
    | c :: r => if isChar c "-" "-" then (true, r)
                else if isChar c "+" "+" then (false, r)
                else (false, l)
    | [] => (false, l)
    end in
  let '(base, l2) :=
    match l1 with
    | z :: p :: r => if isChar z "0" "0" && isChar p "x" "X" then (16, r) else (10, l1)
    | _ => (10, l1)
    end%Z in
  let '(v, n, _) := digits base 0 0 l2 in
  if (n =? 0)%Z then nan
  else if negative then - Q2F v 1 else Q2F v 1.

(** [x % n] for a positive integer [n]: exact, with the sign of [x]; NaN
    when [x] is NaN or infinite. *)
Definition remainder (x : float) (n : Z) : float :=
  match Prim2SF x with
  | S754_zero _ => x
  | S754_finite s m e =>
      let r :=
        if (0 <=? e)%Z then Q2F ((Zpos m * 2 ^ e) mod n) 1
        else Q2F (Zpos m mod (n * 2 ^ (- e))) (2 ^ (- e)) in
      if s then - r else r
  | _ => nan
  end.

(** The integer an integer-valued double stands for, as a template
    literal prints it. *)
Definition integerOf (x : float) : Z :=
  match Prim2SF x with
  | S754_finite s m e =>
      cond_Zopp s (if (0 <=? e)%Z then Zpos m * 2 ^ e else Zpos m / 2 ^ (- e))%Z
  | _ => 0%Z
  end.

(** [formatTime(time)]; a missing minutes field is printed as
    ["undefined"]. *)
Definition formatTime (time : string) : text :=
  let parts := split ":" time in
  let hours := nth 0 parts EmptyString in
  let minutes := nth_error parts 1 in
  let hour := parseInt hours in
  let ampm := if 12 <=? hour then "PM" else "AM" in
  let displayHour := if truthy (remainder hour 12) then remainder hour 12 else 12 in
  [Int (integerOf displayHour); Lit ":";
   Lit (match minutes with Some m => m | None => "undefined" end);
   Lit " "; Lit ampm].

End SleepTrackingDisplay.

(* ================================================================== *)
(** * Properties *)

(** ** Facts about double arithmetic *)

Section FloatFacts.
Local Open Scope float_scope.

Lemma add_nan_l x : nan + x = nan.
Proof. apply Prim2SF_inj. rewrite add_spec. reflexivity. Qed.

Lemma add_nan_r x : x + nan = nan.
Proof. apply Prim2SF_inj. rewrite add_spec. simpl. now destruct (Prim2SF x). Qed.

Lemma sub_nan_l x : nan - x = nan.
Proof. apply Prim2SF_inj. rewrite sub_spec. reflexivity. Qed.

Lemma sub_nan_r x : x - nan = nan.
Proof. apply Prim2SF_inj. rewrite sub_spec. simpl. now destruct (Prim2SF x). Qed.

Lemma mul_nan_l x : nan * x = nan.
Proof. apply Prim2SF_inj. rewrite mul_spec. reflexivity. Qed.

Lemma mul_nan_r x : x * nan = nan.
Proof. apply Prim2SF_inj. rewrite mul_spec. simpl. now destruct (Prim2SF x). Qed.

Lemma div_nan_l x : nan / x = nan.
Proof. apply Prim2SF_inj. rewrite div_spec. reflexivity. Qed.

Lemma div_nan_r x : x / nan = nan.
Proof. apply Prim2SF_inj. rewrite div_spec. simpl. now destruct (Prim2SF x). Qed.

Lemma ltb_nan_l x : (nan <? x) = false.
Proof. rewrite FloatAxioms.ltb_spec. reflexivity. Qed.

Lemma ltb_nan_r x : (x <? nan) = false.
Proof. rewrite FloatAxioms.ltb_spec. simpl. now destruct (Prim2SF x) as [[]|[]| |[]]. Qed.

Lemma eqb_nan_l x : (nan =? x) = false.
Proof. rewrite FloatAxioms.eqb_spec. reflexivity. Qed.

Lemma nan_not_zero : nan <> 0.
Proof. intro H. apply (f_equal is_nan) in H. discriminate H. Qed.

End FloatFacts.

Create Rewrite HintDb nan.
#[local] Hint Rewrite add_nan_l add_nan_r sub_nan_l sub_nan_r mul_nan_l mul_nan_r
  div_nan_l div_nan_r ltb_nan_l ltb_nan_r eqb_nan_l : nan.

Lemma forallFrom_spec n z0 P :
  forallFrom n z0 P = true -> forall z, z0 <= z < z0 + Z.of_nat n -> P z = true.
Proof.
  revert z0. induction n as [|k IH]; simpl forallFrom; intros z0 H z Hz; [lia|].
  apply andb_prop in H. destruct H as [Hk Hr].
  destruct (Z.eq_dec z z0) as [->|]; [exact Hk|].
  apply (IH (z0 + 1)); [exact Hr | lia].
Qed.

(** ** Sleep duration *)

Section SleepDuration.
Import JS TimeFormat.
Local Open Scope float_scope.

Lemma health_duration_hours s e :
  HealthService.calculateSleepDuration s e = hours (minutes s) (minutes e).
Proof. reflexivity. Qed.

Lemma screen_duration_hours s e :
  SleepTrackingScreen.calculateSleepDuration s e
  = round (hours (minutes s) (minutes e) * 100) / 100.
Proof. reflexivity. Qed.

Lemma hours_nan_l em : hours nan em = nan.
Proof. unfold hours. autorewrite with nan. reflexivity. Qed.

Lemma hours_nan_r sm : hours sm nan = nan.
Proof. unfold hours. autorewrite with nan. reflexivity. Qed.

Lemma minutes_nan s : unreadable s -> minutes s = nan.
Proof. unfold minutes. intros [-> | ->]; autorewrite with nan; reflexivity. Qed.

Lemma digit_char c :
  isDigit c = true -> c = digitChar (digitValue c) /\ 0 <= digitValue c <= 9.
Proof.
  unfold isDigit, digitChar, digitValue, code. intros H.
  apply andb_prop in H. destruct H as [H1 H2].
  apply Z.leb_le in H1, H2. split; [|lia].
  replace (48 + (Z.of_N (N_of_ascii c) - 48))%Z with (Z.of_N (N_of_ascii c)) by lia.
  now rewrite N2Z.id, ascii_N_embedding.
Qed.

Lemma wellFormed_format s :
  wellFormed s = true ->
  exists h m, (0 <= h < 24)%Z /\ (0 <= m < 60)%Z /\
              s = format h m /\ minuteOfDay s = (60 * h + m)%Z.
Proof.
  unfold wellFormed, minuteOfDay. intros H.
  rewrite <- (string_of_list_ascii_of_string s).
  destruct (list_ascii_of_string s) as [|h1 [|h2 [|c [|m1 [|m2 [|x r]]]]]];
    try discriminate H.
  do 6 (apply andb_prop in H; destruct H as [H ?]).
  destruct (digit_char h1) as [E1 B1]; [assumption|].
  destruct (digit_char h2) as [E2 B2]; [assumption|].
  destruct (digit_char m1) as [E3 B3]; [assumption|].
  destruct (digit_char m2) as [E4 B4]; [assumption|].
  match goal with K : Ascii.eqb c _ = true |- _ => apply Ascii.eqb_eq in K; subst c end.
  repeat match goal with K : (_ <? _)%Z = true |- _ => apply Z.ltb_lt in K end.
  exists (10 * digitValue h1 + digitValue h2)%Z, (10 * digitValue m1 + digitValue m2)%Z.
  rewrite list_ascii_of_string_of_list_ascii.
  repeat split; try lia.
  unfold format.
  replace ((10 * digitValue h1 + digitValue h2) / 10)%Z with (digitValue h1)
    by (apply Z.div_unique with (r := digitValue h2); lia).
  replace ((10 * digitValue h1 + digitValue h2) mod 10)%Z with (digitValue h2)
    by (apply Z.mod_unique with (q := digitValue h1); lia).
  replace ((10 * digitValue m1 + digitValue m2) / 10)%Z with (digitValue m1)
    by (apply Z.div_unique with (r := digitValue m2); lia).
  replace ((10 * digitValue m1 + digitValue m2) mod 10)%Z with (digitValue m2)
    by (apply Z.mod_unique with (q := digitValue m1); lia).
  now rewrite <- E1, <- E2, <- E3, <- E4.
Qed.

(** Every well-formed time is read as its exact minute count. *)
Lemma minutes_format h m :
  (0 <= h < 24)%Z -> (0 <= m < 60)%Z -> minutes (format h m) = ofZ (60 * h + m).
Proof.
  intros Hh Hm.
  assert (C : forallFrom 24 0 (fun h => forallFrom 60 0 (fun m =>
                Leibniz.eqb (minutes (format h m)) (ofZ (60 * h + m)))) = true)
    by (vm_compute; reflexivity).
  apply Leibniz.eqb_spec.
  apply (@forallFrom_spec 60 0 _ (@forallFrom_spec 24 0 _ C h ltac:(lia)) m); lia.
Qed.

(** The span, in minutes, between two minute counts of a day. *)
Lemma hours_of_day a b :
  (0 <= a < 1440)%Z -> (0 <= b < 1440)%Z ->
  hours (ofZ a) (ofZ b) = ofZ (if (b <? a)%Z then b + 1440 - a else b - a) / 60.
Proof.
  intros Ha Hb.
  assert (C : forallFrom 1440 0 (fun a => forallFrom 1440 0 (fun b =>
                Leibniz.eqb (hours (ofZ a) (ofZ b))
                  (ofZ (if (b <? a)%Z then b + 1440 - a else b - a) / 60))) = true)
    by (vm_compute; reflexivity).
  apply Leibniz.eqb_spec.
  apply (@forallFrom_spec 1440 0 _ (@forallFrom_spec 1440 0 _ C a ltac:(lia)) b); lia.
Qed.

Lemma span_nonneg d :
  (0 <= d < 1440)%Z ->
  (0 <=? ofZ d / 60) = true /\ (0 <=? round (ofZ d / 60 * 100) / 100) = true.
Proof.
  intros Hd.
  assert (C : forallFrom 1440 0 (fun d =>
                (0 <=? ofZ d / 60) && (0 <=? round (ofZ d / 60 * 100) / 100)) = true)
    by (vm_compute; reflexivity).
  apply andb_prop. apply (@forallFrom_spec 1440 0 _ C d). lia.
Qed.

End SleepDuration.

(** A time string without a colon has no minute field. *)
Lemma no_colon_unreadable (s : string) :
  (forall c, In c (list_ascii_of_string s) -> c <> ":"%char) ->
  TimeFormat.unreadable s.
Proof.
  intros H. right. unfold TimeFormat.field.
  assert (E : JS.split ":" s = [s]).
  { induction s as [|c s IH]; [reflexivity|]. simpl.
    destruct (Ascii.eqb_spec c ":") as [->|_].
    - exfalso. apply (H ":"%char); [now left | reflexivity].
    - rewrite IH; [reflexivity|]. intros x Hx. apply H. now right. }
  rewrite E. reflexivity.
Qed.

(** C3, as the code has it. For every pair of time strings the derivation
    returns a number without raising; when the hour or the minute field of
    either string is missing or is no numeric literal, that number is NaN
    (not 0), in the service, in its stored rounding and in the screen's copy. *)
Theorem unreadable_time_gives_nan (s e : string) :
  TimeFormat.unreadable s \/ TimeFormat.unreadable e ->
  HealthService.calculateSleepDuration s e = nan /\
  HealthService.storedDuration s e = nan /\
  SleepTrackingScreen.calculateSleepDuration s e = nan.
Proof.
  intros H.
  assert (E : TimeFormat.hours (TimeFormat.minutes s) (TimeFormat.minutes e) = nan).
  { destruct H as [H|H]; rewrite (minutes_nan _ H); [apply hours_nan_l | apply hours_nan_r]. }
  unfold HealthService.storedDuration.
  rewrite screen_duration_hours, health_duration_hours, E. repeat split.
Qed.

Lemma unreadable_time_gives_nan_witness :
  HealthService.calculateSleepDuration "ab:cd" "07:00" = nan /\
  HealthService.storedDuration "ab:cd" "07:00" = nan /\
  SleepTrackingScreen.calculateSleepDuration "ab:cd" "07:00" = nan.
Proof.
  apply (@unreadable_time_gives_nan "ab:cd" "07:00"). left. left. reflexivity.
Defined.

(** C3 as stated fails: a malformed start time makes both derivations
    return NaN, which is not 0. *)
Lemma malformed_time_not_zero :
  TimeFormat.wellFormed "ab:cd" = false /\
  HealthService.calculateSleepDuration "ab:cd" "07:00" <> 0%float /\
  SleepTrackingScreen.calculateSleepDuration "ab:cd" "07:00" <> 0%float /\
  (HealthService.calculateSleepDuration "ab:cd" "07:00" =? 0)%float = false.
Proof.
  repeat split; try reflexivity; exact nan_not_zero.
Qed.

(** A malformed time whose fields are numeric is computed with as it
    stands: an hour of 25 gives a plain, non-zero duration. *)
Lemma out_of_range_time_computed :
  TimeFormat.wellFormed "25:00" = false /\
  HealthService.calculateSleepDuration "25:00" "07:00" = 6%float.
Proof. split; reflexivity. Qed.

(** C8. For every pair of well-formed HH:MM times the derived duration is
    not negative; it is the span from start to end, 1440 minutes being added
    to the end when it lies before the start; the screen's copy rounds the
    same value to two decimals.  From 23:00 to 07:00 both give 8 hours. *)
Theorem sleep_duration_nonneg_overnight (s e : string) :
  TimeFormat.wellFormed s = true ->
  TimeFormat.wellFormed e = true ->
  let sm := TimeFormat.minuteOfDay s in
  let em := TimeFormat.minuteOfDay e in
  let d := HealthService.calculateSleepDuration s e in
  let d' := SleepTrackingScreen.calculateSleepDuration s e in
  (0 <=? d)%float = true /\
  (0 <=? d')%float = true /\
  d = (JS.ofZ (if (em <? sm)%Z then (em + 1440 - sm)%Z else (em - sm)%Z) / 60)%float /\
  d' = (JS.round (d * 100) / 100)%float /\
  HealthService.calculateSleepDuration "23:00" "07:00" = 8%float /\
  SleepTrackingScreen.calculateSleepDuration "23:00" "07:00" = 8%float.
Proof.
  intros Hs He sm em d d'.
  destruct (wellFormed_format s Hs) as (h1 & m1 & Hh1 & Hm1 & Es & Ms).
  destruct (wellFormed_format e He) as (h2 & m2 & Hh2 & Hm2 & Ee & Me).
  assert (Ed : d = (JS.ofZ (if (em <? sm)%Z then (em + 1440 - sm)%Z else (em - sm)%Z) / 60)%float).
  { subst d sm em. rewrite health_duration_hours, Ms, Me.
    rewrite Es, Ee at 1. rewrite !minutes_format by assumption.
    apply hours_of_day; lia. }
  assert (Ed' : d' = (JS.round (d * 100) / 100)%float) by reflexivity.
  assert (R : 0 <= (if em <? sm then em + 1440 - sm else em - sm) < 1440).
  { subst sm em. rewrite Ms, Me. destruct (Z.ltb_spec (60 * h2 + m2) (60 * h1 + m1)); lia. }
  destruct (span_nonneg _ R) as [N1 N2].
  rewrite Ed', Ed. repeat split; try assumption; reflexivity.
Qed.

Lemma sleep_duration_nonneg_overnight_witness :
  (0 <=? HealthService.calculateSleepDuration "22:30" "06:15")%float = true.
Proof.
  exact (proj1 (@sleep_duration_nonneg_overnight "22:30" "06:15" eq_refl eq_refl)).
Defined.

(** ** Pearson correlation *)

(** When the denominator evaluates to zero the coefficient is 0. *)
Lemma calculateCorrelation_guard (x y : list float) :
  length x = length y -> length x <> 0%nat ->
  let n := JS.ofZ (Z.of_nat (length x)) in
  let varX := (n * Arr.reduce (fun acc xi _ => acc + xi * xi) x 0
               - Arr.sum x * Arr.sum x)%float in
  let varY := (n * Arr.reduce (fun acc yi _ => acc + yi * yi) y 0
               - Arr.sum y * Arr.sum y)%float in
  (sqrt (varX * varY) =? 0)%float = true ->
  CorrelationsService.calculateCorrelation x y = 0%float.
Proof.
  intros Hl Hn n varX varY Hd. unfold CorrelationsService.calculateCorrelation.
  apply Nat.eqb_eq in Hl. apply Nat.eqb_neq in Hn. rewrite Hl, Hn. simpl negb. simpl orb.
  cbv zeta. fold n. unfold Arr.sum in varX, varY. fold varX. fold varY.
  now rewrite Hd.
Qed.

(** C7, at a failing input. A sleep duration of 7.33 hours on each of
    three days against the scores 1, 2, 3: the first array is constant, so
    the denominator of the formula is zero, yet in double arithmetic
    [n * sumX2 - sumX * sumX] comes out negative, its square root is NaN,
    the test [denominator === 0] fails and the function returns NaN. *)
Theorem calculateCorrelation_constant_array_nan :
  let x := [7.33; 7.33; 7.33]%float in
  let y := [1; 2; 3]%float in
  let n := JS.ofZ 3 in
  (n * Arr.reduce (fun acc xi _ => acc + xi * xi) x 0 - Arr.sum x * Arr.sum x <? 0)%float = true /\
  CorrelationsService.calculateCorrelation x y = nan /\
  CorrelationsService.calculateCorrelation x y <> 0%float.
Proof.
  cbv zeta. repeat split; try reflexivity.
  change (CorrelationsService.calculateCorrelation [7.33; 7.33; 7.33]%float [1; 2; 3]%float)
    with nan.
  exact nan_not_zero.
Qed.

(** The same happens with the daily entries of the application: seven
    nights of 7.42 hours make every duration correlation NaN. *)
Lemma calculateCorrelation_constant_week_nan :
  CorrelationsService.calculateCorrelation
    [7.42; 7.42; 7.42; 7.42; 7.42; 7.42; 7.42]%float [7; 8; 6; 7; 9; 5; 7]%float = nan.
Proof. reflexivity. Qed.

(** Two metrics with the same value 7.33 on each of three days: both
    spreads come out negative, their product is positive and the
    coefficient returned is -1. *)
Lemma calculateCorrelation_identical_constant :
  CorrelationsService.calculateCorrelation
    [7.33; 7.33; 7.33]%float [7.33; 7.33; 7.33]%float = (-1)%float.
Proof. reflexivity. Qed.

(** A NaN among the values (the duration of an entry logged with an
    unreadable time) is returned as NaN too. *)
Lemma calculateCorrelation_nan_input :
  CorrelationsService.calculateCorrelation [nan; 8; 7]%float [1; 2; 3]%float = nan.
Proof. reflexivity. Qed.

(** Constant arrays of whole scores do give 0. *)
Lemma calculateCorrelation_constant_scores :
  CorrelationsService.calculateCorrelation [5; 5; 5]%float [3; 2; 1]%float = 0%float.
Proof. reflexivity. Qed.

(** ** Trend analysis *)

Section Trends.
Import JS Arr Types.
Local Open Scope float_scope.

Lemma is_nan_false_spec r : is_nan r = false -> Prim2SF r <> S754_nan.
Proof.
  unfold is_nan. rewrite FloatAxioms.eqb_spec. intros H E. rewrite E in H. discriminate H.
Qed.

(** A number that is neither below 5 in absolute value nor positive is
    negative. *)
Lemma negative_of_not_positive r :
  is_nan r = false -> (abs r <? 5) = false -> (0 <? r) = false -> (r <? 0) = true.
Proof.
  intros Hn. apply is_nan_false_spec in Hn.
  rewrite !FloatAxioms.ltb_spec, abs_spec.
  destruct (Prim2SF r) as [s|[]| |[] m e]; try reflexivity; try discriminate;
    try (now intros _ K); try (now intros K _); now destruct Hn.
Qed.

Lemma positive_not_negative r : (0 <? r) = true -> (r <? 0) = false.
Proof.
  rewrite !FloatAxioms.ltb_spec.
  destruct (Prim2SF r) as [s|[]| |[] m e]; try reflexivity; discriminate.
Qed.

(** A reduction that ignores the position does not depend on where the
    count starts. *)
Lemma reduceFrom_shift {A B} (f : B -> A -> B) (a : list A) :
  forall i j acc,
    reduceFrom (fun s v _ => f s v) i a acc = reduceFrom (fun s v _ => f s v) j a acc.
Proof. induction a as [|v r IH]; intros i j acc; simpl; [reflexivity | apply IH]. Qed.

Lemma reduceFrom_map {A B C} (g : A -> B) (f : C -> B -> C) (a : list A) :
  forall i acc,
    reduceFrom (fun s v _ => f s (g v)) i a acc
    = reduceFrom (fun s v _ => f s v) i (map g a) acc.
Proof. induction a as [|v r IH]; intros i acc; simpl; [reflexivity | apply IH]. Qed.

(** The reduction that reads [values[i]] beside [x[i]] sums the products of
    the paired elements. *)
Lemma reduceFrom_paired (x : list float) :
  forall (values pre : list float) acc,
    length x = length values ->
    reduceFrom (fun acc xi i => acc + xi * element i (pre ++ values)) (length pre) x acc
    = reduceFrom (fun s v _ => s + v) 0
        (map (fun p => fst p * snd p) (combine x values)) acc.
Proof.
  induction x as [|xi x IH]; intros values pre acc Hl; [reflexivity|].
  destruct values as [|v vs]; [discriminate Hl|].
  cbn [reduceFrom combine map fst snd].
  replace (element (length pre) (pre ++ v :: vs)) with v
    by (unfold element; now rewrite nth_middle).
  replace (pre ++ v :: vs) with ((pre ++ [v]) ++ vs) by now rewrite <- app_assoc.
  replace (S (length pre)) with (length (pre ++ [v]))
    by (rewrite length_app; simpl; lia).
  rewrite IH by (simpl in Hl; lia).
  apply (reduceFrom_shift (fun s v => s + v)).
Qed.

Lemma reduce_paired (x values : list float) :
  length x = length values ->
  reduce (fun acc xi i => acc + xi * element i values) x 0
  = sum (map (fun p => fst p * snd p) (combine x values)).
Proof. intros H. exact (reduceFrom_paired x values [] 0 H). Qed.

Lemma reduce_squares (x : list float) :
  reduce (fun acc xi _ => acc + xi * xi) x 0 = sum (map (fun v => v * v) x).
Proof. exact (reduceFrom_map (fun v => v * v) (fun s v => s + v) x 0 0). Qed.

Lemma map_fst_combine {A B} (a : list A) :
  forall b : list B, length a = length b -> map fst (combine a b) = a.
Proof.
  induction a as [|x a IH]; intros [|y b] H; try discriminate H; [reflexivity|].
  simpl. f_equal. apply IH. simpl in H. lia.
Qed.

Lemma map_snd_combine {A B} (a : list A) :
  forall b : list B, length a = length b -> map snd (combine a b) = b.
Proof.
  induction a as [|x a IH]; intros [|y b] H; try discriminate H; [reflexivity|].
  simpl. f_equal. apply IH. simpl in H. lia.
Qed.

Lemma length_indices n : length (CorrelationsService.indices n) = n.
Proof. unfold CorrelationsService.indices. now rewrite length_map, length_seq. Qed.

(** The slope the code computes is the closed form of the specification. *)
Lemma code_slope (values : list float) :
  let n := ofZ (Z.of_nat (length values)) in
  let x := CorrelationsService.indices (length values) in
  let sumX := reduce (fun a b _ => a + b) x 0 in
  let sumY := reduce (fun a b _ => a + b) values 0 in
  let sumXY := reduce (fun acc xi i => acc + xi * element i values) x 0 in
  let sumX2 := reduce (fun acc xi _ => acc + xi * xi) x 0 in
  (n * sumXY - sumX * sumY) / (n * sumX2 - sumX * sumX) = TrendSpec.slope values.
Proof.
  cbv zeta. unfold TrendSpec.slope, TrendSpec.positions.
  fold (CorrelationsService.indices (length values)).
  assert (L : length (CorrelationsService.indices (length values)) = length values)
    by apply length_indices.
  replace (map (fun p : float * float => fst p * fst p)
             (combine (CorrelationsService.indices (length values)) values))
    with (map (fun v => v * v)
            (map fst (combine (CorrelationsService.indices (length values)) values)))
    by now rewrite map_map.
  rewrite (map_fst_combine _ _ L), (map_snd_combine _ _ L).
  rewrite (reduce_paired _ _ L), reduce_squares.
  reflexivity.
Qed.

Lemma length_sliceFrom_last {A} (a : list A) (days : Z) :
  (0 < days)%Z ->
  Z.of_nat (length (sliceFrom (- days) a)) = Z.min (Z.of_nat (length a)) days.
Proof.
  intros Hd. unfold sliceFrom.
  destruct (Z.ltb_spec (- days) 0); [|lia].
  rewrite length_skipn. lia.
Qed.

End Trends.

(** C5, as the code has it. For every entry list of at least 3 entries and
    every metric, the trend analysis over the default window of 30 days
    returns a result whose [changeRate] is the absolute value of
    slope / mean(values) x 100, the slope being the least-squares slope over
    the positions 0..n-1; the trend is 'stable' when that rate is below 5
    in absolute value, otherwise 'increasing' when the signed rate is
    positive, and, when the signed rate is a number, 'decreasing' when it
    is negative. *)
Theorem analyzeTrends_change_rate (entries : list Types.HealthEntrySchema)
    (metric : string) :
  (3 <= length entries)%nat ->
  let values := TrendSpec.window entries metric CorrelationsService.defaultDays in
  let rate := (TrendSpec.slope values / TrendSpec.mean values * 100)%float in
  exists t,
    CorrelationsService.analyzeTrends entries metric CorrelationsService.defaultDays = Some t /\
    TrendAnalysis.metric t = metric /\
    TrendAnalysis.changeRate t = abs rate /\
    (TrendAnalysis.trend t = TrendAnalysis.stable <-> (abs rate <? 5)%float = true) /\
    (TrendAnalysis.trend t = TrendAnalysis.increasing <->
       (abs rate <? 5)%float = false /\ (0 <? rate)%float = true) /\
    (is_nan rate = false ->
     (TrendAnalysis.trend t = TrendAnalysis.decreasing <->
        (abs rate <? 5)%float = false /\ (rate <? 0)%float = true)).
Proof.
  intros Hlen values rate.
  unfold CorrelationsService.analyzeTrends.
  destruct (Z.ltb_spec (Z.of_nat (length entries)) 3) as [K|_]; [lia|].
  fold (TrendSpec.window entries metric CorrelationsService.defaultDays). fold values.
  assert (Hv : (3 <= Z.of_nat (length values))%Z).
  { unfold values, TrendSpec.window. rewrite length_map.
    rewrite length_sliceFrom_last by reflexivity. unfold CorrelationsService.defaultDays. lia. }
  destruct (Z.ltb_spec (Z.of_nat (length values)) 2) as [K|_]; [lia|].
  cbv zeta. rewrite (code_slope values).
  change (TrendSpec.slope values
          / (Arr.reduce (fun a b _ => a + b) values 0 / JS.ofZ (Z.of_nat (length values)))
          * 100)%float with rate.
  eexists. split; [reflexivity|]. cbn [TrendAnalysis.metric TrendAnalysis.changeRate TrendAnalysis.trend].
  split; [reflexivity|]. split; [reflexivity|].
  destruct (abs rate <? 5)%float eqn:Ea.
  - intuition (try discriminate; try congruence).
  - destruct (0 <? rate)%float eqn:Ep.
    + pose proof (positive_not_negative _ Ep).
      intuition (try discriminate; try congruence).
    + split; [|split; [|intros Hn]];
        try pose proof (negative_of_not_positive _ Hn Ea Ep);
        intuition (try discriminate; try congruence).
Qed.

Lemma analyzeTrends_change_rate_witness :
  exists t,
    CorrelationsService.analyzeTrends
      [Sample.entry 1 3 7 5; Sample.entry 2 2 7 5; Sample.entry 3 1 7 5] "mood"
      CorrelationsService.defaultDays = Some t /\
    TrendAnalysis.changeRate t = 50%float /\
    TrendAnalysis.trend t = TrendAnalysis.decreasing.
Proof.
  destruct (@analyzeTrends_change_rate
              [Sample.entry 1 3 7 5; Sample.entry 2 2 7 5; Sample.entry 3 1 7 5] "mood"
              ltac:(simpl; lia))
    as (t & E & _ & R & _ & _ & D).
  exists t. split; [exact E|]. split; [exact R|].
  apply (D eq_refl). split; reflexivity.
Defined.

(** C5 as stated fails: on moods 3, 2, 1 the slope is -1 and the mean 2, so
    slope / mean x 100 is -50, while the [changeRate] returned is 50. *)
Lemma analyzeTrends_returns_magnitude :
  let entries := [Sample.entry 1 3 7 5; Sample.entry 2 2 7 5; Sample.entry 3 1 7 5] in
  let values := TrendSpec.window entries "mood" 30 in
  values = [3; 2; 1]%float /\
  TrendSpec.slope values = (-1)%float /\
  TrendSpec.mean values = 2%float /\
  (TrendSpec.slope values / TrendSpec.mean values * 100 = -50)%float /\
  option_map TrendAnalysis.changeRate
    (CorrelationsService.analyzeTrends entries "mood" 30) = Some 50%float /\
  (50 <> -50)%float.
Proof.
  cbv zeta. repeat split; try reflexivity.
  intro H. apply (f_equal (fun x => (x <? 0)%float)) in H. discriminate H.
Qed.

(** A metric that is 0 on every day has mean 0: the rate is 0/0, and the
    trend is reported 'decreasing' with a NaN change rate. *)
Lemma analyzeTrends_zero_mean :
  option_map (fun t => (TrendAnalysis.trend t, TrendAnalysis.changeRate t))
    (CorrelationsService.analyzeTrends
       [Sample.entry 1 3 7 5; Sample.entry 2 2 7 5; Sample.entry 3 1 7 5] "gi_flare" 30)
  = Some (TrendAnalysis.decreasing, nan).
Proof. reflexivity. Qed.

(** ** Insight generation on short histories *)

(** C1, as the code has it. For every entry list of fewer than 7 entries,
    [CorrelationsService.generateInsights] returns exactly one insight, the
    'Need More Data' one (carrying the number of entries), with no further
    analysis; [InsightsService.generateInsights] returns no insight at all
    and leaves the entry array as it is. *)
Theorem generateInsights_short_history (entries : list Types.HealthEntrySchema) :
  (length entries < 7)%nat ->
  CorrelationsService.generateInsights entries
    = [CorrelationsService.needMoreData (Z.of_nat (length entries))] /\
  map HealthInsight.title (CorrelationsService.generateInsights entries)
    = ["Need More Data"] /\
  InsightsService.generateInsights entries = ([], entries).
Proof.
  intros H.
  unfold CorrelationsService.generateInsights, InsightsService.generateInsights.
  destruct (Z.ltb_spec (Z.of_nat (length entries)) 7) as [_|K]; [|lia].
  repeat split.
Qed.

Lemma generateInsights_short_history_witness :
  CorrelationsService.generateInsights [Sample.entry 1 5 7 5; Sample.entry 2 6 7 4]
    = [CorrelationsService.needMoreData 2] /\
  InsightsService.generateInsights [Sample.entry 1 5 7 5; Sample.entry 2 6 7 4]
    = ([], [Sample.entry 1 5 7 5; Sample.entry 2 6 7 4]).
Proof.
  destruct (@generateInsights_short_history
              [Sample.entry 1 5 7 5; Sample.entry 2 6 7 4] ltac:(simpl; lia))
    as (A & _ & B).
  split; [exact A | exact B].
Defined.

(** C1 as stated fails for [InsightsService.generateInsights]: on a short
    history (here the empty one, and one of two entries) it returns the
    empty list, not a list of one insight. *)
Lemma insightsService_short_history_empty :
  fst (InsightsService.generateInsights []) = [] /\
  fst (InsightsService.generateInsights [Sample.entry 1 5 7 5; Sample.entry 2 6 7 4]) = [] /\
  length (fst (InsightsService.generateInsights [Sample.entry 1 5 7 5; Sample.entry 2 6 7 4]))
    <> 1%nat.
Proof. repeat split; try reflexivity. discriminate. Qed.

(** ** Level and experience *)

(** C9. For every entry list (and whatever the service holds and the day
    is) the experience is 10 times the number of entries and the level is
    floor(experience / 100) + 1; 9 entries give level 1 and 10 entries
    level 2. *)
Theorem calculateStats_level (s : GamificationService.state) (z : Dates.zone)
    (today : Z) (healthData : list Types.HealthEntrySchema) :
  let stats := fst (GamificationService.calculateStats s z today healthData) in
  UserStats.totalLogs stats = Z.of_nat (length healthData) /\
  UserStats.experience stats = 10 * Z.of_nat (length healthData) /\
  UserStats.level stats = UserStats.experience stats / 100 + 1 /\
  UserStats.nextLevelExp stats = UserStats.level stats * 100 /\
  (length healthData = 9%nat -> UserStats.level stats = 1) /\
  (length healthData = 10%nat -> UserStats.level stats = 2).
Proof.
  unfold GamificationService.calculateStats.
  destruct (GamificationService.calculateImprovementTrend healthData) as [trend data1].
  destruct (GamificationService.calculateStreaks z today data1) as [streaks data2].
  cbn [fst UserStats.totalLogs UserStats.experience UserStats.level UserStats.nextLevelExp].
  repeat split; try lia; intros ->; reflexivity.
Qed.

(** The level on 9 and on 10 logged days, by evaluation. *)
Lemma calculateStats_level_examples :
  let day d := Sample.entry d 5 7 5 in
  UserStats.level
    (fst (GamificationService.calculateStats GamificationService.initial Dates.utc 9
            (map day [1; 2; 3; 4; 5; 6; 7; 8; 9]))) = 1 /\
  UserStats.level
    (fst (GamificationService.calculateStats GamificationService.initial Dates.utc 10
            (map day [1; 2; 3; 4; 5; 6; 7; 8; 9; 10]))) = 2.
Proof. split; reflexivity. Qed.

Lemma calculateStats_level_witness :
  UserStats.level
    (fst (GamificationService.calculateStats GamificationService.initial Dates.utc 9
            (map (fun d => Sample.entry d 5 7 5) [1; 2; 3; 4; 5; 6; 7; 8; 9]))) = 1.
Proof.
  exact (proj1 (proj2 (proj2 (proj2 (proj2
           (calculateStats_level GamificationService.initial Dates.utc 9
              (map (fun d => Sample.entry d 5 7 5) [1; 2; 3; 4; 5; 6; 7; 8; 9]))))))
         eq_refl).
Defined.

(** ** Badges and achievements *)

Section Unlocking.
Import GamificationService.

Lemma checkBadge_unlocked now stats healthData b :
  Badge.isUnlocked b = true -> checkBadge now stats healthData b = (b, false, healthData).
Proof. intros H. unfold checkBadge. now rewrite H. Qed.

Lemma checkBadgesLoop_length now stats badges :
  forall healthData,
    length (fst (fst (checkBadgesLoop now stats healthData badges))) = length badges.
Proof.
  induction badges as [|b rest IH]; intros healthData; [reflexivity|].
  cbn [checkBadgesLoop].
  destruct (checkBadge now stats healthData b) as [[b' isNew] data1].
  specialize (IH data1).
  destruct (checkBadgesLoop now stats data1 rest) as [[rest' new] data2].
  simpl in *. now rewrite IH.
Qed.

Lemma checkBadgesLoop_unlocked now stats badges :
  forall healthData i b,
    nth_error badges i = Some b -> Badge.isUnlocked b = true ->
    nth_error (fst (fst (checkBadgesLoop now stats healthData badges))) i = Some b.
Proof.
  induction badges as [|b0 rest IH]; intros healthData i b Hi Hb.
  - destruct i; discriminate Hi.
  - cbn [checkBadgesLoop].
    destruct (checkBadge now stats healthData b0) as [[b' isNew] data1] eqn:E.
    specialize (IH data1).
    destruct (checkBadgesLoop now stats data1 rest) as [[rest' new] data2].
    destruct i as [|i]; simpl in *.
    + injection Hi as ->. rewrite (checkBadge_unlocked now stats healthData _ Hb) in E.
      now injection E as <- _ _.
    + now apply IH.
Qed.

(** An evaluation never turns an unlocked badge into a locked one. *)
Lemma checkBadge_monotone now stats healthData b :
  Badge.isUnlocked b = true ->
  Badge.isUnlocked (fst (fst (checkBadge now stats healthData b))) = true.
Proof. intros H. now rewrite (checkBadge_unlocked now stats healthData _ H). Qed.

Lemma checkAchievement_unlocked now stats a :
  Achievement.isUnlocked a = true -> checkAchievement now stats a = (a, false).
Proof. intros H. unfold checkAchievement. now rewrite H. Qed.

Lemma checkAchievements_unlocked now s stats i a :
  nth_error (achievements s) i = Some a -> Achievement.isUnlocked a = true ->
  nth_error (achievements (fst (checkAchievements now s stats))) i = Some a.
Proof.
  intros Hi Ha. unfold checkAchievements. cbn [fst achievements].
  rewrite map_map, nth_error_map, Hi. simpl.
  now rewrite (checkAchievement_unlocked now stats _ Ha).
Qed.

Lemma checkAchievements_badges now s stats :
  badges (fst (checkAchievements now s stats)) = badges s.
Proof. reflexivity. Qed.

Lemma checkBadges_achievements now s healthData stats :
  achievements (fst (fst (checkBadges now s healthData stats))) = achievements s.
Proof.
  unfold checkBadges.
  now destruct (checkBadgesLoop now stats healthData (badges s)) as [[b' n] d].
Qed.

Lemma checkBadges_unlocked now s healthData stats i b :
  nth_error (badges s) i = Some b -> Badge.isUnlocked b = true ->
  nth_error (badges (fst (fst (checkBadges now s healthData stats)))) i = Some b.
Proof.
  intros Hi Hb. unfold checkBadges.
  pose proof (checkBadgesLoop_unlocked now stats (badges s) healthData i _ Hi Hb) as K.
  now destruct (checkBadgesLoop now stats healthData (badges s)) as [[b' n] d].
Qed.

End Unlocking.

(** C6. Unlocking is monotonic. Whatever the entry data, the statistics,
    the day and the time of an evaluation, a badge or an achievement that
    is unlocked before [checkBadges], [checkAchievements] or a whole
    [updateStats] is the very same record afterwards, at the same place
    (still unlocked, same [unlockedAt], same progress), both in the service
    and in the statistics returned. *)
Theorem unlocked_stays_unlocked (now : Z) (z : Dates.zone) (today : Z)
    (s : GamificationService.state)
    (healthData : list Types.HealthEntrySchema) (stats : UserStats.t) (i : nat) :
  (forall b,
     nth_error (GamificationService.badges s) i = Some b ->
     Badge.isUnlocked b = true ->
     nth_error (GamificationService.badges
                  (fst (fst (GamificationService.checkBadges now s healthData stats)))) i
       = Some b /\
     nth_error (GamificationService.badges
                  (snd (fst (GamificationService.updateStats now z today s healthData)))) i
       = Some b /\
     nth_error (UserStats.badges
                  (fst (fst (GamificationService.updateStats now z today s healthData)))) i
       = Some b) /\
  (forall a,
     nth_error (GamificationService.achievements s) i = Some a ->
     Achievement.isUnlocked a = true ->
     nth_error (GamificationService.achievements
                  (fst (GamificationService.checkAchievements now s stats))) i
       = Some a /\
     nth_error (GamificationService.achievements
                  (snd (fst (GamificationService.updateStats now z today s healthData)))) i
       = Some a /\
     nth_error (UserStats.achievements
                  (fst (fst (GamificationService.updateStats now z today s healthData)))) i
       = Some a).
Proof.
  split.
  - intros b Hi Hb. split; [now apply checkBadges_unlocked|].
    unfold GamificationService.updateStats.
    destruct (GamificationService.calculateStats s z today healthData) as [st data1].
    pose proof (checkBadges_unlocked now s data1 st i _ Hi Hb) as K.
    destruct (GamificationService.checkBadges now s data1 st) as [[s1 nb] data2].
    pose proof (checkAchievements_badges now s1 st) as B.
    destruct (GamificationService.checkAchievements now s1 st) as [s2 na].
    cbn [fst snd] in *. cbn [GamificationService.badges UserStats.badges UserStats.withCatalog].
    rewrite B. now split.
  - intros a Hi Ha. split; [now apply checkAchievements_unlocked|].
    unfold GamificationService.updateStats.
    destruct (GamificationService.calculateStats s z today healthData) as [st data1].
    pose proof (checkBadges_achievements now s data1 st) as A.
    destruct (GamificationService.checkBadges now s data1 st) as [[s1 nb] data2].
    cbn [fst] in A. rewrite <- A in Hi.
    pose proof (checkAchievements_unlocked now s1 st i _ Hi Ha) as K.
    destruct (GamificationService.checkAchievements now s1 st) as [s2 na].
    cbn [fst snd] in *.
    cbn [GamificationService.achievements UserStats.achievements UserStats.withCatalog].
    now split.
Qed.

Lemma unlocked_stays_unlocked_witness :
  let s' := snd (fst (GamificationService.updateStats 999 Dates.utc 20 Sample.someUnlocked [])) in
  option_map (fun b => (Badge.isUnlocked b, Badge.unlockedAt b))
    (nth_error (GamificationService.badges s') 0) = Some (true, Some 111) /\
  option_map (fun a => (Achievement.isUnlocked a, Achievement.unlockedAt a))
    (nth_error (GamificationService.achievements s') 0) = Some (true, Some 222).
Proof.
  pose proof (unlocked_stays_unlocked 999 Dates.utc 20 Sample.someUnlocked []
                (fst (GamificationService.calculateStats Sample.someUnlocked Dates.utc 20 [])) 0)
    as [B A].
  destruct (B _ eq_refl eq_refl) as (_ & Hb & _).
  destruct (A _ eq_refl eq_refl) as (_ & Ha & _).
  cbv zeta. rewrite Hb, Ha. split; reflexivity.
Defined.

(** ** Sorting *)

Section Sorting.
Context {A : Type} (before : A -> A -> bool).

Lemma insert_permutation x (l : list A) : Permutation (Arr.insert before x l) (x :: l).
Proof.
  induction l as [|y r IH]; simpl; [reflexivity|].
  destruct (before y x); [|reflexivity].
  rewrite IH. apply perm_swap.
Qed.

Lemma sort_from_permutation (a : list A) :
  forall acc,
    Permutation (fold_left (fun sorted x => Arr.insert before x sorted) a acc) (a ++ acc).
Proof.
  induction a as [|x a IH]; intros acc; simpl; [reflexivity|].
  rewrite IH, insert_permutation. symmetry. apply Permutation_middle.
Qed.

(** A sort only rearranges the array. *)
Lemma sort_permutation (a : list A) : Permutation (Arr.sort before a) a.
Proof. unfold Arr.sort. rewrite sort_from_permutation. now rewrite app_nil_r. Qed.

Context (R : A -> A -> Prop).
Hypothesis before_true : forall y x, before y x = true -> R y x.
Hypothesis before_false : forall y x, before y x = false -> R x y.
Hypothesis R_trans : forall x y z, R x y -> R y z -> R x z.

Lemma insert_sorted x (l : list A) :
  StronglySorted R l -> StronglySorted R (Arr.insert before x l).
Proof.
  induction 1 as [|y r Hs IH Hy]; simpl.
  - constructor; constructor.
  - destruct (before y x) eqn:E.
    + constructor; [exact IH|].
      eapply Permutation_Forall; [symmetry; apply insert_permutation|].
      constructor; [now apply before_true | exact Hy].
    + constructor; [now constructor|].
      constructor; [now apply before_false|].
      apply Forall_impl with (P := R y); [|exact Hy].
      intros z Hz. apply R_trans with y; [now apply before_false | exact Hz].
Qed.

Lemma sort_from_sorted (a : list A) :
  forall acc, StronglySorted R acc ->
    StronglySorted R (fold_left (fun sorted x => Arr.insert before x sorted) a acc).
Proof.
  induction a as [|x a IH]; intros acc H; simpl; [exact H|].
  apply IH. now apply insert_sorted.
Qed.

Lemma sort_sorted (a : list A) : StronglySorted R (Arr.sort before a).
Proof. apply sort_from_sorted. constructor. Qed.

End Sorting.

(** Sorting by date, newest first, gives days in descending order. *)
Lemma sort_dates_descending (dates : list Z) :
  StronglySorted (fun a b => b <= a) (Arr.sort (Arr.descending Dates.getTime) dates).
Proof.
  apply sort_sorted; unfold Arr.descending, Dates.getTime.
  - intros y x H. apply Z.leb_le in H. lia.
  - intros y x H. apply Z.leb_gt in H. lia.
  - intros x y z. lia.
Qed.

(** Without repetition the order is strict. *)
Lemma descending_strict (l : list Z) :
  StronglySorted (fun a b => b <= a) l -> NoDup l -> StronglySorted (fun a b => b < a) l.
Proof.
  induction 1 as [|d r Hs IH Hd]; intros Hn; [constructor|].
  inversion Hn as [|? ? Hnot Hr]; subst.
  constructor; [now apply IH|].
  rewrite Forall_forall in *. intros z Hz.
  specialize (Hd z Hz). assert (z <> d) by (intros ->; contradiction). lia.
Qed.

Lemma distinct_spec (a : list Z) :
  forall seen,
    NoDup (GamificationService.distinct seen a) /\
    (forall d, In d (GamificationService.distinct seen a) <-> In d a /\ ~ In d seen).
Proof.
  induction a as [|x a IH]; intros seen; simpl.
  - split; [constructor|]. intros d. tauto.
  - destruct (existsb (Z.eqb x) seen) eqn:E.
    + destruct (IH seen) as [N M]. split; [exact N|].
      intros d. rewrite M.
      apply existsb_exists in E. destruct E as (y & Hy & Exy). apply Z.eqb_eq in Exy. subst y.
      split; [tauto|]. intros [[->|Hd] Hs]; [contradiction | tauto].
    + destruct (IH (x :: seen)) as [N M]. split.
      * constructor; [|exact N]. rewrite M. simpl. tauto.
      * intros d. simpl. rewrite M. simpl.
        assert (Hx : ~ In x seen).
        { intros Hin. assert (existsb (Z.eqb x) seen = true) as K; [|congruence].
          apply existsb_exists. exists x. split; [exact Hin | apply Z.eqb_refl]. }
        destruct (Z.eq_dec x d) as [->|Hne]; [tauto|]. tauto.
Qed.

(** ** Streaks *)

Section Streaks.
Import GamificationService Dates Types.

Lemma days_diff (a b : Z) : (getTime a - getTime b) / (1000 * 60 * 60 * 24) = a - b.
Proof.
  unfold getTime. replace (a * 86400000 - b * 86400000) with ((a - b) * 86400000) by lia.
  now apply Z.div_mul.
Qed.

(** Where the clock is never changed, a step of the walk goes back one
    UTC day. *)
Lemma setDatePrevious_fixed (z : zone) (t : Z) :
  fixedOffset z -> setDatePrevious z t = t - 86400000.
Proof.
  intros (c & HU & HL). unfold setDatePrevious. rewrite HU, HL. lia.
Qed.

(** There the walk back from [today] counts only days that have an entry. *)
Lemma currentStreakLoop_spec (z : zone) (data : list HealthEntrySchema) (n : nat) :
  fixedOffset z ->
  forall day c,
    let r := currentStreakLoop z n (getTime day) c data in
    c <= r <= c + Z.of_nat n /\
    forall j, 0 <= j < r - c -> In (day - j) (map date data).
Proof.
  intros Hz. induction n as [|n IH]; intros day c; cbn [currentStreakLoop].
  - split; [lia|]. intros j Hj. lia.
  - assert (Ed : toISODate (getTime day) = day) by (apply Z.div_mul; lia).
    rewrite Ed, (setDatePrevious_fixed z _ Hz).
    replace (getTime day - 86400000) with (getTime (day - 1)) by (unfold getTime; lia).
    destruct (existsb (fun entry => date entry =? day) data) eqn:E.
    + destruct (IH (day - 1) (c + 1)) as [B Hin]. split; [lia|].
      intros j Hj. destruct (Z.eq_dec j 0) as [->|Hne].
      * apply existsb_exists in E. destruct E as (e & He & Ee). apply Z.eqb_eq in Ee.
        rewrite Z.sub_0_r, <- Ee. now apply in_map.
      * replace (day - j) with (day - 1 - (j - 1)) by lia. apply Hin. lia.
    + split; [lia|]. intros j Hj. lia.
Qed.

(** One turn of the loop when a next date exists. *)
Lemma longestStreakLoop_step (d0 d1 : Z) (r : list Z) (longest temp : Z) :
  longestStreakLoop (d0 :: d1 :: r) longest temp
  = if d0 - d1 =? 1 then longestStreakLoop (d1 :: r) longest (temp + 1)
    else longestStreakLoop (d1 :: r) (Z.max longest (temp + 1)) 0.
Proof. rewrite <- (days_diff d0 d1). reflexivity. Qed.

Lemma longestStreakLoop_ge (dates : list Z) :
  forall longest temp, longest <= longestStreakLoop dates longest temp.
Proof.
  induction dates as [|d0 rest IH]; intros longest temp; [cbn [longestStreakLoop]; lia|].
  destruct rest as [|d1 r].
  - cbn [longestStreakLoop]. lia.
  - rewrite longestStreakLoop_step. destruct (d0 - d1 =? 1).
    + apply IH.
    + etransitivity; [|apply IH]. lia.
Qed.

(** A run that starts at the head of the dates extends the streak under
    construction. *)
Lemma longestStreakLoop_head (rest : list Z) :
  forall d0 longest temp k,
    StronglySorted (fun a b => b < a) (d0 :: rest) ->
    run d0 (S k) (d0 :: rest) ->
    temp + Z.of_nat (S k) <= longestStreakLoop (d0 :: rest) longest temp.
Proof.
  induction rest as [|d1 r IH]; intros d0 longest temp k Hs Hr.
  - cbn [longestStreakLoop]. destruct k as [|k]; [lia|].
    destruct (Hr 1%nat ltac:(lia)) as [H|[]]. lia.
  - inversion Hs as [|? ? Hs' Hd]; subst.
    inversion Hd as [|? ? Hd1 Hdr]; subst.
    inversion Hs' as [|? ? _ Hd1r]; subst.
    rewrite Forall_forall in Hdr, Hd1r.
    rewrite longestStreakLoop_step.
    destruct k as [|k].
    + destruct (Z.eqb_spec (d0 - d1) 1) as [E|E].
      * etransitivity; [|apply (IH d1 longest (temp + 1) 0%nat Hs')]; [lia|].
        intros j Hj. assert (j = 0%nat) as -> by lia. left. simpl. lia.
      * etransitivity; [|apply longestStreakLoop_ge]. lia.
    + assert (E : d1 = d0 - 1).
      { destruct (Hr 1%nat ltac:(lia)) as [H|[H|H]]; try lia.
        specialize (Hd1r _ H). lia. }
      subst d1. replace (d0 - (d0 - 1)) with 1 by lia. cbn [Z.eqb Pos.eqb].
      etransitivity; [|apply (IH (d0 - 1) longest (temp + 1) k Hs')]; [lia|].
      intros j Hj. destruct (Hr (S j) ltac:(lia)) as [H|H]; [lia|].
      replace (d0 - 1 - Z.of_nat j) with (d0 - Z.of_nat (S j)) by lia. exact H.
Qed.

(** Every run of consecutive days among the dates is counted. *)
Lemma longestStreakLoop_run (dates : list Z) :
  forall longest temp d k,
    StronglySorted (fun a b => b < a) dates -> 0 <= temp ->
    run d (S k) dates ->
    Z.of_nat (S k) <= longestStreakLoop dates longest temp.
Proof.
  induction dates as [|d0 rest IH]; intros longest temp d k Hs Ht Hr.
  - destruct (Hr 0%nat ltac:(lia)).
  - destruct (Z.eq_dec d d0) as [->|Hne].
    + etransitivity; [|apply (longestStreakLoop_head rest d0 longest temp k Hs Hr)]. lia.
    + inversion Hs as [|? ? Hs' Hd]; subst. rewrite Forall_forall in Hd.
      assert (Hd0 : d < d0).
      { destruct (Hr 0%nat ltac:(lia)) as [H|H]; [lia|]. specialize (Hd _ H). lia. }
      assert (Hr' : run d (S k) rest).
      { intros j Hj. destruct (Hr j Hj) as [H|H]; [lia | exact H]. }
      destruct rest as [|d1 r].
      * destruct (Hr' 0%nat ltac:(lia)).
      * rewrite longestStreakLoop_step.
        destruct (d0 - d1 =? 1); apply (IH _ _ d k Hs'); try assumption; lia.
Qed.

End Streaks.

(** X27. Where the clock is never changed: [longestStreak >= currentStreak],
    the current streak is at most 365, and [longestStreak >= 1] when the
    list is not empty. *)
Lemma longest_streak_bounds (z : Dates.zone) (today : Z)
    (healthData : list Types.HealthEntrySchema) :
  Dates.fixedOffset z ->
  let streaks := fst (GamificationService.calculateStreaks z today healthData) in
  StreakData.currentStreak streaks <= StreakData.longestStreak streaks /\
  0 <= StreakData.currentStreak streaks <= 365 /\
  (healthData <> [] -> 1 <= StreakData.longestStreak streaks).
Proof.
  intros Hz. unfold GamificationService.calculateStreaks.
  pose proof (sort_permutation (Arr.descending GamificationService.time) healthData) as P.
  destruct (Arr.sort (Arr.descending GamificationService.time) healthData)
    as [|first others] eqn:E.
  - cbn. split; [lia|]. split; [lia|]. intros H. apply Permutation_nil in P. contradiction.
  - cbn [fst StreakData.currentStreak StreakData.longestStreak].
    set (sortedData := first :: others) in *.
    set (sortedDates := Arr.sort (Arr.descending Dates.getTime)
                          (GamificationService.distinct [] (map Types.date sortedData))).
    assert (M : forall d, In d sortedDates <-> In d (map Types.date sortedData)).
    { intros d. unfold sortedDates. split; intros H.
      - apply (Permutation_in _ (sort_permutation _ _)) in H.
        now apply (distinct_spec _ []) in H.
      - apply (Permutation_in _ (Permutation_sym (sort_permutation _ _))).
        apply (distinct_spec _ []). split; [exact H | intros []]. }
    assert (Hsorted : StronglySorted (fun a b => b < a) sortedDates).
    { apply descending_strict; [apply sort_dates_descending|].
      apply (Permutation_NoDup (Permutation_sym (sort_permutation _ _))).
      apply (distinct_spec _ []). }
    destruct (currentStreakLoop_spec z sortedData 365 Hz today 0) as [B R].
    set (c := GamificationService.currentStreakLoop z 365 (Dates.getTime today) 0 sortedData) in *.
    split; [|split; [lia|]].
    + destruct (Z.eq_dec c 0) as [->|Hc]; [apply longestStreakLoop_ge|].
      replace c with (Z.of_nat (S (Z.to_nat (c - 1)))) by lia.
      apply (longestStreakLoop_run sortedDates 0 0 today); [exact Hsorted | lia |].
      intros j Hj. apply M. apply R. lia.
    + intros _.
      apply (longestStreakLoop_run sortedDates 0 0 (Types.date first) 0%nat);
        [exact Hsorted | lia |].
      intros j Hj. assert (j = 0%nat) as -> by lia. apply M. left. simpl. lia.
Qed.

(** The longest streak alone needs no assumption on the zone. *)
Lemma longest_streak_positive (z : Dates.zone) (today : Z)
    (healthData : list Types.HealthEntrySchema) :
  healthData <> [] ->
  1 <= StreakData.longestStreak (fst (GamificationService.calculateStreaks z today healthData)).
Proof.
  intros Hne. unfold GamificationService.calculateStreaks.
  pose proof (sort_permutation (Arr.descending GamificationService.time) healthData) as P.
  destruct (Arr.sort (Arr.descending GamificationService.time) healthData)
    as [|first others] eqn:E.
  - apply Permutation_nil in P. contradiction.
  - cbn [fst StreakData.longestStreak].
    apply (longestStreakLoop_run _ 0 0 (Types.date first) 0%nat); [| lia |].
    + apply descending_strict; [apply sort_dates_descending|].
      apply (Permutation_NoDup (Permutation_sym (sort_permutation _ _))).
      apply (distinct_spec _ []).
    + intros j Hj. assert (j = 0%nat) as -> by lia.
      apply (Permutation_in _ (Permutation_sym (sort_permutation _ _))).
      apply (distinct_spec _ []). split; [|intros []]. left. simpl. lia.
Qed.

(** The streaks of the example of the specification: entries on the days
    D, D-1, D-2 and none on D-3. *)
Lemma streak_example :
  fst (GamificationService.calculateStreaks Dates.utc 20
         [Sample.entry 18 5 7 5; Sample.entry 20 6 7 4; Sample.entry 19 6 7 4;
          Sample.entry 15 6 7 4])
  = StreakData.mk 3 3 (Some 20) "daily".
Proof. reflexivity. Qed.

(** C10, at a failing input. In New York, with entries on 2024-11-01,
    2024-11-02 and 2024-11-04 (days 20028, 20029, 20031) and none on
    2024-11-03, evaluated on 2024-11-04 (UTC): the walk starts at
    2024-11-04T00:00Z, which is 19:00 local time of 3 November; one local
    day earlier, 19:00 of 2 November, is daylight time, that is
    2024-11-02T23:00Z.  The walk thus passes from 4 November to 2 November
    and counts three days in a row, while the longest run of consecutive
    dates is two. *)
Theorem streak_skips_day_at_clock_change :
  let healthData :=
    [Sample.entry 20031 5 7 5; Sample.entry 20029 6 7 4; Sample.entry 20028 6 7 4] in
  let streaks := fst (GamificationService.calculateStreaks Sample.newYork 20031 healthData) in
  Dates.toISODate (Dates.setDatePrevious Sample.newYork (Dates.getTime 20031)) = 20029 /\
  StreakData.currentStreak streaks = 3 /\
  StreakData.longestStreak streaks = 2 /\
  ~ (StreakData.currentStreak streaks <= StreakData.longestStreak streaks).
Proof. cbv zeta. repeat split. intros H. vm_compute in H. now apply H. Qed.

(** ** The caller's entry array *)

(** X28. The sorting operations only rearrange the caller's array: its
    entries are kept, each as often as before. *)
Lemma analytics_keep_entries (z : Dates.zone) (today : Z) (badgeId : string)
    (healthData : list Types.HealthEntrySchema) :
  Permutation (snd (GamificationService.calculateImprovementTrend healthData)) healthData /\
  Permutation (snd (GamificationService.calculateStreaks z today healthData)) healthData /\
  Permutation (snd (GamificationService.checkImprovement healthData badgeId)) healthData /\
  Permutation (snd (InsightsService.generateInsights healthData)) healthData.
Proof.
  repeat split.
  - unfold GamificationService.calculateImprovementTrend.
    destruct (Z.of_nat (length healthData) <? 14); [reflexivity|]. apply sort_permutation.
  - unfold GamificationService.calculateStreaks.
    pose proof (sort_permutation (Arr.descending GamificationService.time) healthData) as P.
    now destruct (Arr.sort (Arr.descending GamificationService.time) healthData).
  - unfold GamificationService.checkImprovement.
    destruct (Z.of_nat (length healthData) <? 14); [reflexivity|].
    destruct (_ || _); [apply sort_permutation|].
    destruct (badgeId =? "stress_reduction")%string; apply sort_permutation.
  - unfold InsightsService.generateInsights.
    destruct (Z.of_nat (length healthData) <? 7); [reflexivity|]. apply sort_permutation.
Qed.

(** C2, at failing inputs. The entries are stored newest first.  Handed
    two weeks of them, [calculateImprovementTrend], [checkImprovement] and
    [InsightsService.generateInsights] leave the caller's array in the
    opposite order, oldest first; handed entries oldest first,
    [calculateStreaks] leaves them newest first; after a whole
    [updateStats] the caller's array is reversed. *)
Theorem analytics_reorder_caller_array :
  let newestFirst := Sample.twoWeeks in
  let oldestFirst := rev Sample.twoWeeks in
  map Types.date newestFirst = [14; 13; 12; 11; 10; 9; 8; 7; 6; 5; 4; 3; 2; 1] /\
  snd (GamificationService.calculateImprovementTrend newestFirst) = oldestFirst /\
  snd (GamificationService.checkImprovement newestFirst "mood_improvement") = oldestFirst /\
  snd (InsightsService.generateInsights newestFirst) = oldestFirst /\
  snd (GamificationService.calculateStreaks Dates.utc 14 oldestFirst) = newestFirst /\
  snd (GamificationService.updateStats 0 Dates.utc 14 GamificationService.initial newestFirst)
    = oldestFirst /\
  newestFirst <> oldestFirst.
Proof.
  cbv zeta. repeat split; try (vm_compute; reflexivity).
  intros H. apply (f_equal (map Types.date)) in H. vm_compute in H. discriminate H.
Qed.

(** ** Improvement badges *)

Lemma length_slice_previous {A} (a : list A) :
  14 <= Z.of_nat (length a) -> Z.of_nat (length (Arr.slice (-14) (-7) a)) = 7.
Proof.
  intros H. unfold Arr.slice. cbn [Z.ltb Z.compare].
  rewrite length_firstn, length_skipn. lia.
Qed.

(** With at least 14 entries, the verdict of [checkImprovement] is the
    strict comparison of the two averages, taken over the last seven and
    the seven before them of the entries in date order. *)
Lemma checkImprovement_verdict (healthData : list Types.HealthEntrySchema)
    (badgeId : string) :
  (14 <= length healthData)%nat ->
  let sorted := Arr.sort (Arr.ascending GamificationService.time) healthData in
  let lastAvg := GamificationService.getAverageScore (Arr.sliceFrom (-7) sorted) badgeId in
  let prevAvg := GamificationService.getAverageScore (Arr.slice (-14) (-7) sorted) badgeId in
  fst (GamificationService.checkImprovement healthData badgeId)
  = if (badgeId =? "stress_reduction")%string
    then (lastAvg <? prevAvg - 2)%float
    else (prevAvg + 2 <? lastAvg)%float.
Proof.
  intros H sorted lastAvg prevAvg. unfold GamificationService.checkImprovement.
  destruct (Z.ltb_spec (Z.of_nat (length healthData)) 14) as [K|_]; [lia|].
  fold sorted.
  assert (L : Z.of_nat (length sorted) = Z.of_nat (length healthData)).
  { unfold sorted. now rewrite (Permutation_length (sort_permutation _ healthData)). }
  pose proof (length_sliceFrom_last sorted 7 eq_refl) as L7. cbn [Z.opp] in L7.
  rewrite L7, length_slice_previous by lia.
  destruct (Z.ltb_spec (Z.min (Z.of_nat (length sorted)) 7) 7) as [K|_]; [lia|].
  cbn [Z.ltb Z.compare Pos.compare Pos.compare_cont orb].
  fold lastAvg prevAvg.
  now destruct (badgeId =? "stress_reduction")%string.
Qed.

(** C4, at a failing input. Over the two weeks of [Sample.twoWeeks] the
    mood average rises from 5 to 7, the sleep-quality average from 6 to 8
    and the stress average falls from 7 to 5: each shifts by exactly 2
    points in the required direction.  [checkImprovement] answers false
    for the three badges, and a whole evaluation leaves them locked with
    progress 0. *)
Theorem improvement_of_exactly_two_stays_locked :
  let data := Sample.twoWeeks in
  let sorted := snd (GamificationService.checkImprovement data "mood_improvement") in
  let last7 := Arr.sliceFrom (-7) sorted in
  let previous7 := Arr.slice (-14) (-7) sorted in
  let badgesAfter :=
    GamificationService.badges
      (snd (fst (GamificationService.updateStats 0 Dates.utc 14
                   GamificationService.initial data))) in
  GamificationService.getAverageScore previous7 "mood_improvement" = 5%float /\
  GamificationService.getAverageScore last7 "mood_improvement" = 7%float /\
  GamificationService.getAverageScore previous7 "sleep_improvement" = 6%float /\
  GamificationService.getAverageScore last7 "sleep_improvement" = 8%float /\
  GamificationService.getAverageScore previous7 "stress_reduction" = 7%float /\
  GamificationService.getAverageScore last7 "stress_reduction" = 5%float /\
  fst (GamificationService.checkImprovement data "mood_improvement") = false /\
  fst (GamificationService.checkImprovement data "sleep_improvement") = false /\
  fst (GamificationService.checkImprovement data "stress_reduction") = false /\
  map (fun b => (Badge.id b, Badge.isUnlocked b, Badge.progress b))
    (filter (fun b => match Badge.category_ b with Badge.improvement => true | _ => false end)
       badgesAfter)
  = [("mood_improvement", false, 0); ("sleep_improvement", false, 0);
     ("stress_reduction", false, 0)].
Proof. cbv zeta. repeat split; vm_compute; reflexivity. Qed.

(** A shift of three points does unlock the three badges. *)
Lemma improvement_of_three_unlocks :
  let badgesAfter :=
    GamificationService.badges
      (snd (fst (GamificationService.updateStats 77 Dates.utc 14
                   GamificationService.initial Sample.twoWeeksBetter))) in
  map (fun b => (Badge.id b, Badge.isUnlocked b, Badge.unlockedAt b))
    (filter (fun b => match Badge.category_ b with Badge.improvement => true | _ => false end)
       badgesAfter)
  = [("mood_improvement", true, Some 77); ("sleep_improvement", true, Some 77);
     ("stress_reduction", true, Some 77)].
Proof. vm_compute. reflexivity. Qed.

(** The catalogue words the three badges as "2+ points". *)
Lemma improvement_badges_descriptions :
  map Badge.description
    (filter (fun b => match Badge.category_ b with Badge.improvement => true | _ => false end)
       GamificationService.initializeBadges)
  = ["Improve mood score by 2+ points over 7 days";
     "Improve sleep quality by 2+ points over 7 days";
     "Reduce stress by 2+ points over 7 days"].
Proof. reflexivity. Qed.

(* ================================================================== *)
(** ** The local store of entries *)

Section Store.
Import Dates Types Arr HealthStore.

Lemma jsonNumber_idempotent x : jsonNumber (jsonNumber x) = jsonNumber x.
Proof.
  unfold jsonNumber. destruct (is_nan x || is_infinity x || is_zero x) eqn:E.
  - reflexivity.
  - now rewrite E.
Qed.

Lemma toJSON_idempotent e : toJSON (toJSON e) = toJSON e.
Proof. unfold toJSON. cbn. now rewrite !jsonNumber_idempotent. Qed.

Lemma date_toJSON e : date (toJSON e) = date e.
Proof. reflexivity. Qed.

Lemma dates_toJSON l : map date (map toJSON l) = map date l.
Proof. rewrite map_map. apply map_ext. intros e. apply date_toJSON. Qed.

(** [findIndex] answers -1 exactly when no element passes the test;
    otherwise it points at the first one that does. *)
Lemma findIndexFrom_spec {A} (p : A -> bool) (a : list A) :
  forall i,
    (findIndexFrom p i a = -1 /\ 0 <= i -> forall x, In x a -> p x = false) /\
    (0 <= i -> findIndexFrom p i a <> -1 ->
     exists pre x post,
       a = pre ++ x :: post /\ p x = true /\ (forall y, In y pre -> p y = false) /\
       findIndexFrom p i a = i + Z.of_nat (length pre)).
Proof.
  induction a as [|x r IH]; intros i; cbn [findIndexFrom].
  - split; [intros _ y []|]. intros _ H. contradiction.
  - destruct (p x) eqn:E.
    + split; [intros [H Hi]; lia|]. intros Hi _.
      exists [], x, r. repeat split; [exact E | intros y [] | simpl; lia].
    + destruct (IH (i + 1)) as [N S]. split.
      * intros [H Hi] y [<-|Hy]; [exact E|]. apply N; [split; [exact H|lia] | exact Hy].
      * intros Hi H. destruct (S ltac:(lia) H) as (pre & y & post & -> & Hy & Hpre & Hidx).
        exists (x :: pre), y, post. repeat split; [exact Hy | | simpl length; lia].
        intros z [<-|Hz]; [exact E | now apply Hpre].
Qed.

Lemma assign_middle {A} (pre : list A) (x v : A) (post : list A) :
  assign (length pre) v (pre ++ x :: post) = pre ++ v :: post.
Proof. induction pre as [|y pre IH]; simpl; [reflexivity | now rewrite IH]. Qed.

(** The array [saveEntryLocally] sorts: the entry takes the place of the
    first stored entry of its date, or is added at the end. *)
Lemma upsert_cases (stored : store) (entry : HealthEntrySchema) :
  let entryIndex := findIndex (fun e => date e =? date entry) stored in
  let updated :=
    if 0 <=? entryIndex then assign (Z.to_nat entryIndex) entry stored
    else stored ++ [entry] in
  (exists pre old post,
     stored = pre ++ old :: post /\ date old = date entry /\
     ~ In (date entry) (map date pre) /\ updated = pre ++ entry :: post) \/
  (~ In (date entry) (map date stored) /\ updated = stored ++ [entry]).
Proof.
  cbv zeta. unfold findIndex.
  destruct (findIndexFrom_spec (fun e => date e =? date entry) stored 0) as [N S].
  destruct (Z.eq_dec (findIndexFrom (fun e => date e =? date entry) 0 stored) (-1)) as [E|E].
  - right. rewrite E. cbn [Z.leb Z.compare]. split; [|reflexivity].
    intros Hin. apply in_map_iff in Hin. destruct Hin as (e & He & Hine).
    specialize (N (conj E (Z.le_refl 0)) e Hine). cbn in N. apply Z.eqb_neq in N. congruence.
  - left. destruct (S (Z.le_refl 0) E) as (pre & old & post & -> & Hold & Hpre & Hidx).
    rewrite Hidx. replace (0 <=? 0 + Z.of_nat (length pre)) with true
      by (symmetry; apply Z.leb_le; lia).
    replace (Z.to_nat (0 + Z.of_nat (length pre))) with (length pre) by lia.
    exists pre, old, post. apply Z.eqb_eq in Hold.
    repeat split; [exact Hold | | apply assign_middle].
    intros Hin. apply in_map_iff in Hin. destruct Hin as (e & He & Hine).
    specialize (Hpre e Hine). cbn in Hpre. apply Z.eqb_neq in Hpre. congruence.
Qed.

(** The dates of the store after a save. *)
Lemma saveEntryLocally_dates (stored : store) (entry : HealthEntrySchema) :
  Permutation (map date (saveEntryLocally stored entry))
    (if existsb (Z.eqb (date entry)) (map date stored)
     then map date stored else date entry :: map date stored).
Proof.
  unfold saveEntryLocally, getLocalEntries. rewrite dates_toJSON.
  rewrite (Permutation_map date (sort_permutation (descending time) _)).
  destruct (upsert_cases stored entry) as [(pre & old & post & -> & Hd & Hpre & ->)|[Hn ->]].
  - replace (existsb (Z.eqb (date entry)) (map date (pre ++ old :: post))) with true.
    + rewrite !map_app. cbn [map]. now rewrite Hd.
    + symmetry. apply existsb_exists. exists (date entry). split; [|apply Z.eqb_refl].
      rewrite map_app. apply in_or_app. right. left. exact Hd.
  - replace (existsb (Z.eqb (date entry)) (map date stored)) with false.
    + rewrite map_app. cbn [map]. symmetry. apply Permutation_cons_append.
    + symmetry. apply not_true_is_false. intros H. apply existsb_exists in H.
      destruct H as (d & Hd & E). apply Z.eqb_eq in E. subst d. contradiction.
Qed.

Lemma sort_entries_descending (l : list HealthEntrySchema) :
  StronglySorted (fun a b => date b <= date a) (sort (descending time) l).
Proof.
  apply sort_sorted; unfold descending, time, getTime.
  - intros y x H. apply Z.leb_le in H. lia.
  - intros y x H. apply Z.leb_gt in H. lia.
  - intros x y z. lia.
Qed.

Lemma StronglySorted_map {A B} (f : A -> B) (R : B -> B -> Prop) (l : list A) :
  StronglySorted (fun a b => R (f a) (f b)) l -> StronglySorted R (map f l).
Proof.
  induction 1 as [|x r Hs IH Hx]; cbn [map]; constructor; [exact IH|].
  rewrite Forall_forall in *. intros y Hy. apply in_map_iff in Hy.
  destruct Hy as (z & <- & Hz). now apply Hx.
Qed.

Lemma saveEntryLocally_sorted (stored : store) (entry : HealthEntrySchema) :
  StronglySorted (fun a b => b <= a) (map date (saveEntryLocally stored entry)).
Proof.
  unfold saveEntryLocally. rewrite dates_toJSON.
  apply StronglySorted_map. apply sort_entries_descending.
Qed.

Lemma saveEntryLocally_nodup (stored : store) (entry : HealthEntrySchema) :
  NoDup (map date stored) -> NoDup (map date (saveEntryLocally stored entry)).
Proof.
  intros H. apply (Permutation_NoDup (Permutation_sym (saveEntryLocally_dates stored entry))).
  destruct (existsb (Z.eqb (date entry)) (map date stored)) eqn:E; [exact H|].
  constructor; [|exact H]. intros Hin.
  assert (existsb (Z.eqb (date entry)) (map date stored) = true); [|congruence].
  apply existsb_exists. exists (date entry). split; [exact Hin | apply Z.eqb_refl].
Qed.

(** Among entries of distinct dates, the date tells the entry. *)
Lemma unique_by_date (l : list HealthEntrySchema) (a b : HealthEntrySchema) :
  NoDup (map date l) -> In a l -> In b l -> date a = date b -> a = b.
Proof.
  induction l as [|x l IH]; intros Hn Ha Hb E; [destruct Ha|].
  cbn [map] in Hn. inversion Hn as [|? ? Hx Hl]; subst.
  destruct Ha as [->|Ha], Hb as [->|Hb]; try reflexivity.
  - exfalso. apply Hx. rewrite E. now apply in_map.
  - exfalso. apply Hx. rewrite <- E. now apply in_map.
  - now apply IH.
Qed.

Lemma find_by_date (l : list HealthEntrySchema) (d : Z) :
  match find (fun entry => date entry =? d) l with
  | Some e => In e l /\ date e = d
  | None => ~ In d (map date l)
  end.
Proof.
  destruct (find (fun entry => date entry =? d) l) as [e|] eqn:E.
  - apply find_some in E. destruct E as [Hin Hd]. apply Z.eqb_eq in Hd. now split.
  - intros Hin. apply in_map_iff in Hin. destruct Hin as (e & He & Hin).
    pose proof (find_none _ _ E e Hin) as K. cbn in K. apply Z.eqb_neq in K. congruence.
Qed.

(** In a store of distinct dates, a lookup finds the entry of the date. *)
Lemma lookup_unique (l : list HealthEntrySchema) (e : HealthEntrySchema) :
  NoDup (map date l) -> In e l -> getEntryForDate l (date e) = Some e.
Proof.
  intros Hn Hin. unfold getEntryForDate, getLocalEntries.
  pose proof (find_by_date l (date e)) as K.
  destruct (find (fun entry => date entry =? date e) l) as [e'|].
  - destruct K as [Hin' Hd]. f_equal. now apply (unique_by_date l).
  - exfalso. apply K. now apply in_map.
Qed.

Lemma lookup_absent (l : list HealthEntrySchema) (d : Z) :
  ~ In d (map date l) -> getEntryForDate l d = None.
Proof.
  intros Hn. unfold getEntryForDate, getLocalEntries.
  pose proof (find_by_date l d) as K.
  destruct (find (fun entry => date entry =? d) l) as [e'|]; [|reflexivity].
  destruct K as [Hin Hd]. exfalso. apply Hn. rewrite <- Hd. now apply in_map.
Qed.

(** What a save keeps of the entries stored before. *)
Lemma saveEntryLocally_members (stored : store) (entry e : HealthEntrySchema) :
  In (toJSON entry) (saveEntryLocally stored entry) /\
  (In e stored -> date e <> date entry -> In (toJSON e) (saveEntryLocally stored entry)).
Proof.
  unfold saveEntryLocally, getLocalEntries.
  assert (K : forall x updated, In x updated ->
                In (toJSON x) (map toJSON (sort (descending time) updated))).
  { intros x updated Hx. apply in_map.
    apply (Permutation_in _ (Permutation_sym (sort_permutation _ updated))). exact Hx. }
  destruct (upsert_cases stored entry) as [(pre & old & post & -> & Hd & Hpre & ->)|[Hn ->]].
  - split; [apply K, in_or_app; right; now left|].
    intros Hin Hne. apply K. apply in_app_or in Hin. apply in_or_app.
    destruct Hin as [Hin|[->|Hin]]; [now left | congruence | right; now right].
  - split; [apply K, in_or_app; right; now left|].
    intros Hin _. apply K, in_or_app. now left.
Qed.

End Store.

(** X1. Saving keeps the store at one entry per date: when the stored
    dates are distinct they are distinct after [saveEntryLocally], and they
    are then in strictly descending order (newest first), whatever order
    the store was in before. *)
Theorem save_keeps_one_entry_per_date (stored : HealthStore.store)
    (entry : Types.HealthEntrySchema) :
  NoDup (map Types.date stored) ->
  NoDup (map Types.date (HealthStore.saveEntryLocally stored entry)) /\
  StronglySorted (fun a b => b < a)
    (map Types.date (HealthStore.saveEntryLocally stored entry)).
Proof.
  intros H. pose proof (saveEntryLocally_nodup stored entry H) as N.
  split; [exact N|]. apply descending_strict; [apply saveEntryLocally_sorted | exact N].
Qed.

Lemma save_keeps_one_entry_per_date_witness :
  map Types.date
    (HealthStore.saveEntryLocally
       [Sample.entry 3 5 7 5; Sample.entry 9 5 7 5; Sample.entry 1 5 7 5]
       (Sample.entry 9 8 8 2)) = [9; 3; 1] /\
  NoDup (map Types.date
           (HealthStore.saveEntryLocally
              [Sample.entry 3 5 7 5; Sample.entry 9 5 7 5; Sample.entry 1 5 7 5]
              (Sample.entry 9 8 8 2))).
Proof.
  split; [reflexivity|].
  apply (save_keeps_one_entry_per_date
           [Sample.entry 3 5 7 5; Sample.entry 9 5 7 5; Sample.entry 1 5 7 5]
           (Sample.entry 9 8 8 2)).
  repeat constructor; simpl; intuition discriminate.
Defined.

(** X2. Save, then look up. In a store of distinct dates, after
    [saveEntryLocally(entry)] the lookup [getEntryForDate] of the entry's
    date returns that entry (as JSON keeps it), and the lookup of any other
    date returns what it returned before. *)
Theorem lookup_after_save (stored : HealthStore.store) (entry : Types.HealthEntrySchema)
    (d : Z) :
  NoDup (map Types.date stored) ->
  HealthStore.getEntryForDate (HealthStore.saveEntryLocally stored entry) d
  = if d =? Types.date entry then Some (HealthStore.toJSON entry)
    else option_map HealthStore.toJSON (HealthStore.getEntryForDate stored d).
Proof.
  intros H. pose proof (saveEntryLocally_nodup stored entry H) as N.
  destruct (saveEntryLocally_members stored entry entry) as [Hself _].
  destruct (Z.eqb_spec d (Types.date entry)) as [->|Hne].
  - rewrite <- (date_toJSON entry) at 1. now apply lookup_unique.
  - pose proof (find_by_date stored d) as K. unfold HealthStore.getEntryForDate at 2.
    unfold HealthStore.getLocalEntries.
    destruct (find (fun e => Types.date e =? d) stored) as [e|].
    + destruct K as [Hin Hd]. cbn [option_map]. rewrite <- Hd, <- (date_toJSON e).
      apply lookup_unique; [exact N|].
      apply (saveEntryLocally_members stored entry e); [exact Hin | congruence].
    + cbn [option_map]. apply lookup_absent. intros Hin.
      apply (Permutation_in _ (saveEntryLocally_dates stored entry)) in Hin.
      destruct (existsb (Z.eqb (Types.date entry)) (map Types.date stored));
        [contradiction|]. destruct Hin as [E|Hin]; [congruence | contradiction].
Qed.

Lemma lookup_after_save_witness :
  HealthStore.getEntryForDate
    (HealthStore.saveEntryLocally [Sample.entry 3 5 7 5; Sample.entry 9 5 7 5]
       (Sample.entry 9 8 8 2)) 9
  = Some (Sample.entry 9 8 8 2).
Proof.
  rewrite (lookup_after_save [Sample.entry 3 5 7 5; Sample.entry 9 5 7 5]
             (Sample.entry 9 8 8 2) 9).
  - reflexivity.
  - repeat constructor; simpl; intuition discriminate.
Defined.

(** X3. A save replaces or adds: the number of stored entries is unchanged
    when an entry of that date was stored, and grows by one otherwise. *)
Theorem save_replaces_or_adds (stored : HealthStore.store)
    (entry : Types.HealthEntrySchema) :
  length (HealthStore.saveEntryLocally stored entry)
  = if existsb (Z.eqb (Types.date entry)) (map Types.date stored)
    then length stored else S (length stored).
Proof.
  rewrite <- (length_map Types.date (HealthStore.saveEntryLocally stored entry)).
  rewrite (Permutation_length (saveEntryLocally_dates stored entry)).
  destruct (existsb (Z.eqb (Types.date entry)) (map Types.date stored));
    cbn [length]; now rewrite length_map.
Qed.

Section StoreDelete.
Import Types HealthStore.

Lemma find_after_delete (l : list HealthEntrySchema) (d d' : Z) :
  find (fun entry => date entry =? d')
    (map toJSON (filter (fun entry => negb (date entry =? d)) l))
  = if d' =? d then None
    else option_map toJSON (find (fun entry => date entry =? d') l).
Proof.
  induction l as [|e l IH]; cbn [filter map find].
  - now destruct (d' =? d).
  - destruct (Z.eqb_spec (date e) d) as [E|E]; cbn [negb].
    + rewrite IH. destruct (Z.eqb_spec d' d) as [Heq|Hne]; [reflexivity|].
      destruct (Z.eqb_spec (date e) d'); [congruence | reflexivity].
    + cbn [map find]. rewrite date_toJSON.
      destruct (Z.eqb_spec (date e) d') as [E'|E'].
      * destruct (Z.eqb_spec d' d); [congruence | reflexivity].
      * exact IH.
Qed.

Lemma dates_after_delete (l : list HealthEntrySchema) (d : Z) :
  map date (deleteHealthEntry l d) = filter (fun x => negb (x =? d)) (map date l).
Proof.
  unfold deleteHealthEntry, getLocalEntries. rewrite dates_toJSON.
  induction l as [|e l IH]; [reflexivity|]. cbn [filter map].
  destruct (date e =? d); cbn [negb map]; now rewrite IH.
Qed.

End StoreDelete.

(** X4. Delete, then look up. After [deleteHealthEntry(date)] the lookup of
    that date returns null, the lookup of any other date returns what it
    returned before, and distinct dates stay distinct; this needs no
    assumption on the store (every entry of the date is removed). *)
Theorem lookup_after_delete (stored : HealthStore.store) (d d' : Z) :
  HealthStore.getEntryForDate (HealthStore.deleteHealthEntry stored d) d'
  = (if d' =? d then None
     else option_map HealthStore.toJSON (HealthStore.getEntryForDate stored d')) /\
  ~ In d (map Types.date (HealthStore.deleteHealthEntry stored d)) /\
  (NoDup (map Types.date stored) ->
   NoDup (map Types.date (HealthStore.deleteHealthEntry stored d))).
Proof.
  split; [apply find_after_delete|]. rewrite dates_after_delete. split.
  - intros H. apply filter_In in H. destruct H as [_ H]. now rewrite Z.eqb_refl in H.
  - intros H. now apply NoDup_filter.
Qed.

Lemma lookup_after_delete_witness :
  HealthStore.getEntryForDate
    (HealthStore.deleteHealthEntry [Sample.entry 3 5 7 5; Sample.entry 9 5 7 5] 9) 9 = None /\
  HealthStore.getEntryForDate
    (HealthStore.deleteHealthEntry [Sample.entry 3 5 7 5; Sample.entry 9 5 7 5] 9) 3
  = Some (Sample.entry 3 5 7 5).
Proof.
  split.
  - exact (proj1 (lookup_after_delete [Sample.entry 3 5 7 5; Sample.entry 9 5 7 5] 9 9)).
  - rewrite (proj1 (lookup_after_delete [Sample.entry 3 5 7 5; Sample.entry 9 5 7 5] 9 3)).
    reflexivity.
Defined.

Section StoreImport.
Import Types HealthStore.

Lemma importData_nodup (entries : list HealthEntrySchema) :
  forall stored, NoDup (map date stored) -> NoDup (map date (importData stored entries)).
Proof.
  induction entries as [|e r IH]; intros stored H; [exact H|].
  apply IH. now apply saveEntryLocally_nodup.
Qed.

(** An entry in JSON form stays in the store as long as no entry of its
    date is saved. *)
Lemma importData_keeps (entries : list HealthEntrySchema) :
  forall stored e0,
    In e0 stored -> toJSON e0 = e0 -> ~ In (date e0) (map date entries) ->
    In e0 (importData stored entries).
Proof.
  induction entries as [|e r IH]; intros stored e0 Hin Hj Hn; [exact Hin|].
  cbn [map] in Hn. apply IH; [|exact Hj|intros K; apply Hn; now right].
  rewrite <- Hj. apply (saveEntryLocally_members stored e e0); [exact Hin|].
  intros E. apply Hn. left. now symmetry.
Qed.

Lemma importData_app (stored : store) (a b : list HealthEntrySchema) :
  importData stored (a ++ b) = importData (importData stored a) b.
Proof. apply fold_left_app. Qed.

End StoreImport.

(** X5. Importing entries saves them one after the other: a store of
    distinct dates keeps distinct dates, and for every date of the imported
    list the lookup afterwards returns the last imported entry of that
    date (as JSON keeps it). *)
Theorem import_last_entry_wins (stored : HealthStore.store)
    (pre post : list Types.HealthEntrySchema) (e : Types.HealthEntrySchema) :
  NoDup (map Types.date stored) ->
  ~ In (Types.date e) (map Types.date post) ->
  NoDup (map Types.date (HealthStore.importData stored (pre ++ e :: post))) /\
  HealthStore.getEntryForDate (HealthStore.importData stored (pre ++ e :: post))
    (Types.date e) = Some (HealthStore.toJSON e).
Proof.
  intros H Hpost.
  pose proof (importData_nodup (pre ++ e :: post) stored H) as N.
  split; [exact N|].
  rewrite <- (date_toJSON e). apply lookup_unique; [exact N|].
  rewrite importData_app. cbn [HealthStore.importData fold_left].
  apply importData_keeps; [|apply toJSON_idempotent|exact Hpost].
  apply (proj1 (saveEntryLocally_members _ e e)).
Qed.

Lemma import_last_entry_wins_witness :
  HealthStore.getEntryForDate
    (HealthStore.importData [Sample.entry 3 5 7 5]
       ([Sample.entry 9 1 1 1] ++ Sample.entry 9 8 8 2 :: [Sample.entry 4 5 5 5])) 9
  = Some (Sample.entry 9 8 8 2).
Proof.
  refine (proj2 (import_last_entry_wins [Sample.entry 3 5 7 5]
                   [Sample.entry 9 1 1 1] [Sample.entry 4 5 5 5] (Sample.entry 9 8 8 2) _ _)).
  - repeat constructor; simpl; intuition discriminate.
  - simpl. intuition discriminate.
Defined.

Section StoreLog.
Import JS TimeFormat Types HealthStore.
Local Open Scope float_scope.

(** The rounded duration of a span of minutes within a day is a number
    JSON keeps as it is. *)
Lemma stored_span_json d :
  (0 <= d < 1440)%Z ->
  jsonNumber (round (ofZ d / 60 * 100) / 100) = round (ofZ d / 60 * 100) / 100.
Proof.
  intros Hd.
  assert (C : forallFrom 1440 0 (fun d =>
                Leibniz.eqb (jsonNumber (round (ofZ d / 60 * 100) / 100))
                            (round (ofZ d / 60 * 100) / 100)) = true)
    by (vm_compute; reflexivity).
  apply Leibniz.eqb_spec. apply (@forallFrom_spec 1440 0 _ C d). lia.
Qed.

(** The duration [logEntry] stores for well-formed times. *)
Lemma storedDuration_wellFormed s e :
  wellFormed s = true -> wellFormed e = true ->
  exists d, (0 <= d < 1440)%Z /\
    HealthService.storedDuration s e = round (ofZ d / 60 * 100) / 100.
Proof.
  intros Hs He.
  destruct (wellFormed_format s Hs) as (h1 & m1 & Hh1 & Hm1 & Es & Ms).
  destruct (wellFormed_format e He) as (h2 & m2 & Hh2 & Hm2 & Ee & Me).
  exists (if (60 * h2 + m2 <? 60 * h1 + m1)%Z
          then (60 * h2 + m2 + 1440 - (60 * h1 + m1))%Z
          else (60 * h2 + m2 - (60 * h1 + m1))%Z).
  split; [destruct (Z.ltb_spec (60 * h2 + m2) (60 * h1 + m1)); lia|].
  unfold HealthService.storedDuration. rewrite health_duration_hours.
  rewrite Es, Ee, !minutes_format by assumption.
  rewrite hours_of_day by lia. reflexivity.
Qed.

End StoreLog.

(** X6. Log, then read back. In a store of distinct dates, logging an
    entry with well-formed HH:MM times and scores that JSON keeps (finite
    numbers) and then looking its date up returns exactly the entry
    [logEntry] returned; its duration is the derived duration rounded to
    two decimals and is not negative. *)
Theorem log_then_lookup (stored : HealthStore.store) (d : Z) (sleepStart sleepEnd : string)
    (quality moodScore stressScore : float) (journal : string)
    (voiceNotePath : option string) (giFlare skinFlare migraine : float) :
  NoDup (map Types.date stored) ->
  TimeFormat.wellFormed sleepStart = true ->
  TimeFormat.wellFormed sleepEnd = true ->
  Forall (fun x => HealthStore.jsonNumber x = x)
    [quality; moodScore; stressScore; giFlare; skinFlare; migraine] ->
  let logged :=
    HealthStore.logEntry stored d sleepStart sleepEnd quality moodScore stressScore
      journal voiceNotePath giFlare skinFlare migraine in
  HealthStore.getEntryForDate (snd logged) d = Some (fst logged) /\
  Types.duration_hours (Types.sleep (fst logged))
    = HealthService.storedDuration sleepStart sleepEnd /\
  (0 <=? Types.duration_hours (Types.sleep (fst logged)))%float = true.
Proof.
  intros H Hs He Hj logged.
  destruct (storedDuration_wellFormed sleepStart sleepEnd Hs He) as (m & Hm & Em).
  assert (Ed : Types.duration_hours (Types.sleep (fst logged))
               = HealthService.storedDuration sleepStart sleepEnd) by reflexivity.
  split; [|split; [exact Ed|]].
  - unfold logged, HealthStore.logEntry. cbn [fst snd].
    match goal with |- HealthStore.getEntryForDate (HealthStore.saveEntryLocally _ ?en) _ = _ =>
      set (entry := en) end.
    assert (J : HealthStore.toJSON entry = entry).
    { repeat match goal with K : Forall _ (_ :: _) |- _ =>
        inversion K as [|? ? ? ?]; subst; clear K end.
      unfold HealthStore.toJSON, entry.
      cbn [Types.date Types.sleep Types.mood Types.symptoms Types.start_time
           Types.end_time Types.duration_hours Types.quality_score Types.mood_score
           Types.stress_score Types.journal_entry Types.voice_note_path Types.gi_flare
           Types.skin_flare Types.migraine].
      fold (HealthService.storedDuration sleepStart sleepEnd).
      rewrite Em, (stored_span_json m Hm). congruence. }
    rewrite <- J at 2. change d with (Types.date (HealthStore.toJSON entry)) at 1.
    apply lookup_unique; [now apply saveEntryLocally_nodup|].
    apply (proj1 (saveEntryLocally_members _ entry entry)).
  - rewrite Ed, Em. apply (span_nonneg m Hm).
Qed.

Lemma log_then_lookup_witness :
  let logged :=
    HealthStore.logEntry [Sample.entry 3 5 7 5] 4 "23:00" "06:20" 7 6 4 "" None 0 0 0 in
  HealthStore.getEntryForDate (snd logged) 4 = Some (fst logged) /\
  Types.duration_hours (Types.sleep (fst logged)) = 7.33%float.
Proof.
  cbv zeta.
  destruct (log_then_lookup [Sample.entry 3 5 7 5] 4 "23:00" "06:20" 7 6 4 "" None 0 0 0)
    as (A & B & _).
  - repeat constructor; simpl; intuition discriminate.
  - reflexivity.
  - reflexivity.
  - repeat constructor.
  - split; [exact A|]. rewrite B. reflexivity.
Defined.

(* ================================================================== *)
(** ** More on statistics and streaks *)

Section MoreStreaks.
Import GamificationService Dates Types Arr.

(** The walk never counts below its start, whatever the zone. *)
Lemma currentStreakLoop_bounds (z : zone) (data : list HealthEntrySchema) (n : nat) :
  forall t c, c <= currentStreakLoop z n t c data <= c + Z.of_nat n.
Proof.
  induction n as [|n IH]; intros t c; cbn [currentStreakLoop]; [lia|].
  destruct (existsb _ data); [|lia].
  specialize (IH (setDatePrevious z t) (c + 1)). lia.
Qed.

(** The first day examined is today's UTC date. *)
Lemma currentStreakLoop_today (z : zone) (data : list HealthEntrySchema) (n : nat)
    (today : Z) :
  currentStreakLoop z (S n) (getTime today) 0 data = 0 <-> ~ In today (map date data).
Proof.
  cbn [currentStreakLoop].
  replace (toISODate (getTime today)) with today
    by (symmetry; apply Z.div_mul; lia).
  destruct (existsb (fun entry => date entry =? today) data) eqn:E.
  - pose proof (currentStreakLoop_bounds z data n (setDatePrevious z (getTime today)) (0 + 1))
      as B.
    split; [lia|]. intros H. exfalso. apply H.
    apply existsb_exists in E. destruct E as (e & He & Ed). apply Z.eqb_eq in Ed.
    rewrite <- Ed. now apply in_map.
  - split; [|reflexivity]. intros _ Hin. apply in_map_iff in Hin.
    destruct Hin as (e & He & Hin).
    assert (existsb (fun entry => date entry =? today) data = true); [|congruence].
    apply existsb_exists. exists e. split; [exact Hin | now apply Z.eqb_eq].
Qed.

(** The loop never reports more than the dates it is given. *)
Lemma longestStreakLoop_le (dates : list Z) :
  forall longest temp,
    0 <= temp ->
    longestStreakLoop dates longest temp
    <= Z.max longest (temp + Z.of_nat (length dates)).
Proof.
  induction dates as [|d0 rest IH]; intros longest temp Ht; [cbn; lia|].
  destruct rest as [|d1 r].
  - cbn. lia.
  - rewrite longestStreakLoop_step. destruct (d0 - d1 =? 1).
    + etransitivity; [apply IH; lia|]. cbn [length]. lia.
    + etransitivity; [apply IH; lia|]. cbn [length]. lia.
Qed.

Lemma sorted_head_is_max (l : list HealthEntrySchema) (first : HealthEntrySchema)
    (others : list HealthEntrySchema) :
  sort (descending time) l = first :: others ->
  In (date first) (map date l) /\ Forall (fun d => d <= date first) (map date l).
Proof.
  intros E. pose proof (sort_permutation (descending time) l) as P.
  pose proof (sort_entries_descending l
              : StronglySorted (fun a b => date b <= date a) (sort (descending time) l)) as S.
  rewrite E in P, S.
  split.
  - apply in_map. apply (Permutation_in _ P). now left.
  - apply Forall_forall. intros d Hd. apply in_map_iff in Hd. destruct Hd as (e & <- & He).
    apply (Permutation_in _ (Permutation_sym P)) in He.
    inversion S as [|? ? _ Hf]; subst. rewrite Forall_forall in Hf.
    destruct He as [<-|He]; [lia | now apply Hf].
Qed.

Lemma distinct_length (l : list Z) :
  (length (distinct [] l) <= length l)%nat /\
  (length (distinct [] l) = length l <-> NoDup l).
Proof.
  destruct (distinct_spec l []) as [N M].
  assert (I1 : incl (distinct [] l) l) by (intros d Hd; now apply M in Hd).
  assert (I2 : incl l (distinct [] l)) by (intros d Hd; apply M; split; [exact Hd | intros []]).
  pose proof (NoDup_incl_length N I1) as L. split; [exact L|]. split.
  - intros E. apply (NoDup_incl_NoDup N); [unfold CalendarDate in *; lia | exact I1].
  - intros Hn. pose proof (NoDup_incl_length Hn I2). unfold CalendarDate in *. lia.
Qed.

End MoreStreaks.

(** X7. Streak data, in every time zone. The current streak is 0 exactly
    when no entry is dated today (the UTC date), however long the run that
    ended yesterday; it is at most 365; the longest streak is at most the
    number of distinct dates; [lastLogDate] is the newest date of the list,
    and is empty only for the empty list. *)
Theorem streaks_edge_cases (z : Dates.zone) (today : Z)
    (healthData : list Types.HealthEntrySchema) :
  let streaks := fst (GamificationService.calculateStreaks z today healthData) in
  (StreakData.currentStreak streaks = 0 <-> ~ In today (map Types.date healthData)) /\
  0 <= StreakData.currentStreak streaks <= 365 /\
  StreakData.longestStreak streaks
    <= Z.of_nat (length (GamificationService.distinct [] (map Types.date healthData))) /\
  match StreakData.lastLogDate streaks with
  | Some d => In d (map Types.date healthData) /\
              Forall (fun d' => d' <= d) (map Types.date healthData)
  | None => healthData = []
  end.
Proof.
  unfold GamificationService.calculateStreaks.
  pose proof (sort_permutation (Arr.descending GamificationService.time) healthData) as P.
  destruct (Arr.sort (Arr.descending GamificationService.time) healthData)
    as [|first others] eqn:E.
  - apply Permutation_nil in P. subst healthData. cbn. repeat split; try lia; tauto.
  - cbn [fst StreakData.currentStreak StreakData.longestStreak StreakData.lastLogDate].
    rewrite <- E. clear P.
    pose proof (sort_permutation (Arr.descending GamificationService.time) healthData) as P.
    split; [|split; [|split]].
    + rewrite (currentStreakLoop_today z _ 364 today).
      split; intros H Hin; apply H;
        [apply (Permutation_in _ (Permutation_map Types.date (Permutation_sym P)))
        |apply (Permutation_in _ (Permutation_map Types.date P))]; exact Hin.
    + pose proof (currentStreakLoop_bounds z
                    (Arr.sort (Arr.descending GamificationService.time) healthData)
                    365 (Dates.getTime today) 0). lia.
    + etransitivity; [apply longestStreakLoop_le; lia|].
      pose proof (Permutation_length
                    (sort_permutation (Arr.descending Dates.getTime)
                       (GamificationService.distinct []
                          (map Types.date
                             (Arr.sort (Arr.descending GamificationService.time)
                                healthData))))) as L1.
      assert (L : length (GamificationService.distinct []
                            (map Types.date (Arr.sort (Arr.descending GamificationService.time)
                                               healthData)))
                  = length (GamificationService.distinct [] (map Types.date healthData))).
      { apply Nat.le_antisymm; apply NoDup_incl_length;
          try apply (distinct_spec _ []);
          intros d Hd; apply (distinct_spec _ []) in Hd; apply (distinct_spec _ []);
          (split; [|intros []]); destruct Hd as [Hd _];
          [apply (Permutation_in _ (Permutation_map Types.date P))
          |apply (Permutation_in _ (Permutation_map Types.date (Permutation_sym P)))];
          exact Hd. }
      unfold Dates.CalendarDate in *. lia.
    + apply sorted_head_is_max with others. exact E.
Qed.

(** X8. Days and logs. [totalLogs] counts the entries and [totalDays] the
    distinct dates among them: [totalDays <= totalLogs], with equality
    exactly when no two entries share a date. *)
Theorem total_days_at_most_logs (s : GamificationService.state) (z : Dates.zone)
    (today : Z) (healthData : list Types.HealthEntrySchema) :
  let stats := fst (GamificationService.calculateStats s z today healthData) in
  UserStats.totalDays stats <= UserStats.totalLogs stats /\
  (UserStats.totalDays stats = UserStats.totalLogs stats
   <-> NoDup (map Types.date healthData)).
Proof.
  unfold GamificationService.calculateStats.
  destruct (GamificationService.calculateImprovementTrend healthData) as [trend data1].
  destruct (GamificationService.calculateStreaks z today data1) as [streaks data2].
  cbn [fst UserStats.totalDays UserStats.totalLogs].
  destruct (distinct_length (map Types.date healthData)) as [L E].
  rewrite length_map in L, E. split; [lia|].
  rewrite <- E. lia.
Qed.

(* ================================================================== *)
(** ** What holds in every state of the gamification service *)

Section LifecycleFacts.
Import GamificationService Lifecycle.

Lemma invariant_initial : invariant initial.
Proof.
  unfold invariant, initial. cbn [badges achievements savedBadges savedAchievements].
  split; [|split; [|split]].
  - unfold initializeBadges.
    repeat (constructor;
            [unfold badgeInvariant, sameBadge, consistent; vm_compute;
             repeat split; first [discriminate | reflexivity | intros; reflexivity]|]).
    constructor.
  - unfold initializeAchievements.
    repeat (constructor;
            [unfold achievementInvariant, sameAchievement; vm_compute;
             repeat split; first [discriminate | reflexivity | intros; reflexivity]|]).
    constructor.
  - unfold initializeBadges. repeat constructor.
  - unfold initializeAchievements. repeat constructor.
Qed.

Lemma checkBadge_invariant now stats healthData b0 b :
  In b0 initializeBadges ->
  0 <= StreakData.currentStreak (UserStats.streaks stats) ->
  0 <= UserStats.totalLogs stats ->
  badgeInvariant b0 b ->
  badgeInvariant b0 (fst (fst (checkBadge now stats healthData b))).
Proof.
  intros Hin Hc Ht (Hs & Hk & Hsp).
  destruct (Badge.isUnlocked b) eqn:U.
  { rewrite (checkBadge_unlocked now stats healthData b U). cbn [fst].
    unfold badgeInvariant. auto. }
  destruct b as [i n d ic co ca ua p m u].
  destruct Hs as (E1 & E2 & E3 & E4 & E5 & E6 & E7). cbn in E1, E2, E3, E4, E5, E6, E7, U. subst u.
  destruct Hk as (K1 & K2 & K3). cbn in K1, K2, K3.
  subst i n d ic co ca m.
  destruct ua; [discriminate|]. clear K3.
  symmetry in K2. apply Z.eqb_neq in K2.
  unfold initializeBadges in Hin. cbn [In] in Hin.
  repeat (destruct Hin as [<-|Hin]);
    try (exfalso; exact Hin);
    unfold checkBadge, badgeInvariant, sameBadge, consistent;
    cbn -[Z.min Z.leb Z.eqb checkImprovement] in *;
    try match goal with
        | |- context [checkImprovement ?d ?i] =>
            destruct (checkImprovement d i) as [[] ?]
        end;
    repeat match goal with
           | |- context [Z.leb ?a ?b] => destruct (Z.leb_spec a b)
           end;
    cbn -[Z.min Z.eqb];
    repeat match goal with
           | |- context [Z.eqb ?a ?b] => destruct (Z.eqb_spec a b)
           end;
    repeat split; try lia; try reflexivity; try discriminate;
    try (intros _; specialize (Hsp eq_refl); inversion Hsp; subst; reflexivity).
Qed.

Lemma checkBadgesLoop_invariant now stats :
  0 <= StreakData.currentStreak (UserStats.streaks stats) ->
  0 <= UserStats.totalLogs stats ->
  forall catalogue bs,
    Forall2 badgeInvariant catalogue bs ->
    incl catalogue initializeBadges ->
    forall healthData,
      Forall2 badgeInvariant catalogue
        (fst (fst (checkBadgesLoop now stats healthData bs))).
Proof.
  intros Hc Ht catalogue bs F.
  induction F as [|b0 b c r Hb F IH]; intros I healthData; cbn [checkBadgesLoop].
  - constructor.
  - pose proof (checkBadge_invariant now stats healthData b0 b
                  (I b0 (or_introl eq_refl)) Hc Ht Hb) as K.
    destruct (checkBadge now stats healthData b) as [[b' isNew] data1].
    specialize (IH (fun x Hx => I x (or_intror Hx)) data1).
    destruct (checkBadgesLoop now stats data1 r) as [[r' news] data2].
    cbn [fst] in *. now constructor.
Qed.

(** An iteration that reports nothing new changes at most the progress. *)
Lemma checkBadge_erase now stats healthData b :
  snd (fst (checkBadge now stats healthData b)) = false ->
  erase (fst (fst (checkBadge now stats healthData b))) = erase b.
Proof.
  unfold checkBadge. destruct (Badge.isUnlocked b) eqn:U; [reflexivity|].
  match goal with
  | |- context [match ?X with pair _ _ => _ end] => destruct X as [[p su] d]
  end.
  cbn [Badge.withProgress Badge.isUnlocked]. rewrite U.
  destruct su; cbn [andb negb fst snd]; [discriminate|]. reflexivity.
Qed.

Lemma checkBadgesLoop_erase now stats :
  forall bs healthData,
    snd (fst (checkBadgesLoop now stats healthData bs)) = [] ->
    map erase (fst (fst (checkBadgesLoop now stats healthData bs))) = map erase bs.
Proof.
  induction bs as [|b r IH]; intros healthData; cbn [checkBadgesLoop]; [reflexivity|].
  pose proof (checkBadge_erase now stats healthData b) as K.
  destruct (checkBadge now stats healthData b) as [[b' isNew] data1].
  specialize (IH data1).
  destruct (checkBadgesLoop now stats data1 r) as [[r' news] data2].
  cbn [fst snd] in *. intros H. apply app_eq_nil in H. destruct H as [H1 H2].
  destruct isNew; [discriminate|]. cbn [map]. now rewrite K, IH.
Qed.

Lemma erase_locked (l' l : list Badge.t) :
  map erase l' = map erase l ->
  Forall (fun b => Badge.isUnlocked b = false) l ->
  Forall (fun b => Badge.isUnlocked b = false) l'.
Proof.
  revert l. induction l' as [|b' r' IH]; intros [|b r] E F; try discriminate;
    [constructor|].
  cbn [map] in E.
  assert (Eb : erase b' = erase b) by congruence.
  assert (Er : map erase r' = map erase r) by congruence.
  inversion F; subst. constructor.
  - change (Badge.isUnlocked (erase b') = false). rewrite Eb. assumption.
  - now apply IH with r.
Qed.

Lemma checkBadges_invariant now s healthData stats :
  0 <= StreakData.currentStreak (UserStats.streaks stats) ->
  0 <= UserStats.totalLogs stats ->
  invariant s ->
  invariant (fst (fst (checkBadges now s healthData stats))).
Proof.
  intros Hc Ht (B & A & SB & SA). unfold checkBadges.
  pose proof (checkBadgesLoop_invariant now stats Hc Ht _ _ B (fun x Hx => Hx) healthData)
    as K.
  pose proof (checkBadgesLoop_erase now stats (badges s) healthData) as E.
  destruct (checkBadgesLoop now stats healthData (badges s)) as [[bs' news] data'].
  cbn [fst snd] in *. unfold invariant.
  cbn [badges achievements savedBadges savedAchievements].
  split; [exact K|]. split; [exact A|]. split; [|exact SA].
  destruct news as [|n news].
  - cbn [length Z.of_nat Z.ltb Z.compare]. specialize (E eq_refl).
    destruct (savedBadges s) as [saved|].
    + destruct SB as [SB1 SB2]. split; [exact SB1|]. congruence.
    + now apply erase_locked with (badges s).
  - replace (0 <? Z.of_nat (length (n :: news))) with true
      by (symmetry; apply Z.ltb_lt; cbn [length]; lia).
    now split.
Qed.

Lemma checkAchievement_invariant now stats a0 a :
  achievementInvariant a0 a ->
  achievementInvariant a0 (fst (checkAchievement now stats a)).
Proof.
  intros (Hs & Hu & Hx). unfold checkAchievement.
  destruct (Achievement.isUnlocked a) eqn:U;
    [cbn [fst]; unfold achievementInvariant; rewrite U; auto|].
  destruct (usageAchievement a0) eqn:Us.
  - specialize (Hx eq_refl). subst a0. unfold usageAchievement, oneOf in Us.
    cbn [existsb] in Us. rewrite orb_false_r in Us. apply orb_true_iff in Us.
    destruct Us as [Us|Us]; apply String.eqb_eq in Us; rewrite Us;
      cbn [String.eqb Ascii.eqb Bool.eqb andb negb fst];
      unfold achievementInvariant; rewrite U; auto.
  - match goal with
    | |- context [if ?c && _ then _ else _] => destruct c
    end; cbn [andb negb fst]; unfold achievementInvariant.
    + destruct Hs as (E1 & E2 & E3 & E4).
      repeat split; try assumption; try reflexivity; intros K; congruence.
    + rewrite U. split; [exact Hs|]. split; [exact Hu|]. intros K. congruence.
Qed.

Lemma checkAchievement_same now stats a :
  snd (checkAchievement now stats a) = false -> fst (checkAchievement now stats a) = a.
Proof.
  unfold checkAchievement. destruct (Achievement.isUnlocked a); [reflexivity|].
  match goal with
  | |- context [if ?c && _ then _ else _] => destruct c
  end; cbn [andb negb fst snd]; [discriminate | reflexivity].
Qed.

Lemma Forall2_map_r {A B} (R : A -> B -> Prop) (f : B -> B) (l0 : list A) (l : list B) :
  (forall a b, R a b -> R a (f b)) -> Forall2 R l0 l -> Forall2 R l0 (map f l).
Proof. intros H F. induction F; cbn [map]; constructor; auto. Qed.

Lemma nothing_new now stats (l : list Achievement.t) :
  filter snd (map (checkAchievement now stats) l) = [] ->
  map fst (map (checkAchievement now stats) l) = l.
Proof.
  induction l as [|a r IH]; cbn [map filter]; [reflexivity|].
  pose proof (checkAchievement_same now stats a) as K.
  destruct (snd (checkAchievement now stats a)); [discriminate|].
  intros H. now rewrite K, IH.
Qed.

Lemma nothing_new_locked now stats (l : list Achievement.t) :
  filter snd (map (checkAchievement now stats) l) = [] ->
  Forall (fun a => Achievement.isUnlocked a = false) l ->
  Forall (fun a => Achievement.isUnlocked a = false)
    (map fst (map (checkAchievement now stats) l)).
Proof. intros H F. now rewrite nothing_new. Qed.

Lemma checkAchievements_invariant now s stats :
  invariant s -> invariant (fst (checkAchievements now s stats)).
Proof.
  intros (B & A & SB & SA). unfold checkAchievements, invariant.
  cbn [fst badges achievements savedBadges savedAchievements].
  split; [exact B|]. split; [|split; [exact SB|]].
  - rewrite map_map. apply Forall2_map_r with (f := fun a => fst (checkAchievement now stats a));
      [|exact A].
    intros a0 a. apply checkAchievement_invariant.
  - rewrite length_map.
    destruct (filter snd (map (checkAchievement now stats) (achievements s))) eqn:E.
    + cbn [length Z.of_nat Z.ltb Z.compare]. rewrite (nothing_new _ _ _ E).
      destruct (savedAchievements s); [exact SA|exact SA].
    + replace (0 <? Z.of_nat (length (p :: l))) with true
        by (symmetry; apply Z.ltb_lt; cbn [length]; lia).
      reflexivity.
Qed.

Lemma calculateStreaks_nonneg z today healthData :
  0 <= StreakData.currentStreak (fst (calculateStreaks z today healthData)).
Proof.
  unfold calculateStreaks.
  destruct (Arr.sort (Arr.descending time) healthData) as [|first others];
    cbn [fst StreakData.currentStreak]; [lia|].
  apply (currentStreakLoop_bounds z (first :: others) 365 (Dates.getTime today) 0).
Qed.

Lemma calculateStats_nonneg s z today healthData :
  0 <= StreakData.currentStreak
         (UserStats.streaks (fst (calculateStats s z today healthData))) /\
  0 <= UserStats.totalLogs (fst (calculateStats s z today healthData)).
Proof.
  unfold calculateStats.
  destruct (calculateImprovementTrend healthData) as [trend data1].
  pose proof (calculateStreaks_nonneg z today data1) as K.
  destruct (calculateStreaks z today data1) as [streaks data2].
  cbn [fst UserStats.streaks UserStats.totalLogs] in *. split; [exact K | lia].
Qed.

Lemma updateStats_invariant now z today s healthData :
  invariant s -> invariant (snd (fst (updateStats now z today s healthData))).
Proof.
  intros I. unfold updateStats.
  pose proof (calculateStats_nonneg s z today healthData) as [Hc Ht].
  destruct (calculateStats s z today healthData) as [stats data1]. cbn [fst] in Hc, Ht.
  pose proof (checkBadges_invariant now s data1 stats Hc Ht I) as I1.
  destruct (checkBadges now s data1 stats) as [[s1 nb] data2]. cbn [fst] in I1.
  pose proof (checkAchievements_invariant now s1 stats I1) as I2.
  destruct (checkAchievements now s1 stats) as [s2 na]. cbn [fst snd] in *.
  exact I2.
Qed.

Lemma loadBadges_invariant s : invariant s -> invariant (snd (loadBadges s)).
Proof.
  intros (B & A & SB & SA). unfold loadBadges.
  destruct (savedBadges s) as [saved|] eqn:E; cbn [snd]; unfold invariant.
  - cbn [badges achievements savedBadges savedAchievements]. rewrite ?E.
    destruct SB as [SB1 SB2]. repeat split; assumption.
  - rewrite ?E. now repeat split.
Qed.

Lemma loadAchievements_invariant s : invariant s -> invariant (snd (loadAchievements s)).
Proof.
  intros (B & A & SB & SA). unfold loadAchievements.
  destruct (savedAchievements s) as [saved|] eqn:E; cbn [snd]; unfold invariant.
  - cbn [badges achievements savedBadges savedAchievements]. rewrite ?E.
    subst saved. repeat split; assumption.
  - rewrite ?E. now repeat split.
Qed.

Lemma reachable_invariant s : reachable s -> invariant s.
Proof.
  induction 1 as [|now z today s healthData R IH|s R IH|s R IH].
  - apply invariant_initial.
  - now apply updateStats_invariant.
  - now apply loadBadges_invariant.
  - now apply loadAchievements_invariant.
Qed.

End LifecycleFacts.
Section LifecycleConsequences.
Import GamificationService Lifecycle.

Lemma Forall2_right {A B} (R : A -> B -> Prop) (P : B -> Prop) (l0 : list A) (l : list B) :
  (forall a b, In a l0 -> R a b -> P b) -> Forall2 R l0 l -> Forall P l.
Proof.
  intros H F. induction F as [|a b l0 l Hab F IH]; constructor.
  - apply (H a b); [now left | exact Hab].
  - apply IH. intros a' b' Hin. apply H. now right.
Qed.

Lemma Forall2_weaken {A B} (R Q : A -> B -> Prop) (l0 : list A) (l : list B) :
  (forall a b, R a b -> Q a b) -> Forall2 R l0 l -> Forall2 Q l0 l.
Proof. intros H F. induction F; constructor; auto. Qed.

Lemma special_badge_untouched b0 b :
  In b0 initializeBadges -> badgeInvariant b0 b -> isSpecial b = true ->
  Badge.isUnlocked b = false /\ Badge.progress b = 0.
Proof.
  intros Hin (Hs & _ & Hx) Sp.
  assert (E : isSpecial b0 = true).
  { unfold isSpecial in *. destruct Hs as (_ & _ & _ & _ & _ & Hc & _). now rewrite <- Hc. }
  specialize (Hx E). subst b. clear Hs Sp.
  unfold initializeBadges in Hin. cbn [In] in Hin.
  repeat (destruct Hin as [<-|Hin]); try discriminate; try (now split);
    try (exfalso; exact Hin).
Qed.

Lemma usage_achievement_untouched a0 a :
  In a0 initializeAchievements -> achievementInvariant a0 a ->
  usageAchievement a = true -> Achievement.isUnlocked a = false.
Proof.
  intros Hin (Hs & _ & Hx) Us.
  assert (E : usageAchievement a0 = true).
  { unfold usageAchievement in *. destruct Hs as (Hi & _). now rewrite <- Hi. }
  specialize (Hx E). subst a. clear Hs Us.
  unfold initializeAchievements in Hin. cbn [In] in Hin.
  repeat (destruct Hin as [<-|Hin]); try discriminate; try reflexivity;
    try (exfalso; exact Hin).
Qed.

(** No score above 0: the average is 0. *)
Lemma averageOf_none (scores : list float) :
  Forall (fun score => (0 <? score)%float = false) scores -> averageOf scores = 0%float.
Proof.
  intros F. unfold averageOf.
  replace (filter (fun score => (0 <? score)%float) scores) with (@nil float);
    [reflexivity|].
  symmetry. induction F as [|x l Hx F IH]; cbn [filter]; [reflexivity|].
  now rewrite Hx.
Qed.

End LifecycleConsequences.

(** X9. In every state of the gamification service (as constructed with
    nothing saved, and after any sequence of [updateStats], [loadBadges]
    and [loadAchievements]) the badges and achievements are the catalogue's, in
    its order, and each badge has [0 <= progress <= maxProgress], is unlocked
    exactly when its progress is full, and carries [unlockedAt] exactly when
    it is unlocked; an achievement carries [unlockedAt] exactly when it is
    unlocked. *)
Theorem rewards_stay_consistent (s : GamificationService.state) :
  Lifecycle.reachable s ->
  Forall2 Lifecycle.sameBadge GamificationService.initializeBadges
    (GamificationService.badges s) /\
  Forall Lifecycle.consistent (GamificationService.badges s) /\
  Forall2 Lifecycle.sameAchievement GamificationService.initializeAchievements
    (GamificationService.achievements s) /\
  Forall (fun a => Achievement.isUnlocked a = Lifecycle.isSome (Achievement.unlockedAt a))
    (GamificationService.achievements s).
Proof.
  intros R. destruct (reachable_invariant s R) as (B & A & _).
  split; [|split; [|split]].
  - apply (Forall2_weaken _ _ _ _ (fun b0 b H => proj1 H) B).
  - apply (Forall2_right _ _ _ _ (fun b0 b _ H => proj1 (proj2 H)) B).
  - apply (Forall2_weaken _ _ _ _ (fun a0 a H => proj1 H) A).
  - apply (Forall2_right _ _ _ _ (fun a0 a _ H => proj1 (proj2 H)) A).
Qed.

Lemma rewards_stay_consistent_witness :
  let s := snd (fst (GamificationService.updateStats 1000 Dates.utc 14
                       GamificationService.initial Sample.twoWeeksBetter)) in
  Forall Lifecycle.consistent (GamificationService.badges s).
Proof.
  intros s.
  exact (proj1 (proj2 (rewards_stay_consistent s
           (Lifecycle.reach_updateStats 1000 Dates.utc 14 GamificationService.initial
              Sample.twoWeeksBetter Lifecycle.reach_initial)))).
Defined.

(** X10. Rewards nothing unlocks.  In every state of the service the three
    special badges ([early_bird], [night_owl], [perfectionist]) are locked
    with progress 0, and the achievements [data_analyst] and [voice_logger]
    are locked: no history of entries changes them. *)
Theorem usage_rewards_never_unlock (s : GamificationService.state) :
  Lifecycle.reachable s ->
  Forall (fun b => Lifecycle.isSpecial b = true ->
                   Badge.isUnlocked b = false /\ Badge.progress b = 0)
    (GamificationService.badges s) /\
  Forall (fun a => Lifecycle.usageAchievement a = true -> Achievement.isUnlocked a = false)
    (GamificationService.achievements s).
Proof.
  intros R. destruct (reachable_invariant s R) as (B & A & _). split.
  - apply (Forall2_right _ _ _ _ special_badge_untouched B).
  - apply (Forall2_right _ _ _ _ usage_achievement_untouched A).
Qed.

Lemma usage_rewards_never_unlock_witness :
  let s := snd (fst (GamificationService.updateStats 1000 Dates.utc 14
                       GamificationService.initial Sample.twoWeeksBetter)) in
  Forall (fun a => Lifecycle.usageAchievement a = true -> Achievement.isUnlocked a = false)
    (GamificationService.achievements s).
Proof.
  intros s.
  exact (proj2 (usage_rewards_never_unlock s
           (Lifecycle.reach_updateStats 1000 Dates.utc 14 GamificationService.initial
              Sample.twoWeeksBetter Lifecycle.reach_initial))).
Defined.

(** X11. Saving and loading.  Badges are saved only when one is unlocked
    and achievements only when one is unlocked, yet in every state of the
    service what [loadBadges] would bring back differs from the service's
    badges at most in progress (same unlockings, same instants), and what
    [loadAchievements] would bring back is the service's achievements. *)
Theorem load_keeps_unlockings (s : GamificationService.state) :
  Lifecycle.reachable s ->
  map Lifecycle.erase (fst (Lifecycle.loadBadges s))
    = map Lifecycle.erase (GamificationService.badges s) /\
  fst (Lifecycle.loadAchievements s) = GamificationService.achievements s.
Proof.
  intros R. destruct (reachable_invariant s R) as (_ & _ & SB & SA).
  unfold Lifecycle.loadBadges, Lifecycle.loadAchievements. split.
  - destruct (GamificationService.savedBadges s); [exact (proj2 SB) | reflexivity].
  - destruct (GamificationService.savedAchievements s); [exact SA | reflexivity].
Qed.

Lemma load_keeps_unlockings_witness :
  let s := snd (fst (GamificationService.updateStats 2000 Dates.utc 15
             (snd (fst (GamificationService.updateStats 1000 Dates.utc 14
                          GamificationService.initial Sample.twoWeeksBetter)))
             Sample.twoWeeks)) in
  fst (Lifecycle.loadAchievements s) = GamificationService.achievements s.
Proof.
  intros s.
  exact (proj2 (load_keeps_unlockings s
           (Lifecycle.reach_updateStats 2000 Dates.utc 15 _ Sample.twoWeeks
              (Lifecycle.reach_updateStats 1000 Dates.utc 14 GamificationService.initial
                 Sample.twoWeeksBetter Lifecycle.reach_initial)))).
Defined.

(** X12. The stress achievement needs no data.  When no entry of the
    history has a stress score above 0 (in particular for the empty
    history), [updateStats] leaves [stress_master] ("Keep stress levels
    below 3 for a week") unlocked, in every state of the service: the
    average over no scores is 0, and 0 is at most 3. *)
Theorem stress_master_without_data (now : Z) (z : Dates.zone) (today : Z)
    (s : GamificationService.state) (healthData : list Types.HealthEntrySchema) :
  Lifecycle.reachable s ->
  Forall (fun entry =>
            (0 <? JS.orZero (Types.stress_score (Types.mood entry)))%float = false)
    healthData ->
  exists a,
    nth_error (GamificationService.achievements
                 (snd (fst (GamificationService.updateStats now z today s healthData)))) 5
      = Some a /\
    Achievement.id a = "stress_master" /\ Achievement.isUnlocked a = true.
Proof.
  intros R F. destruct (reachable_invariant s R) as (_ & A & _).
  unfold GamificationService.updateStats.
  assert (Avg : UserStats.averageStress
                  (fst (GamificationService.calculateStats s z today healthData)) = 0%float).
  { unfold GamificationService.calculateStats.
    destruct (GamificationService.calculateImprovementTrend healthData) as [trend data1].
    destruct (GamificationService.calculateStreaks z today data1) as [streaks data2].
    cbn [fst UserStats.averageStress]. apply averageOf_none.
    apply Forall_map. exact F. }
  destruct (GamificationService.calculateStats s z today healthData) as [stats data1].
  cbn [fst] in Avg.
  pose proof (checkBadges_achievements now s data1 stats) as K.
  destruct (GamificationService.checkBadges now s data1 stats) as [[s1 nb] data2].
  cbn [fst] in K.
  unfold GamificationService.checkAchievements. cbn [fst snd GamificationService.achievements].
  rewrite K, map_map.
  unfold GamificationService.initializeAchievements in A.
  do 5 (inversion A as [|? ? ? ? _ A']; subst; clear A; rename A' into A).
  inversion A as [|a0 a l0 l Ha A']; subst.
  cbn [map nth_error].
  destruct Ha as ((Hi & _) & _). cbn in Hi.
  exists (fst (GamificationService.checkAchievement now stats a)). split; [reflexivity|].
  unfold GamificationService.checkAchievement.
  destruct (Achievement.isUnlocked a) eqn:U; [now split|].
  rewrite Hi, Avg. cbn. now split.
Qed.

Lemma stress_master_without_data_witness :
  exists a,
    nth_error (GamificationService.achievements
                 (snd (fst (GamificationService.updateStats 1000 Dates.utc 14
                              GamificationService.initial [])))) 5
      = Some a /\
    Achievement.id a = "stress_master" /\ Achievement.isUnlocked a = true.
Proof.
  exact (stress_master_without_data 1000 Dates.utc 14 GamificationService.initial []
           Lifecycle.reach_initial (Forall_nil _)).
Defined.

(* ================================================================== *)
(** ** More on correlations and trends *)

Section MoreCorrelations.
Import JS Types Arr CorrelationsService.
Local Open Scope float_scope.

(** Multiplication of doubles commutes, NaN and signed zeros included. *)
Lemma float_mul_comm (x y : float) : x * y = y * x.
Proof.
  apply Prim2SF_inj. rewrite !mul_spec.
  destruct (Prim2SF x) as [sx|sx| |sx mx ex], (Prim2SF y) as [sy|sy| |sy my ey];
    cbn [SpecFloat.SFmul SF64mul]; rewrite ?(xorb_comm sx sy); try reflexivity.
  now rewrite (Pos.mul_comm mx my), (Z.add_comm ex ey).
Qed.

Lemma products_swap (x : list float) :
  forall y, map (fun p => fst p * snd p) (combine x y)
            = map (fun p => fst p * snd p) (combine y x).
Proof.
  induction x as [|a x IH]; intros [|b y]; try reflexivity.
  cbn [combine map fst snd]. now rewrite IH, float_mul_comm.
Qed.

Lemma report_length a b c d e : (length (report a b c d e) <= 1)%nat.
Proof. unfold report. destruct (0.2 <? abs c); cbn [length]; lia. Qed.

Lemma report_threshold a b c d e :
  Forall (fun r => (0.2 <? abs (SleepCorrelation.correlation r)) = true /\
                   SleepCorrelation.strength r
                   = fst (getCorrelationStrength (SleepCorrelation.correlation r)))
    (report a b c d e).
Proof.
  unfold report. destruct (0.2 <? abs c) eqn:E; constructor; [|constructor].
  cbn. now split.
Qed.

(** Only NaN differs from itself. *)
Lemma is_nan_true_spec (r : float) : is_nan r = true -> r = nan.
Proof.
  intros H. apply Prim2SF_inj. unfold is_nan in H. rewrite FloatAxioms.eqb_spec in H.
  change (Prim2SF nan) with S754_nan.
  destruct (Prim2SF r) as [s|s| |s m e]; try reflexivity; exfalso;
    unfold SpecFloat.SFeqb, SpecFloat.SFcompare in H.
  - discriminate.
  - destruct s; discriminate.
  - rewrite Z.compare_refl, Pos.compare_cont_refl in H. destruct s; discriminate.
Qed.

Lemma zeros_repeat (l : list float) :
  Forall (fun v => v = 0) l -> l = repeat 0 (length l).
Proof. induction 1 as [|v l Hv F IH]; cbn [repeat length]; [reflexivity | congruence]. Qed.

End MoreCorrelations.

(** X13. The Pearson coefficient is symmetric: exchanging the two arrays
    gives the same double, bit for bit (0 for arrays of different lengths
    and NaN included).  Which of the two is called sleep and which symptom
    does not matter. *)
Theorem calculateCorrelation_symmetric (x y : list float) :
  CorrelationsService.calculateCorrelation x y
  = CorrelationsService.calculateCorrelation y x.
Proof.
  unfold CorrelationsService.calculateCorrelation.
  destruct (Nat.eqb_spec (length x) (length y)) as [E|N].
  - rewrite <- E, Nat.eqb_refl. cbn [negb orb].
    destruct (length x =? 0)%nat; [reflexivity|]. cbv zeta.
    rewrite (reduce_paired x y E), (reduce_paired y x (eq_sym E)), (products_swap y x).
    rewrite (float_mul_comm (Arr.reduce (fun a b _ => (a + b)%float) y 0%float)
                            (Arr.reduce (fun a b _ => (a + b)%float) x 0%float)) at 1.
    match goal with
    | |- context [sqrt (?a * ?b)%float] => rewrite (float_mul_comm a b)
    end.
    reflexivity.
  - destruct (Nat.eqb_spec (length y) (length x)) as [E|_]; [congruence | reflexivity].
Qed.

(** X14. What [analyzeSleepCorrelations] reports.  Fewer than 3 entries
    give no correlation; otherwise at most 8 are reported, every one has a
    coefficient above 0.2 in absolute value (so never NaN), and its
    strength is the one [getCorrelationStrength] gives for the
    coefficient. *)
Theorem reported_correlations_exceed_threshold (entries : list Types.HealthEntrySchema) :
  let reported := CorrelationsService.analyzeSleepCorrelations entries in
  (Z.of_nat (length entries) < 3 -> reported = []) /\
  (length reported <= 8)%nat /\
  Forall (fun r =>
            (0.2 <? abs (SleepCorrelation.correlation r))%float = true /\
            is_nan (SleepCorrelation.correlation r) = false /\
            SleepCorrelation.strength r
            = fst (CorrelationsService.getCorrelationStrength
                     (SleepCorrelation.correlation r)))
    reported.
Proof.
  unfold CorrelationsService.analyzeSleepCorrelations.
  destruct (Z.ltb_spec (Z.of_nat (length entries)) 3) as [L|L].
  - cbv zeta. split; [reflexivity|]. split; [cbn; lia | constructor].
  - cbv zeta. split; [lia|].
    match goal with
    | |- context [Arr.sort ?c ?l] =>
        pose proof (sort_permutation c l) as P; set (reported := Arr.sort c l) in *;
        set (found := l) in *
    end.
    split.
    + rewrite (Permutation_length P). unfold found. rewrite !length_app.
      repeat match goal with
             | |- context [length (CorrelationsService.report ?a ?b ?c ?d ?e)] =>
                 let K := fresh "K" in
                 pose proof (report_length a b c d e) as K;
                 set (CorrelationsService.report a b c d e) in *
             end.
      lia.
    + apply (Permutation_Forall (Permutation_sym P)). unfold found.
      repeat rewrite Forall_app.
      assert (T : forall a b c d e,
                 Forall (fun r =>
                           (0.2 <? abs (SleepCorrelation.correlation r))%float = true /\
                           is_nan (SleepCorrelation.correlation r) = false /\
                           SleepCorrelation.strength r
                           = fst (CorrelationsService.getCorrelationStrength
                                    (SleepCorrelation.correlation r)))
                   (CorrelationsService.report a b c d e)).
      { intros a b c d e. eapply Forall_impl; [|apply report_threshold].
        intros r [H1 H2]. split; [exact H1|]. split; [|exact H2].
        destruct (is_nan (SleepCorrelation.correlation r)) eqn:Nn; [|reflexivity].
        apply is_nan_true_spec in Nn. rewrite Nn in H1. vm_compute in H1. discriminate. }
      repeat split; apply T.
Qed.

Section MoreTrends.
Import JS Types Arr CorrelationsService.

(** The number of entries [slice(-days)] keeps. *)
Lemma length_window {A} (a : list A) (days : Z) :
  Z.of_nat (length (sliceFrom (- days) a))
  = if 0 <? days then Z.min (Z.of_nat (length a)) days
    else Z.of_nat (length a) - Z.min (- days) (Z.of_nat (length a)).
Proof.
  unfold sliceFrom. rewrite length_skipn.
  destruct (Z.ltb_spec 0 days), (Z.ltb_spec (- days) 0); lia.
Qed.

End MoreTrends.

(** X15. When [analyzeTrends] answers.  It returns null exactly when the
    history has fewer than 3 entries, or the window is 1 day, or the window
    is negative and drops all but at most one entry; a window of 0 days
    analyses the whole history.  An answer names the metric asked for and
    the window as given. *)
Theorem analyzeTrends_answers (entries : list Types.HealthEntrySchema) (metric : string)
    (days : Z) :
  match CorrelationsService.analyzeTrends entries metric days with
  | None =>
      Z.of_nat (length entries) < 3 \/ days = 1 \/
      (days < 0 /\ Z.of_nat (length entries) - 1 <= - days)
  | Some t =>
      3 <= Z.of_nat (length entries) /\ days <> 1 /\
      (days < 0 -> - days < Z.of_nat (length entries) - 1) /\
      TrendAnalysis.metric t = metric /\
      TrendAnalysis.period t = [Types.Int days; Types.Lit " days"]
  end.
Proof.
  unfold CorrelationsService.analyzeTrends.
  destruct (Z.ltb_spec (Z.of_nat (length entries)) 3) as [L|L]; [now left|].
  cbv zeta. rewrite length_map, length_window.
  destruct (Z.ltb_spec 0 days) as [D|D].
  - destruct (Z.ltb_spec (Z.min (Z.of_nat (length entries)) days) 2) as [W|W].
    + right. left. lia.
    + cbn [TrendAnalysis.metric TrendAnalysis.period]. repeat split; lia.
  - destruct (Z.ltb_spec (Z.of_nat (length entries)
                          - Z.min (- days) (Z.of_nat (length entries))) 2) as [W|W].
    + right. right. lia.
    + cbn [TrendAnalysis.metric TrendAnalysis.period]. repeat split; lia.
Qed.

(** X16. A metric that is 0 throughout the window.  For a history of at
    least 3 entries in which the metric reads 0 on each of the last 30 (a
    symptom that never flared, or a metric name the service does not know),
    the trend over the default window is reported as ["decreasing"] with a
    change rate that is NaN, at significance 0.20: the rate divides by the
    mean, which is 0. *)
Theorem analyzeTrends_all_zero (entries : list Types.HealthEntrySchema) (metric : string) :
  3 <= Z.of_nat (length entries) ->
  Forall (fun entry => CorrelationsService.metricValue metric entry = 0%float)
    (Arr.sliceFrom (- CorrelationsService.defaultDays) entries) ->
  CorrelationsService.analyzeTrends entries metric CorrelationsService.defaultDays
  = Some (TrendAnalysis.mk metric TrendAnalysis.decreasing nan
            [Types.Int 30; Types.Lit " days"] 0.2%float).
Proof.
  intros L F. unfold CorrelationsService.analyzeTrends.
  replace (Z.of_nat (length entries) <? 3) with false by (symmetry; apply Z.ltb_ge; lia).
  cbv zeta.
  assert (V : map (CorrelationsService.metricValue metric)
                (Arr.sliceFrom (- CorrelationsService.defaultDays) entries)
              = repeat 0%float
                  (length (Arr.sliceFrom (- CorrelationsService.defaultDays) entries))).
  { rewrite <- (length_map (CorrelationsService.metricValue metric)).
    apply zeros_repeat. apply Forall_map. exact F. }
  rewrite V.
  pose proof (length_window entries CorrelationsService.defaultDays) as W.
  change (0 <? CorrelationsService.defaultDays) with true in W. cbv iota in W.
  unfold CorrelationsService.defaultDays in *.
  set (k := length (Arr.sliceFrom (- (30)) entries)) in *. clearbody k.
  assert (B : (3 <= k <= 30)%nat) by lia. clear W V F L.
  do 31 (destruct k as [|k]; [first [exfalso; lia | vm_compute; reflexivity]|]).
  exfalso; lia.
Qed.

Lemma analyzeTrends_all_zero_witness :
  CorrelationsService.analyzeTrends Sample.twoWeeks "steps" CorrelationsService.defaultDays
  = Some (TrendAnalysis.mk "steps" TrendAnalysis.decreasing nan
            [Types.Int 30; Types.Lit " days"] 0.2%float).
Proof.
  apply analyzeTrends_all_zero.
  - vm_compute. discriminate.
  - vm_compute. repeat constructor.
Defined.

Section Reports.
Import JS Types Arr CorrelationsService.
Local Open Scope float_scope.

(** Over the default window a history of at least 3 entries always has a
    trend, for the metric asked. *)
Lemma analyzeTrends_default (entries : list HealthEntrySchema) (metric : string) :
  (3 <= Z.of_nat (length entries))%Z ->
  exists t, analyzeTrends entries metric defaultDays = Some t /\
            TrendAnalysis.metric t = metric.
Proof.
  intros L. unfold analyzeTrends.
  replace (Z.of_nat (length entries) <? 3)%Z with false by (symmetry; apply Z.ltb_ge; lia).
  cbv zeta. rewrite length_map, length_window.
  change (0 <? defaultDays)%Z with true. cbv iota.
  replace (Z.min (Z.of_nat (length entries)) defaultDays <? 2)%Z with false
    by (symmetry; apply Z.ltb_ge; unfold defaultDays; lia).
  eexists. split; reflexivity.
Qed.

Lemma analyzeTrends_short (entries : list HealthEntrySchema) (metric : string) (days : Z) :
  (Z.of_nat (length entries) < 3)%Z -> analyzeTrends entries metric days = None.
Proof.
  intros L. unfold analyzeTrends.
  now replace (Z.of_nat (length entries) <? 3)%Z with true by (symmetry; apply Z.ltb_lt; lia).
Qed.

Lemma patterns_actionable (entries : list HealthEntrySchema) :
  Forall (fun i => HealthInsight.actionable i = true /\
                   HealthInsight.recommendation i <> None /\
                   HealthInsight.type i = HealthInsight.pattern)
    (analyzeSleepPatterns entries) /\
  (length (analyzeSleepPatterns entries) <= 3)%nat.
Proof.
  unfold analyzeSleepPatterns.
  destruct (Z.of_nat (length entries) <? 7)%Z; [split; [constructor | cbn; lia]|].
  cbv zeta.
  repeat match goal with
         | |- context [if ?c then [?i] else []] =>
             destruct c
         end;
    (split; [repeat constructor; discriminate | cbn [length app]; lia]).
Qed.

Lemma reported_count (entries : list HealthEntrySchema) :
  (length (analyzeSleepCorrelations entries) <= 8)%nat.
Proof.
  unfold analyzeSleepCorrelations.
  destruct (Z.of_nat (length entries) <? 3)%Z; [cbn; lia|]. cbv zeta.
  rewrite (Permutation_length (sort_permutation _ _)). rewrite !length_app.
  repeat match goal with
         | |- context [length (report ?a ?b ?c ?d ?e)] =>
             let K := fresh "K" in
             pose proof (report_length a b c d e) as K;
             set (report a b c d e) in *
         end.
  lia.
Qed.

End Reports.

(** X17. The report's trends.  [getCorrelationReport] lists one trend per
    metric, in the order of the metric table, as soon as the history has 3
    entries, and none below; below 3 entries there is no correlation
    either, and below 7 the only insight is the request for more data (so
    between 3 and 6 entries the report carries trends and possibly
    correlations that its insights do not mention). *)
Theorem report_trends_per_metric (entries : list Types.HealthEntrySchema) :
  let r := CorrelationReport.getCorrelationReport entries in
  map TrendAnalysis.metric (CorrelationReport.trends r)
    = (if Z.of_nat (length entries) <? 3 then [] else CorrelationsService.metrics) /\
  (Z.of_nat (length entries) < 3 -> CorrelationReport.correlations r = []) /\
  (Z.of_nat (length entries) < 7 ->
   CorrelationReport.insights r
   = [CorrelationsService.needMoreData (Z.of_nat (length entries))]).
Proof.
  unfold CorrelationReport.getCorrelationReport. cbv zeta.
  cbn [CorrelationReport.trends CorrelationReport.correlations CorrelationReport.insights].
  split; [|split].
  - destruct (Z.ltb_spec (Z.of_nat (length entries)) 3) as [L|L].
    + unfold CorrelationsService.metrics. cbn [flat_map].
      now rewrite !(analyzeTrends_short entries _ _ L).
    + unfold CorrelationsService.metrics. cbn [flat_map].
      repeat match goal with
             | |- context [CorrelationsService.analyzeTrends entries ?m ?d] =>
                 let t := fresh "t" in
                 let E := fresh "E" in
                 let M := fresh "M" in
                 destruct (analyzeTrends_default entries m L) as (t & E & M);
                 rewrite E
             end.
      cbn [app map]. congruence.
  - intros L. unfold CorrelationsService.analyzeSleepCorrelations.
    now replace (Z.of_nat (length entries) <? 3) with true by (symmetry; apply Z.ltb_lt; lia).
  - intros L. unfold CorrelationsService.generateInsights.
    now replace (Z.of_nat (length entries) <? 7) with true by (symmetry; apply Z.ltb_lt; lia).
Qed.

(** X18. Every insight of [CorrelationsService.generateInsights] is marked
    actionable and carries a recommendation; there are at most 18 of them
    (8 correlations, 7 trends, 3 patterns), and at least the request for
    more data when the history has fewer than 7 entries. *)
Theorem insights_are_actionable (entries : list Types.HealthEntrySchema) :
  let insights := CorrelationsService.generateInsights entries in
  Forall (fun i => HealthInsight.actionable i = true /\
                   HealthInsight.recommendation i <> None) insights /\
  (length insights <= 18)%nat /\
  (Z.of_nat (length entries) < 7 -> length insights = 1%nat).
Proof.
  unfold CorrelationsService.generateInsights.
  destruct (Z.ltb_spec (Z.of_nat (length entries)) 7) as [L|L].
  - cbv zeta. split; [|split; [cbn; lia | reflexivity]].
    repeat constructor. discriminate.
  - cbv zeta.
    match goal with
    | |- context [Arr.sort ?c ?l] =>
        pose proof (sort_permutation c l) as P; set (sorted := Arr.sort c l) in *;
        set (found := l) in *
    end.
    pose proof (reported_count entries) as C8.
    destruct (patterns_actionable entries) as [PA P3].
    split; [|split; [|lia]].
    + apply (Permutation_Forall (Permutation_sym P)). unfold found.
      repeat rewrite Forall_app. split; [|split].
      * apply Forall_flat_map. apply Forall_forall. intros c _.
        destruct (0.3 <? abs (SleepCorrelation.correlation c))%float;
          repeat constructor. discriminate.
      * apply Forall_flat_map. apply Forall_forall. intros m _.
        destruct (CorrelationsService.analyzeTrends entries m
                    CorrelationsService.defaultDays) as [t|]; [|constructor].
        destruct (10 <? TrendAnalysis.changeRate t)%float; repeat constructor.
        discriminate.
      * eapply Forall_impl; [|exact PA]. intros i (H1 & H2 & _). now split.
    + rewrite (Permutation_length P). unfold found. rewrite !length_app.
      assert (L1 : forall (l : list SleepCorrelation.t) f,
                 (forall c, length (f c : list HealthInsight.t) <= 1)%nat ->
                 (length (flat_map f l) <= length l)%nat).
      { intros l f Hf. induction l as [|c l IH]; cbn [flat_map length]; [lia|].
        rewrite length_app. specialize (Hf c). lia. }
      assert (L2 : forall (l : list string) f,
                 (forall c, length (f c : list HealthInsight.t) <= 1)%nat ->
                 (length (flat_map f l) <= length l)%nat).
      { intros l f Hf. induction l as [|c l IH]; cbn [flat_map length]; [lia|].
        rewrite length_app. specialize (Hf c). lia. }
      match goal with
      | |- (length (flat_map ?f ?l) + (length (flat_map ?g ?m) + _) <= _)%nat =>
          pose proof (L1 l f) as K1; pose proof (L2 m g) as K2
      end.
      unfold CorrelationsService.metrics in K2 at 2. cbn [length] in K2.
      match type of K1 with ?A -> _ => assert (H1 : A) end.
      { intros c. destruct (0.3 <? abs (SleepCorrelation.correlation c))%float; cbn; lia. }
      match type of K2 with ?A -> _ => assert (H2 : A) end.
      { intros m. destruct (CorrelationsService.analyzeTrends entries m
                              CorrelationsService.defaultDays) as [t|]; [|cbn; lia].
        destruct (10 <? TrendAnalysis.changeRate t)%float; cbn; lia. }
      specialize (K1 H1). specialize (K2 H2). lia.
Qed.

(* ================================================================== *)
(** ** Sorting entries of distinct dates *)

Section SortedOnce.
Import Dates Types Arr.

(** Two strictly sorted arrangements of the same elements are the same
    list. *)
Lemma strict_sorted_unique {A} (lt : A -> A -> Prop) :
  (forall a b, lt a b -> lt b a -> False) ->
  forall l l' : list A,
    Permutation l l' -> StronglySorted lt l -> StronglySorted lt l' -> l = l'.
Proof.
  intros asym. induction l as [|a l IH]; intros l' P S S'.
  - apply Permutation_nil in P. now subst.
  - destruct l' as [|a' r']; [apply Permutation_sym, Permutation_nil in P; discriminate|].
    inversion S as [|? ? Sl Fa]; subst. inversion S' as [|? ? Sr Fa']; subst.
    rewrite Forall_forall in Fa, Fa'.
    assert (E : a = a').
    { assert (I1 : In a (a' :: r')) by (apply (Permutation_in _ P); now left).
      assert (I2 : In a' (a :: l))
        by (apply (Permutation_in _ (Permutation_sym P)); now left).
      destruct I1 as [->|I1]; [reflexivity|]. destruct I2 as [->|I2]; [reflexivity|].
      exfalso. exact (asym a a' (Fa _ I2) (Fa' _ I1)). }
    subst a'. f_equal. apply IH; [|assumption|assumption].
    now apply Permutation_cons_inv with a.
Qed.

Lemma sorted_strict {A} (key : A -> Z) (l : list A) :
  StronglySorted (fun a b => key a <= key b) l -> NoDup (map key l) ->
  StronglySorted (fun a b => key a < key b) l.
Proof.
  induction 1 as [|d r Hs IH Hd]; intros Hn; [constructor|].
  cbn [map] in Hn. inversion Hn as [|? ? Hnot Hr]; subst.
  constructor; [now apply IH|].
  rewrite Forall_forall in *. intros x Hx. specialize (Hd x Hx).
  assert (key x <> key d) by (intros E; apply Hnot; rewrite <- E; now apply in_map).
  lia.
Qed.

Lemma sort_ascending_sorted {A} (key : A -> Z) (l : list A) :
  StronglySorted (fun a b => key a <= key b) (sort (ascending key) l).
Proof.
  apply sort_sorted; unfold ascending.
  - intros y x H. apply Z.leb_le in H. lia.
  - intros y x H. apply Z.leb_gt in H. lia.
  - intros x y z. lia.
Qed.

Lemma sort_descending_sorted {A} (key : A -> Z) (l : list A) :
  StronglySorted (fun a b => - key a <= - key b) (sort (descending key) l).
Proof.
  apply sort_sorted; unfold descending.
  - intros y x H. apply Z.leb_le in H. lia.
  - intros y x H. apply Z.leb_gt in H. lia.
  - intros x y z. lia.
Qed.

Lemma NoDup_map_injective {A} (key key' : A -> Z) (l : list A) :
  (forall a b, key' a = key' b -> key a = key b) ->
  NoDup (map key l) -> NoDup (map key' l).
Proof.
  intros H. induction l as [|a l IH]; cbn [map]; intros N; [constructor|].
  inversion N as [|? ? Hnot Hr]; subst. constructor; [|now apply IH].
  intros Hin. apply Hnot. apply in_map_iff in Hin. destruct Hin as (b & Eb & Hb).
  apply in_map_iff. exists b. split; [now apply H | exact Hb].
Qed.

(** With one entry per date, sorting by date forgets the order the entries
    came in. *)
Lemma sort_ascending_unique (l l' : list HealthEntrySchema) :
  Permutation l l' -> NoDup (map date l) ->
  sort (ascending GamificationService.time) l
  = sort (ascending GamificationService.time) l'.
Proof.
  intros P N.
  apply (strict_sorted_unique
           (fun a b => GamificationService.time a < GamificationService.time b)).
  - intros a b. lia.
  - rewrite (sort_permutation _ l), P. symmetry. apply sort_permutation.
  - apply sorted_strict; [apply sort_ascending_sorted|].
    apply (Permutation_NoDup
             (Permutation_map _ (Permutation_sym (sort_permutation _ l)))).
    apply (NoDup_map_injective date); [|exact N].
    unfold GamificationService.time, getTime. intros a b. lia.
  - apply sorted_strict; [apply sort_ascending_sorted|].
    apply (Permutation_NoDup
             (Permutation_map _ (Permutation_sym (sort_permutation _ l')))).
    apply (Permutation_NoDup (Permutation_map _ P)).
    apply (NoDup_map_injective date); [|exact N].
    unfold GamificationService.time, getTime. intros a b. lia.
Qed.

Lemma sort_descending_unique (l l' : list HealthEntrySchema) :
  Permutation l l' -> NoDup (map date l) ->
  sort (descending GamificationService.time) l
  = sort (descending GamificationService.time) l'.
Proof.
  intros P N.
  apply (strict_sorted_unique
           (fun a b => - GamificationService.time a < - GamificationService.time b)).
  - intros a b. lia.
  - rewrite (sort_permutation _ l), P. symmetry. apply sort_permutation.
  - apply (sorted_strict (fun a => - GamificationService.time a));
      [apply sort_descending_sorted|].
    apply (Permutation_NoDup
             (Permutation_map _ (Permutation_sym (sort_permutation _ l)))).
    apply (NoDup_map_injective date); [|exact N].
    unfold GamificationService.time, getTime. intros a b. lia.
  - apply (sorted_strict (fun a => - GamificationService.time a));
      [apply sort_descending_sorted|].
    apply (Permutation_NoDup
             (Permutation_map _ (Permutation_sym (sort_permutation _ l')))).
    apply (Permutation_NoDup (Permutation_map _ P)).
    apply (NoDup_map_injective date); [|exact N].
    unfold GamificationService.time, getTime. intros a b. lia.
Qed.

Lemma checkImprovement_permutation (l : list HealthEntrySchema) (badgeId : string) :
  Permutation (snd (GamificationService.checkImprovement l badgeId)) l.
Proof.
  unfold GamificationService.checkImprovement.
  destruct (Z.of_nat (length l) <? 14); [reflexivity|]. cbv zeta.
  destruct (_ || _)%bool; [apply sort_permutation|].
  destruct (badgeId =? "stress_reduction")%string; apply sort_permutation.
Qed.

Lemma checkImprovement_order (l l' : list HealthEntrySchema) (badgeId : string) :
  Permutation l l' -> NoDup (map date l) ->
  fst (GamificationService.checkImprovement l badgeId)
  = fst (GamificationService.checkImprovement l' badgeId).
Proof.
  intros P N. unfold GamificationService.checkImprovement.
  rewrite <- (Permutation_length P).
  destruct (Z.of_nat (length l) <? 14); [reflexivity|]. cbv zeta.
  rewrite <- (sort_ascending_unique l l' P N).
  destruct (_ || _)%bool; [reflexivity|].
  destruct (badgeId =? "stress_reduction")%string; reflexivity.
Qed.

End SortedOnce.

(** X19. Order of the input.  For a history with one entry per date, the
    order in which the entries are handed over changes nothing in what the
    functions that sort it first return: the insights of
    [InsightsService.generateInsights], the improvement trend, the
    improvement verdict of each badge, and the streak data (in any zone). *)
Theorem sorted_consumers_ignore_order (healthData healthData' : list Types.HealthEntrySchema)
    (z : Dates.zone) (today : Z) (badgeId : string) :
  Permutation healthData healthData' ->
  NoDup (map Types.date healthData) ->
  fst (InsightsService.generateInsights healthData)
    = fst (InsightsService.generateInsights healthData') /\
  fst (GamificationService.calculateImprovementTrend healthData)
    = fst (GamificationService.calculateImprovementTrend healthData') /\
  fst (GamificationService.checkImprovement healthData badgeId)
    = fst (GamificationService.checkImprovement healthData' badgeId) /\
  fst (GamificationService.calculateStreaks z today healthData)
    = fst (GamificationService.calculateStreaks z today healthData').
Proof.
  intros P N. split; [|split; [|split]].
  - unfold InsightsService.generateInsights. rewrite <- (Permutation_length P).
    destruct (Z.of_nat (length healthData) <? 7); [reflexivity|]. cbv zeta.
    now rewrite <- (sort_ascending_unique _ _ P N).
  - unfold GamificationService.calculateImprovementTrend.
    rewrite <- (Permutation_length P).
    destruct (Z.of_nat (length healthData) <? 14); [reflexivity|]. cbv zeta.
    now rewrite <- (sort_ascending_unique _ _ P N).
  - now apply checkImprovement_order.
  - unfold GamificationService.calculateStreaks.
    now rewrite <- (sort_descending_unique _ _ P N).
Qed.

Lemma sorted_consumers_ignore_order_witness :
  fst (GamificationService.calculateStreaks Dates.utc 14 Sample.twoWeeks)
  = fst (GamificationService.calculateStreaks Dates.utc 14 (rev Sample.twoWeeks)).
Proof.
  refine (proj2 (proj2 (proj2
            (sorted_consumers_ignore_order Sample.twoWeeks (rev Sample.twoWeeks)
               Dates.utc 14 "mood_improvement" (Permutation_rev _) _)))).
  vm_compute. repeat constructor; cbn; intuition discriminate.
Defined.

(* ================================================================== *)
(** ** Evaluating the badges twice *)

Section Twice.
Import Dates Types Arr GamificationService.

Lemma checkBadge_permutation now stats healthData b :
  Permutation (snd (checkBadge now stats healthData b)) healthData.
Proof.
  unfold checkBadge. destruct (Badge.isUnlocked b); [reflexivity|].
  repeat match goal with
         | |- context [if oneOf ?i ?l then _ else _] => destruct (oneOf i l)
         end;
    try (match goal with
         | |- context [checkImprovement ?d ?i] =>
             pose proof (checkImprovement_permutation d i) as K;
             destruct (checkImprovement d i) as [v sorted]
         end);
    cbn [Badge.isUnlocked Badge.withProgress andb negb fst snd] in *;
    repeat match goal with
           | |- context [if ?c then _ else _] => destruct c
           end;
    cbn [snd]; first [reflexivity | exact K].
Qed.

(** A second evaluation, on statistics with the same streak and count and
    entries giving the same verdicts, changes nothing and reports nothing
    new. *)
Lemma checkBadge_twice now now' stats stats' healthData healthData' b :
  StreakData.currentStreak (UserStats.streaks stats')
    = StreakData.currentStreak (UserStats.streaks stats) ->
  UserStats.totalLogs stats' = UserStats.totalLogs stats ->
  (forall badgeId, fst (checkImprovement healthData' badgeId)
                   = fst (checkImprovement healthData badgeId)) ->
  fst (checkBadge now' stats' healthData' (fst (fst (checkBadge now stats healthData b))))
  = (fst (fst (checkBadge now stats healthData b)), false).
Proof.
  intros Hc Ht Hv.
  destruct (Badge.isUnlocked b) eqn:U.
  { rewrite (checkBadge_unlocked now stats healthData b U). cbn [fst].
    now rewrite (checkBadge_unlocked now' stats' healthData' b U). }
  specialize (Hv (Badge.id b)).
  unfold checkBadge at 2 3. rewrite U.
  destruct (checkImprovement healthData (Badge.id b)) as [v sorted] eqn:Ev.
  cbn [fst] in Hv.
  destruct (oneOf (Badge.id b) ["streak_3"; "streak_7"; "streak_30"; "streak_100"]) eqn:O1;
  [|destruct (oneOf (Badge.id b) ["consistency_week"]) eqn:O2;
   [|destruct (oneOf (Badge.id b) ["consistency_month"]) eqn:O3;
    [|destruct (oneOf (Badge.id b) ["milestone_50"; "milestone_100"; "milestone_365"]) eqn:O4;
     [|destruct (oneOf (Badge.id b)
                   ["mood_improvement"; "sleep_improvement"; "stress_reduction"]) eqn:O5]]]];
    cbn [Badge.isUnlocked Badge.withProgress]; rewrite U; cbn [negb];
    rewrite ?andb_true_r;
    match goal with
    | |- context [if ?c then (Badge.unlock _ _, _, _) else _] => destruct c eqn:Su
    | _ => idtac
    end;
    cbn [fst];
    try (rewrite checkBadge_unlocked by reflexivity; reflexivity);
    unfold checkBadge;
    cbn [Badge.isUnlocked Badge.withProgress Badge.id Badge.maxProgress];
    rewrite U, ?O1, ?O2, ?O3, ?O4, ?O5, ?Hc, ?Ht;
    try (destruct (checkImprovement healthData' (Badge.id b)) as [v' sorted'];
         cbn [fst] in Hv; subst v');
    cbn [Badge.isUnlocked Badge.withProgress]; rewrite ?U; cbn [negb andb];
    rewrite ?andb_true_r, ?Su; reflexivity.
Qed.

Lemma checkBadgesLoop_permutation now stats :
  forall bs healthData,
    Permutation (snd (checkBadgesLoop now stats healthData bs)) healthData.
Proof.
  induction bs as [|b r IH]; intros healthData; cbn [checkBadgesLoop]; [reflexivity|].
  pose proof (checkBadge_permutation now stats healthData b) as K.
  destruct (checkBadge now stats healthData b) as [[b' isNew] data1].
  specialize (IH data1).
  destruct (checkBadgesLoop now stats data1 r) as [[r' news] data2].
  cbn [snd] in *. now rewrite IH.
Qed.

Lemma checkBadgesLoop_twice now now' stats stats' (entries : list HealthEntrySchema) :
  StreakData.currentStreak (UserStats.streaks stats')
    = StreakData.currentStreak (UserStats.streaks stats) ->
  UserStats.totalLogs stats' = UserStats.totalLogs stats ->
  NoDup (map date entries) ->
  forall bs healthData healthData',
    Permutation healthData entries -> Permutation healthData' entries ->
    fst (checkBadgesLoop now' stats' healthData'
           (fst (fst (checkBadgesLoop now stats healthData bs))))
    = (fst (fst (checkBadgesLoop now stats healthData bs)), []).
Proof.
  intros Hc Ht N. induction bs as [|b r IH]; intros healthData healthData' P P';
    cbn [checkBadgesLoop]; [reflexivity|].
  pose proof (checkBadge_permutation now stats healthData b) as K.
  assert (V : forall badgeId, fst (checkImprovement healthData' badgeId)
                              = fst (checkImprovement healthData badgeId)).
  { intros badgeId. apply checkImprovement_order.
    - now rewrite P, P'.
    - apply (Permutation_NoDup (Permutation_map date (Permutation_sym P'))). exact N. }
  pose proof (checkBadge_twice now now' stats stats' healthData healthData' b Hc Ht V) as T.
  destruct (checkBadge now stats healthData b) as [[b' isNew] data1]. cbn [fst snd] in *.
  assert (P1 : Permutation data1 entries) by now rewrite K.
  pose proof (fun d' => IH data1 d' P1) as IH'. clear IH.
  destruct (checkBadgesLoop now stats data1 r) as [[r' news] data2]. cbn [fst snd] in *.
  cbn [checkBadgesLoop].
  pose proof (checkBadge_permutation now' stats' healthData' b') as K'.
  destruct (checkBadge now' stats' healthData' b') as [[b'' isNew'] data1'].
  cbn [fst snd] in *. injection T as -> ->.
  assert (P1' : Permutation data1' entries) by now rewrite K'.
  specialize (IH' data1' P1').
  destruct (checkBadgesLoop now' stats' data1' r') as [[r'' news'] data2'].
  cbn [fst snd] in *. injection IH' as -> ->. reflexivity.
Qed.

Lemma calculateStats_order s s' z today (l l' : list HealthEntrySchema) :
  Permutation l l' -> NoDup (map date l) ->
  StreakData.currentStreak (UserStats.streaks (fst (calculateStats s' z today l')))
    = StreakData.currentStreak (UserStats.streaks (fst (calculateStats s z today l))) /\
  UserStats.totalLogs (fst (calculateStats s' z today l'))
    = UserStats.totalLogs (fst (calculateStats s z today l)).
Proof.
  intros P N. unfold calculateStats.
  assert (P1 : Permutation (snd (calculateImprovementTrend l)) l).
  { unfold calculateImprovementTrend. destruct (Z.of_nat (length l) <? 14); [reflexivity|].
    apply sort_permutation. }
  assert (P1' : Permutation (snd (calculateImprovementTrend l')) l').
  { unfold calculateImprovementTrend. destruct (Z.of_nat (length l') <? 14); [reflexivity|].
    apply sort_permutation. }
  destruct (calculateImprovementTrend l) as [trend data1].
  destruct (calculateImprovementTrend l') as [trend' data1']. cbn [snd] in *.
  assert (E : fst (calculateStreaks z today data1') = fst (calculateStreaks z today data1)).
  { unfold calculateStreaks. rewrite (sort_descending_unique data1' data1); [reflexivity| |].
    - now rewrite P1', P1, P.
    - apply (Permutation_NoDup (Permutation_map date (Permutation_sym (Permutation_trans P1' (Permutation_sym P))))).
      exact N. }
  destruct (calculateStreaks z today data1) as [streaks data2].
  destruct (calculateStreaks z today data1') as [streaks' data2'].
  cbn [fst snd UserStats.streaks UserStats.totalLogs] in *. subst streaks'.
  split; [reflexivity|]. now rewrite (Permutation_length P).
Qed.

Lemma calculateStats_permutation s z today healthData :
  Permutation (snd (calculateStats s z today healthData)) healthData.
Proof.
  unfold calculateStats.
  assert (P1 : Permutation (snd (calculateImprovementTrend healthData)) healthData).
  { unfold calculateImprovementTrend.
    destruct (Z.of_nat (length healthData) <? 14); [reflexivity|]. apply sort_permutation. }
  destruct (calculateImprovementTrend healthData) as [trend data1]. cbn [snd] in P1.
  assert (P2 : Permutation (snd (calculateStreaks z today data1)) data1).
  { unfold calculateStreaks.
    pose proof (sort_permutation (descending time) data1) as K.
    destruct (sort (descending time) data1); exact K. }
  destruct (calculateStreaks z today data1) as [streaks data2]. cbn [snd] in *.
  now rewrite P2, P1.
Qed.

Lemma updateStats_badges now z today s healthData :
  let stats := fst (calculateStats s z today healthData) in
  let data1 := snd (calculateStats s z today healthData) in
  let loop := fst (checkBadgesLoop now stats data1 (badges s)) in
  badges (snd (fst (updateStats now z today s healthData))) = fst loop /\
  savedBadges (snd (fst (updateStats now z today s healthData)))
  = if 0 <? Z.of_nat (length (snd loop)) then Some (fst loop) else savedBadges s.
Proof.
  unfold updateStats, checkBadges.
  destruct (calculateStats s z today healthData) as [stats data1]. cbn [fst snd].
  destruct (checkBadgesLoop now stats data1 (badges s)) as [[bs' news] data2].
  cbn [fst snd]. unfold checkAchievements. cbn [fst snd badges savedBadges].
  now split.
Qed.

End Twice.

(** X20. Evaluating twice.  For a history with one entry per date, calling
    [updateStats] again on the same day with the same entries, in whatever
    order (for instance as the first call left the array), leaves every
    badge as the first call left it, unlocks none and saves nothing new. *)
Theorem badges_settle_after_one_update (now now' : Z) (z : Dates.zone) (today : Z)
    (s : GamificationService.state) (healthData healthData' : list Types.HealthEntrySchema) :
  NoDup (map Types.date healthData) ->
  Permutation healthData healthData' ->
  let s1 := snd (fst (GamificationService.updateStats now z today s healthData)) in
  let s2 := snd (fst (GamificationService.updateStats now' z today s1 healthData')) in
  GamificationService.badges s2 = GamificationService.badges s1 /\
  GamificationService.savedBadges s2 = GamificationService.savedBadges s1.
Proof.
  intros N P s1 s2.
  destruct (updateStats_badges now z today s healthData) as [B1 _]. fold s1 in B1.
  destruct (updateStats_badges now' z today s1 healthData') as [B2 S2].
  fold s2 in B2, S2. cbv zeta in B1, B2, S2.
  destruct (calculateStats_order s s1 z today healthData healthData' P N) as [Hc Ht].
  pose proof (calculateStats_permutation s z today healthData) as Q1.
  pose proof (calculateStats_permutation s1 z today healthData') as Q1'.
  apply (fun K => Permutation_trans K (Permutation_sym P)) in Q1'.
  pose proof (checkBadgesLoop_twice now now' _ _ healthData Hc Ht N
                (GamificationService.badges s) _ _ Q1 Q1') as T.
  rewrite <- B1 in T. rewrite T in B2, S2. cbn [fst snd length Z.of_nat] in B2, S2.
  now split.
Qed.

Lemma badges_settle_after_one_update_witness :
  let s1 := snd (fst (GamificationService.updateStats 1000 Dates.utc 14
                        GamificationService.initial Sample.twoWeeksBetter)) in
  let s2 := snd (fst (GamificationService.updateStats 2000 Dates.utc 14 s1
                        (rev Sample.twoWeeksBetter))) in
  GamificationService.badges s2 = GamificationService.badges s1 /\
  GamificationService.savedBadges s2 = GamificationService.savedBadges s1.
Proof.
  refine (badges_settle_after_one_update 1000 2000 Dates.utc 14 GamificationService.initial
            Sample.twoWeeksBetter (rev Sample.twoWeeksBetter) _ (Permutation_rev _)).
  vm_compute. repeat constructor; cbn; intuition discriminate.
Defined.

(* ================================================================== *)
(** ** The insights of InsightsService *)

Section InsightShapes.
Import Types InsightsService.

Lemma analyzeSleepPatterns_shape (data : list HealthEntrySchema) :
  analyzeSleepPatterns data = [] \/
  exists description recommendations,
    analyzeSleepPatterns data
    = [Insight.mk "sleep_duration_low" Insight.sleep "Sleep Duration Alert" description
         true Insight.high 0.9 recommendations Insight.warning] /\
    length recommendations = 4%nat.
Proof.
  unfold analyzeSleepPatterns. cbv zeta.
  destruct (_ <? 7); [now left|].
  destruct (_ <? 6.5)%float; [|now left].
  right. eexists _, _. split; reflexivity.
Qed.

Lemma analyzeMoodTrends_shape (data : list HealthEntrySchema) :
  analyzeMoodTrends data = [] \/
  exists description recommendations,
    analyzeMoodTrends data
    = [Insight.mk "mood_declining" Insight.mood "Mood Trend Alert" description
         true Insight.high 0.8 recommendations Insight.warning] /\
    length recommendations = 4%nat.
Proof.
  unfold analyzeMoodTrends. cbv zeta.
  destruct (_ <? 7); [now left|].
  destruct (_ <? _)%float; [|now left].
  right. eexists _, _. split; reflexivity.
Qed.

Lemma analyzeStressPatterns_shape (data : list HealthEntrySchema) :
  analyzeStressPatterns data = [] \/
  exists description recommendations,
    analyzeStressPatterns data
    = [Insight.mk "high_stress" Insight.stress "High Stress Levels" description
         true Insight.high 0.9 recommendations Insight.warning] /\
    length recommendations = 4%nat.
Proof.
  unfold analyzeStressPatterns. cbv zeta.
  destruct (_ <? 7); [now left|].
  destruct (7 <? _)%float; [|now left].
  right. eexists _, _. split; reflexivity.
Qed.

End InsightShapes.

(** X21. What [InsightsService.generateInsights] can return.  Every
    insight is an actionable warning of high priority with four
    recommendations; there is at most one per kind, and they come in the
    order sleep alert, stress alert, mood alert (confidence 0.9, 0.9, 0.8),
    whatever the entries are.  Fewer than 7 entries give none. *)
Theorem insights_are_ordered_warnings (healthData : list Types.HealthEntrySchema) :
  let insights := fst (InsightsService.generateInsights healthData) in
  Forall (fun i => Insight.priority i = Insight.high /\
                   Insight.category i = Insight.warning /\
                   Insight.actionable i = true /\
                   length (Insight.recommendations i) = 4%nat) insights /\
  (exists sleep stress mood : bool,
     map Insight.id insights
     = (if sleep then ["sleep_duration_low"] else [])
       ++ (if stress then ["high_stress"] else [])
       ++ (if mood then ["mood_declining"] else [])) /\
  (Z.of_nat (length healthData) < 7 -> insights = []).
Proof.
  unfold InsightsService.generateInsights.
  destruct (Z.ltb_spec (Z.of_nat (length healthData)) 7) as [L|L].
  - cbn [fst]. split; [constructor|]. split; [|reflexivity].
    exists false, false, false. reflexivity.
  - cbv zeta. cbn [fst].
    generalize (Arr.sort (Arr.ascending GamificationService.time) healthData).
    intros sorted.
    destruct (analyzeSleepPatterns_shape sorted) as [-> | (d1 & r1 & -> & R1)];
      destruct (analyzeMoodTrends_shape sorted) as [-> | (d2 & r2 & -> & R2)];
      destruct (analyzeStressPatterns_shape sorted) as [-> | (d3 & r3 & -> & R3)];
      (split; [|split; [|lia]]);
      try (vm_compute Arr.sort; repeat constructor; assumption);
      first [ exists false, false, false; reflexivity
            | exists true, false, false; reflexivity
            | exists false, true, false; reflexivity
            | exists false, false, true; reflexivity
            | exists true, true, false; reflexivity
            | exists true, false, true; reflexivity
            | exists false, true, true; reflexivity
            | exists true, true, true; reflexivity ].
Qed.

(* ================================================================== *)
(** ** The time shown on the sleep screen *)

Section ShownTime.
Import JS Types TimeFormat SleepTrackingDisplay.

Lemma formatTime_checked :
  forallFrom 24 0 (fun h => forallFrom 60 0 (fun m =>
    match formatTime (format h m) with
    | [Int z; Lit a; Lit b; Lit c; Lit d] =>
        (z =? (h + 11) mod 12 + 1)
        && (a =? ":")%string
        && (b =? string_of_list_ascii [digitChar (m / 10)%Z; digitChar (m mod 10)%Z])%string
        && (c =? " ")%string
        && (d =? (if (h <? 12)%Z then "AM" else "PM"))%string
    | _ => false
    end)) = true.
Proof. vm_compute. reflexivity. Qed.

End ShownTime.

(** X22. The 12-hour clock.  For every time of day written HH:MM,
    [formatTime] shows the hour on the 12-hour clock (0 and 12 as 12, 13 as
    1, ...), the minutes as written, and AM before noon, PM from noon on. *)
Theorem formatTime_twelve_hour_clock (h m : Z) :
  0 <= h < 24 -> 0 <= m < 60 ->
  SleepTrackingDisplay.formatTime (TimeFormat.format h m)
  = [Types.Int ((h + 11) mod 12 + 1); Types.Lit ":";
     Types.Lit (string_of_list_ascii
                  [TimeFormat.digitChar (m / 10); TimeFormat.digitChar (m mod 10)]);
     Types.Lit " "; Types.Lit (if h <? 12 then "AM" else "PM")].
Proof.
  intros Hh Hm.
  pose proof (@forallFrom_spec 60 0 _
                (@forallFrom_spec 24 0 _ formatTime_checked h ltac:(lia)) m ltac:(lia)) as C.
  cbv beta in C.
  destruct (SleepTrackingDisplay.formatTime (TimeFormat.format h m))
    as [|[a|z|x f] [|[b|z2|x2 f2] [|[c|z3|x3 f3] [|[d|z4|x4 f4] [|[e|z5|x5 f5] [|p r]]]]]];
    try discriminate C.
  repeat (apply andb_prop in C; destruct C as [C ?]).
  repeat match goal with
         | H : (_ =? _)%string = true |- _ => apply String.eqb_eq in H
         | H : (_ =? _) = true |- _ => apply Z.eqb_eq in H
         end.
  congruence.
Qed.

Lemma formatTime_twelve_hour_clock_witness :
  SleepTrackingDisplay.formatTime "13:05"
  = [Types.Int 1; Types.Lit ":"; Types.Lit "05"; Types.Lit " "; Types.Lit "PM"].
Proof.
  exact (formatTime_twelve_hour_clock 13 5 ltac:(lia) ltac:(lia)).
Defined.

Section UnreadableHour.
Import JS Types TimeFormat SleepTrackingDisplay.

(** A text that starts with neither a blank, a sign nor a digit has no
    integer at its start. *)
Lemma parseInt_no_digit (c : ascii) (rest : string) :
  isWhite c = false -> digitOf 10 c = None -> isChar c "+" "-" = false ->
  parseInt (String c rest) = nan.
Proof.
  intros W D S. unfold parseInt. cbn [list_ascii_of_string dropWhite]. rewrite W.
  unfold isChar in S. apply orb_false_iff in S. destruct S as [S1 S2].
  unfold isChar at 1 2. rewrite S1, S2. cbn [orb].
  assert (Z0 : isChar c "0" "0" = false).
  { unfold isChar. rewrite orb_diag. cbn [String.eqb].
    destruct (Ascii.eqb_spec c "0") as [->|_]; [|reflexivity].
    vm_compute in D. discriminate. }
  destruct (list_ascii_of_string rest) as [|p r]; rewrite ?Z0; cbn [andb digits];
    rewrite D; reflexivity.
Qed.

(** The hour field of a text is empty or starts as the text does. *)
Lemma split_head (c : ascii) (rest : string) :
  nth 0 (split ":" (String c rest)) EmptyString = EmptyString \/
  exists w, nth 0 (split ":" (String c rest)) EmptyString = String c w.
Proof.
  cbn [split]. destruct (Ascii.eqb c ":"); [now left|].
  right. destruct (split ":" rest) as [|w ws]; eexists; reflexivity.
Qed.

End UnreadableHour.

(** X23. A time whose hour is no number.  For the empty text and for every
    text that starts with neither a blank, a sign nor a digit, [formatTime]
    shows hour 12, AM, and the minutes field as it is (["undefined"] when
    there is no colon): nothing is raised and no NaN is shown. *)
Theorem formatTime_unreadable_hour (time : string) :
  match time with
  | EmptyString => True
  | String c _ =>
      JS.isWhite c = false /\ JS.digitOf 10 c = None /\ JS.isChar c "+" "-" = false
  end ->
  SleepTrackingDisplay.formatTime time
  = [Types.Int 12; Types.Lit ":";
     Types.Lit (match nth_error (JS.split ":" time) 1 with
                | Some minutes => minutes
                | None => "undefined"
                end);
     Types.Lit " "; Types.Lit "AM"].
Proof.
  intros H.
  assert (E : SleepTrackingDisplay.parseInt (nth 0 (JS.split ":" time) EmptyString) = nan).
  { destruct time as [|c rest]; [reflexivity|]. destruct H as (W & D & S).
    destruct (split_head c rest) as [->|(w & ->)]; [reflexivity|].
    now apply parseInt_no_digit. }
  unfold SleepTrackingDisplay.formatTime. cbv zeta. rewrite E. reflexivity.
Qed.

Lemma formatTime_unreadable_hour_witness :
  SleepTrackingDisplay.formatTime "late"
  = [Types.Int 12; Types.Lit ":"; Types.Lit "undefined"; Types.Lit " "; Types.Lit "AM"].
Proof.
  apply (formatTime_unreadable_hour "late"). repeat split.
Defined.

(* ================================================================== *)
(** ** Saving twice, and in either order *)

Section StoreAlgebra.
Import Dates Types Arr HealthStore.

(** Exactly what a save leaves in a store of distinct dates. *)
Lemma saveEntryLocally_exactly (stored : store) (entry x : HealthEntrySchema) :
  NoDup (map date stored) ->
  In x (saveEntryLocally stored entry) <->
  x = toJSON entry \/
  exists e, In e stored /\ date e <> date entry /\ x = toJSON e.
Proof.
  intros N. split.
  - unfold saveEntryLocally, getLocalEntries. intros Hin.
    apply in_map_iff in Hin. destruct Hin as (y & <- & Hy).
    apply (Permutation_in _ (sort_permutation _ _)) in Hy.
    destruct (upsert_cases stored entry) as [(pre & old & post & E & Hd & Hpre & U)|[Hn U]];
      cbv zeta in U; rewrite U in Hy; clear U; apply in_app_or in Hy.
    + subst stored. rewrite map_app in N. cbn [map] in N.
      apply NoDup_remove_2 in N. rewrite Hd in N.
      destruct Hy as [Hy|[<-|Hy]]; [right|now left|right]; exists y.
      * split; [apply in_or_app; now left|]. split; [|reflexivity].
        intros K. apply Hpre. rewrite <- K. now apply in_map.
      * split; [apply in_or_app; right; now right|]. split; [|reflexivity].
        intros K. apply N. apply in_or_app. right. rewrite <- K. now apply in_map.
    + destruct Hy as [Hy|[<-|[]]]; [right|now left]. exists y.
      split; [exact Hy|]. split; [|reflexivity].
      intros K. apply Hn. rewrite <- K. now apply in_map.
  - intros [->|(e & He & Hd & ->)].
    + apply (proj1 (saveEntryLocally_members stored entry entry)).
    + now apply (proj2 (saveEntryLocally_members stored entry e)).
Qed.

Lemma strict_nodup (l : list HealthEntrySchema) :
  StronglySorted (fun a b => date b < date a) l -> NoDup l.
Proof.
  induction 1 as [|x l S IH F]; constructor; [|exact IH].
  intros Hin. rewrite Forall_forall in F. specialize (F x Hin). lia.
Qed.

Lemma saved_strictly_sorted (stored : store) (entry : HealthEntrySchema) :
  NoDup (map date stored) ->
  StronglySorted (fun a b => date b < date a) (saveEntryLocally stored entry).
Proof.
  intros N.
  assert (S : StronglySorted (fun a b => date b <= date a) (saveEntryLocally stored entry)).
  { unfold saveEntryLocally, getLocalEntries.
    generalize (sort_entries_descending
                  (if 0 <=? findIndex (fun e => date e =? date entry) stored
                   then assign (Z.to_nat (findIndex (fun e => date e =? date entry) stored))
                          entry stored
                   else stored ++ [entry])).
    cbv zeta.
    generalize (sort (descending time)
                  (if 0 <=? findIndex (fun e => date e =? date entry) stored
                   then assign (Z.to_nat (findIndex (fun e => date e =? date entry) stored))
                          entry stored
                   else stored ++ [entry])).
    intros l S. induction S as [|x r S IH F]; cbn [map]; constructor; [exact IH|].
    rewrite Forall_forall in *. intros y Hy. apply in_map_iff in Hy.
    destruct Hy as (y0 & <- & Hy). rewrite !date_toJSON. now apply F. }
  pose proof (saveEntryLocally_nodup stored entry N) as N'.
  revert N'. induction S as [|x r S IH F]; intros N'; constructor.
  - apply IH. cbn [map] in N'. now inversion N'.
  - cbn [map] in N'. inversion N' as [|? ? Hx Hr]; subst.
    rewrite Forall_forall in *. intros y Hy. specialize (F y Hy).
    assert (date y <> date x) by (intros K; apply Hx; rewrite <- K; now apply in_map).
    lia.
Qed.

(** Two stores in strictly descending date order holding the same entries
    are the same store. *)
Lemma store_extensional (l l' : store) :
  StronglySorted (fun a b => date b < date a) l ->
  StronglySorted (fun a b => date b < date a) l' ->
  (forall x, In x l <-> In x l') -> l = l'.
Proof.
  intros S S' M.
  apply (strict_sorted_unique (fun a b => date b < date a)); try assumption.
  - intros a b. lia.
  - apply NoDup_Permutation; [now apply strict_nodup | now apply strict_nodup | exact M].
Qed.

End StoreAlgebra.

(** X24. Saving the same entry twice is saving it once: in a store of
    distinct dates the second [saveEntryLocally] of an entry leaves the
    store exactly as the first one left it. *)
Theorem save_twice_is_save_once (stored : HealthStore.store)
    (entry : Types.HealthEntrySchema) :
  NoDup (map Types.date stored) ->
  HealthStore.saveEntryLocally (HealthStore.saveEntryLocally stored entry) entry
  = HealthStore.saveEntryLocally stored entry.
Proof.
  intros N. pose proof (saveEntryLocally_nodup stored entry N) as N1.
  apply store_extensional; try (now apply saved_strictly_sorted).
  intros x. rewrite (saveEntryLocally_exactly _ entry x N1).
  rewrite (saveEntryLocally_exactly stored entry x N). split.
  - intros [->|(y & Hy & Hd & ->)]; [now left|].
    apply (saveEntryLocally_exactly stored entry y N) in Hy.
    destruct Hy as [->|(e & He & Hde & ->)]; [now contradiction Hd|].
    right. exists e. rewrite toJSON_idempotent. now repeat split.
  - intros [->|(e & He & Hd & ->)]; [now left|].
    right. exists (HealthStore.toJSON e). rewrite toJSON_idempotent.
    split; [|now split].
    apply (saveEntryLocally_exactly stored entry _ N). right. now exists e.
Qed.

Lemma save_twice_is_save_once_witness :
  HealthStore.saveEntryLocally
    (HealthStore.saveEntryLocally [Sample.entry 3 5 7 5; Sample.entry 9 5 7 5]
       (Sample.entry 9 8 8 2))
    (Sample.entry 9 8 8 2)
  = HealthStore.saveEntryLocally [Sample.entry 3 5 7 5; Sample.entry 9 5 7 5]
      (Sample.entry 9 8 8 2).
Proof.
  apply (save_twice_is_save_once [Sample.entry 3 5 7 5; Sample.entry 9 5 7 5]
           (Sample.entry 9 8 8 2)).
  repeat constructor; simpl; intuition discriminate.
Defined.

(** X25. Entries of different dates can be saved in either order: in a
    store of distinct dates both orders leave the same store. *)
Theorem saves_commute (stored : HealthStore.store) (e1 e2 : Types.HealthEntrySchema) :
  NoDup (map Types.date stored) ->
  Types.date e1 <> Types.date e2 ->
  HealthStore.saveEntryLocally (HealthStore.saveEntryLocally stored e1) e2
  = HealthStore.saveEntryLocally (HealthStore.saveEntryLocally stored e2) e1.
Proof.
  intros N D.
  assert (K : forall a b x,
             Types.date a <> Types.date b ->
             In x (HealthStore.saveEntryLocally (HealthStore.saveEntryLocally stored a) b) ->
             In x (HealthStore.saveEntryLocally (HealthStore.saveEntryLocally stored b) a)).
  { intros a b x Dab Hx.
    pose proof (saveEntryLocally_nodup stored a N) as Na.
    pose proof (saveEntryLocally_nodup stored b N) as Nb.
    apply (saveEntryLocally_exactly _ b x Na) in Hx.
    apply (saveEntryLocally_exactly _ a x Nb).
    destruct Hx as [->|(y & Hy & Hd & ->)].
    - right. exists (HealthStore.toJSON b). rewrite toJSON_idempotent.
      split; [|split; [now apply not_eq_sym | reflexivity]].
      apply (saveEntryLocally_exactly stored b _ N). now left.
    - apply (saveEntryLocally_exactly stored a y N) in Hy.
      destruct Hy as [->|(e & He & Hde & ->)].
      + left. now rewrite toJSON_idempotent.
      + right. exists (HealthStore.toJSON e). split; [|now split].
        apply (saveEntryLocally_exactly stored b _ N). right. now exists e. }
  apply store_extensional.
  - apply saved_strictly_sorted. now apply saveEntryLocally_nodup.
  - apply saved_strictly_sorted. now apply saveEntryLocally_nodup.
  - intros x. split; apply K; [exact D | now apply not_eq_sym].
Qed.

Lemma saves_commute_witness :
  HealthStore.saveEntryLocally
    (HealthStore.saveEntryLocally [Sample.entry 3 5 7 5] (Sample.entry 9 8 8 2))
    (Sample.entry 5 6 6 6)
  = HealthStore.saveEntryLocally
      (HealthStore.saveEntryLocally [Sample.entry 3 5 7 5] (Sample.entry 5 6 6 6))
      (Sample.entry 9 8 8 2).
Proof.
  apply (saves_commute [Sample.entry 3 5 7 5] (Sample.entry 9 8 8 2) (Sample.entry 5 6 6 6)).
  - repeat constructor; simpl; intuition discriminate.
  - discriminate.
Defined.

(* ================================================================== *)
(** ** Logging with an unreadable time *)



(** The bounds of the streaks, at a zone without clock changes. *)
Lemma longest_streak_bounds_witness :
  let streaks :=
    fst (GamificationService.calculateStreaks Dates.utc 14 Sample.twoWeeks) in
  StreakData.currentStreak streaks <= StreakData.longestStreak streaks.
Proof.
  refine (proj1 (longest_streak_bounds Dates.utc 14 Sample.twoWeeks _)).
  exists 0. split; reflexivity.
Defined.

(* ================================================================== *)
(** ** Which trends become insights *)

Section ReportedTrends.
Import JS Types Arr CorrelationsService.
Local Open Scope float_scope.

(** A double below 5 is not above 10. *)
Lemma below_five_not_above_ten (x : float) : (x <? 5) = true -> (10 <? x) = false.
Proof.
  rewrite !FloatAxioms.ltb_spec.
  change (Prim2SF 5) with (S754_finite false 5629499534213120 (-50)).
  change (Prim2SF 10) with (S754_finite false 5629499534213120 (-49)).
  destruct (Prim2SF x) as [s|s| |s m e]; try reflexivity.
  - destruct s; [reflexivity | discriminate].
  - destruct s; [reflexivity|].
    unfold SpecFloat.SFltb, SpecFloat.SFcompare.
    destruct (Z.compare_spec e (-50)) as [E|E|E]; try discriminate.
    + subst e. intros _. reflexivity.
    + intros _. destruct (Z.compare_spec (-49) e) as [E'|E'|E']; try reflexivity; lia.
Qed.

Lemma analyzeTrends_shape (entries : list HealthEntrySchema) (metric : string) (days : Z)
    (t : TrendAnalysis.t) :
  analyzeTrends entries metric days = Some t ->
  exists changeRate,
    TrendAnalysis.changeRate t = abs changeRate /\
    TrendAnalysis.trend t
    = (if abs changeRate <? 5 then TrendAnalysis.stable
       else if 0 <? changeRate then TrendAnalysis.increasing
       else TrendAnalysis.decreasing) /\
    In (TrendAnalysis.significance t) [1; 0.01; 0.05; 0.10; 0.20].
Proof.
  unfold analyzeTrends. destruct (_ <? 3)%Z; [discriminate|]. cbv zeta.
  destruct (_ <? 2)%Z; [discriminate|]. intros E. injection E as <-.
  eexists. cbn [TrendAnalysis.changeRate TrendAnalysis.trend TrendAnalysis.significance].
  split; [reflexivity|]. split; [reflexivity|].
  unfold calculateSignificance.
  destruct (_ <? 3)%Z; [now left|]. cbv zeta.
  destruct (2.576 <? _); [right; now left|].
  destruct (1.96 <? _); [right; right; now left|].
  destruct (1.645 <? _); [right; right; right; now left|].
  right; right; right; right; now left.
Qed.

End ReportedTrends.

(** X29. Reported trends are changes.  Every trend insight of
    [CorrelationsService.generateInsights] rests on a change rate above 10
    and names a direction that is increasing or decreasing: a metric
    classified as stable (rate below 5) is never reported.  Its confidence
    is one of 0, 0.99, 0.95, 0.9 and 0.8. *)
Theorem reported_trends_are_changes (entries : list Types.HealthEntrySchema)
    (i : HealthInsight.t) (t : TrendAnalysis.t) :
  In i (CorrelationsService.generateInsights entries) ->
  HealthInsight.data i = HealthInsight.OfTrend t ->
  TrendAnalysis.trend t <> TrendAnalysis.stable /\
  (10 <? TrendAnalysis.changeRate t)%float = true /\
  HealthInsight.type i = HealthInsight.trend /\
  In (HealthInsight.confidence i) [0; 0.99; 0.95; 0.9; 0.8]%float.
Proof.
  unfold CorrelationsService.generateInsights.
  destruct (Z.of_nat (length entries) <? 7).
  { intros [<-|[]]. discriminate. }
  cbv zeta. intros Hin Hd.
  apply (Permutation_in _ (sort_permutation _ _)) in Hin.
  apply in_app_or in Hin. destruct Hin as [Hin|Hin].
  { apply in_flat_map in Hin. destruct Hin as (c & _ & Hin).
    destruct (0.3 <? abs (SleepCorrelation.correlation c))%float; [|destruct Hin].
    destruct Hin as [<-|[]]. discriminate. }
  apply in_app_or in Hin. destruct Hin as [Hin|Hin].
  - apply in_flat_map in Hin. destruct Hin as (m & _ & Hin).
    destruct (CorrelationsService.analyzeTrends entries m CorrelationsService.defaultDays)
      as [t'|] eqn:E; [|destruct Hin].
    destruct (10 <? TrendAnalysis.changeRate t')%float eqn:R; [|destruct Hin].
    destruct Hin as [<-|[]]. cbn [HealthInsight.data] in Hd. injection Hd as <-.
    destruct (analyzeTrends_shape _ _ _ _ E) as (cr & Hc & Ht & Hs).
    cbn [HealthInsight.type HealthInsight.confidence].
    split; [|split; [exact R|split; [reflexivity|]]].
    + rewrite Ht. rewrite Hc in R.
      destruct (abs cr <? 5)%float eqn:B.
      * rewrite (below_five_not_above_ten _ B) in R. discriminate.
      * destruct (0 <? cr)%float; discriminate.
    + cbn [In] in Hs.
      destruct Hs as [<-|[<-|[<-|[<-|[<-|[]]]]]]; vm_compute; auto 6.
  - exfalso. destruct (patterns_actionable entries) as [F _].
    rewrite Forall_forall in F. specialize (F i Hin). destruct F as (_ & _ & Hty).
    unfold CorrelationsService.analyzeSleepPatterns in Hin.
    destruct (Z.of_nat (length entries) <? 7); [destruct Hin|]. cbv zeta in Hin.
    repeat match type of Hin with
           | In _ (_ ++ _) => apply in_app_or in Hin; destruct Hin as [Hin|Hin]
           end;
      match type of Hin with
      | In _ (if ?c then _ else _) => destruct c; [|destruct Hin]
      end;
      destruct Hin as [<-|[]]; discriminate.
Qed.

Lemma reported_trends_are_changes_witness :
  let week :=
    [Sample.entry 1 1 7 5; Sample.entry 2 2 7 5; Sample.entry 3 3 7 5; Sample.entry 4 4 7 5;
     Sample.entry 5 5 7 5; Sample.entry 6 6 7 5; Sample.entry 7 7 7 5] in
  exists i t,
    In i (CorrelationsService.generateInsights week) /\
    HealthInsight.data i = HealthInsight.OfTrend t /\
    TrendAnalysis.trend t <> TrendAnalysis.stable.
Proof.
  intros week.
  pose (i := nth 0 (CorrelationsService.generateInsights week)
               (CorrelationsService.needMoreData 0)).
  pose (t := match HealthInsight.data i with
             | HealthInsight.OfTrend t => t
             | _ => TrendAnalysis.mk "" TrendAnalysis.stable 0 [] 0
             end).
  assert (H1 : In i (CorrelationsService.generateInsights week))
    by (vm_compute; left; reflexivity).
  assert (H2 : HealthInsight.data i = HealthInsight.OfTrend t) by (vm_compute; reflexivity).
  exists i, t. split; [exact H1|]. split; [exact H2|].
  exact (proj1 (reported_trends_are_changes week i t H1 H2)).
Defined.

(* ================================================================== *)
(** ** The next level *)

(** X30. The next level is always ahead.  For every entry list the
    statistics have [level >= 1] and
    [experience < nextLevelExp <= experience + 100]: the threshold shown for
    the next level is never reached already and never more than one level
    away; at every tenth entry it is exactly 100 points ahead. *)
Theorem next_level_is_ahead (s : GamificationService.state) (z : Dates.zone) (today : Z)
    (healthData : list Types.HealthEntrySchema) :
  let stats := fst (GamificationService.calculateStats s z today healthData) in
  1 <= UserStats.level stats /\
  UserStats.experience stats < UserStats.nextLevelExp stats
    <= UserStats.experience stats + 100 /\
  (UserStats.nextLevelExp stats = UserStats.experience stats + 100
   <-> Z.of_nat (length healthData) mod 10 = 0).
Proof.
  unfold GamificationService.calculateStats.
  destruct (GamificationService.calculateImprovementTrend healthData) as [trend data1].
  destruct (GamificationService.calculateStreaks z today data1) as [streaks data2].
  cbn [fst UserStats.level UserStats.experience UserStats.nextLevelExp].
  set (n := Z.of_nat (length healthData)).
  assert (Hn : 0 <= n) by (unfold n; lia).
  assert (E : n * 10 / 100 = n / 10).
  { replace 100 with (10 * 10) by reflexivity.
    rewrite Z.mul_comm, Z.div_mul_cancel_l by lia. reflexivity. }
  rewrite E.
  pose proof (Z.div_mod n 10 ltac:(lia)) as D.
  pose proof (Z.mod_pos_bound n 10 ltac:(lia)) as B.
  pose proof (Z.div_pos n 10 Hn ltac:(lia)) as P.
  repeat split; lia.
Qed.
